(** * ArgoCD backend router: a shallow embedding of [createRouter]

    Source: plugins/backend/backstage-plugin-argo-cd-backend/src/service/router.ts

    The router closes over an [ArgoService] client, the configured instance
    array and the poll budget [argoWaitCycles].  Each route handler is an
    [async] function that calls the client, may catch what the client
    throws, and finally sends one HTTP response.  The handlers are embedded
    as computations in a small trace-and-exception monad: the trace records
    every call on an external collaborator (client, logger, timer) in program
    order, and an uncaught JavaScript exception is the [Throws] outcome. *)

From Stdlib Require Import ZArith QArith Qround List String Bool Lia.
From Equations Require Import Equations.
Import ListNotations.
Close Scope Q_scope.
Open Scope string_scope.
Open Scope Z_scope.

(** ** JavaScript values

    Only the operators the handlers apply are modelled: truthiness ([!x],
    [a || b]), [typeof x === 'string'], strict equality with a string,
    property read and the [in] operator. *)

#[warnings="-register-all"]
Inductive JsVal : Type :=
| JUndefined
| JNull
| JBool (b : bool)
| JNum (n : Z)
| JStr (s : string)
| JObj (fields : list (string * JsVal)).

Inductive Outcome (A : Type) : Type :=
| Returns (a : A)
| Throws (e : JsVal).
Arguments Returns {A} a.
Arguments Throws {A} e.

Definition truthy (v : JsVal) : bool :=
  match v with
  | JUndefined | JNull => false
  | JBool b => b
  | JNum n => negb (n =? 0)
  | JStr s => negb (s =? "")%string
  | JObj _ => true
  end.

(** [a || b] *)
Definition js_or (a b : JsVal) : JsVal := if truthy a then a else b.

(** [typeof v === 'string'] *)
Definition typeof_string (v : JsVal) : bool :=
  match v with JStr _ => true | _ => false end.

(** [s === v] for a string [s] *)
Definition strict_eq_str (s : string) (v : JsVal) : bool :=
  match v with JStr t => (s =? t)%string | _ => false end.

Fixpoint lookup_field (k : string) (fs : list (string * JsVal)) : option JsVal :=
  match fs with
  | [] => None
  | (k', v) :: fs' => if (k =? k')%string then Some v else lookup_field k fs'
  end.

(** The [TypeError] the engine raises; its text is engine specific. *)
Definition TypeError (what : string) : JsVal :=
  JObj [("name", JStr "TypeError"); ("message", JStr what)].

(** [v.k] for the keys the handlers read ([status], [message]), which no
    primitive carries: reading them off [null] or [undefined] throws, off any
    other primitive gives [undefined]. *)
Definition get_prop (v : JsVal) (k : string) : Outcome JsVal :=
  match v with
  | JUndefined | JNull => Throws (TypeError "Cannot read properties of null or undefined")
  | JObj fs => Returns (match lookup_field k fs with Some x => x | None => JUndefined end)
  | _ => Returns JUndefined
  end.

(** [k in v]: throws unless [v] is an object. *)
Definition js_in (k : string) (v : JsVal) : Outcome bool :=
  match v with
  | JObj fs => Returns (match lookup_field k fs with Some _ => true | None => false end)
  | _ => Throws (TypeError "Cannot use 'in' operator in a non-object")
  end.

(** ** Data of the router *)

(** An element of [argoInstanceArray]. *)
Record Instance : Type := {
  name : string;
  url : string;
  token : option string;
  username : option string;
  password : option string
}.

(** [export type Response = { status: string, message: string }] *)
Record Response : Type := {
  status : string;
  message : string
}.

(** The query descriptor handed to [getArgoAppData]. *)
Inductive AppRef : Type :=
| ByName (n : string)
| BySelector (s : string).

(** The JSON body of [POST /createArgo]; every field is read as is. *)
Record CreateBody : Type := {
  clusterName : JsVal;
  namespace : JsVal;
  projectName : JsVal;
  appName : JsVal;
  labelValue : JsVal;
  sourceRepo : JsVal;
  sourcePath : JsVal
}.

Record ProjectArgs : Type := {
  pa_baseUrl : string;
  pa_argoToken : string;
  pa_projectName : JsVal;
  pa_namespace : JsVal;
  pa_sourceRepo : JsVal
}.

Record ApplicationArgs : Type := {
  aa_baseUrl : string;
  aa_argoToken : string;
  aa_projectName : JsVal;
  aa_appName : JsVal;
  aa_namespace : JsVal;
  aa_sourceRepo : JsVal;
  aa_sourcePath : JsVal;
  aa_labelValue : JsVal
}.

(** What a handler passes to [response.send]. *)
Inductive Body : Type :=
| BodyStatusMessage (st : JsVal) (msg : JsVal)
| BodyData (v : JsVal)
| BodyCreated (argoProjectName argoAppName kubernetesNamespace : JsVal)
| BodyDelete (argoDeleteAppResp argoDeleteProjectResp : Response).

(** The HTTP status ([response.status(..)], 200 when it is not called) and
    the body sent. *)
Record HttpResponse : Type := {
  http_status : JsVal;
  body : Body
}.

(** ** External collaborators

    [ArgoService] is not part of the router; a request sees it only through
    the results of its calls.  Every method but [getArgoAppData] is called at
    most once per request, so its result is a function of the arguments;
    [getArgoAppData] is called once per poll attempt, and its first argument
    is the number of [getArgoAppData] calls the request has already made. *)
Record ArgoService : Type := {
  getArgoToken : Instance -> Outcome string;
  getArgoAppData : nat -> string -> string -> AppRef -> string -> Outcome JsVal;
  createArgoProject : ProjectArgs -> Outcome unit;
  createArgoApplication : ApplicationArgs -> Outcome unit;
  deleteApp : string -> string -> string -> Outcome bool;
  deleteProject : string -> string -> string -> Outcome unit
}.

Inductive Event : Type :=
| EvLogInfo (msg : string)
| EvLogError (e : JsVal)
| EvTimer (ms : Z)
| EvGetArgoToken (i : Instance)
| EvGetArgoAppData (baseUrl instanceName : string) (r : AppRef) (tok : string)
| EvCreateArgoProject (a : ProjectArgs)
| EvCreateArgoApplication (a : ApplicationArgs)
| EvDeleteApp (baseUrl argoApplicationName argoToken : string)
| EvDeleteProject (baseUrl argoProjectName argoToken : string).

Definition Trace : Type := list Event.

Definition is_getArgoAppData (ev : Event) : bool :=
  match ev with EvGetArgoAppData _ _ _ _ => true | _ => false end.

Definition is_deleteProject (ev : Event) : bool :=
  match ev with EvDeleteProject _ _ _ => true | _ => false end.

Definition is_createArgoApplication (ev : Event) : bool :=
  match ev with EvCreateArgoApplication _ => true | _ => false end.

(** Calls on the ArgoCD client, as opposed to the logger and the timer. *)
Definition is_client_call (ev : Event) : bool :=
  match ev with
  | EvLogInfo _ | EvLogError _ | EvTimer _ => false
  | _ => true
  end.

Definition count_calls (p : Event -> bool) (tr : Trace) : nat :=
  List.length (filter p tr).

(** ** The handler monad *)

Definition M (A : Type) : Type := Trace -> Outcome A * Trace.

Definition ret {A} (a : A) : M A := fun tr => (Returns a, tr).

Definition bind {A B} (m : M A) (k : A -> M B) : M B :=
  fun tr =>
    match m tr with
    | (Returns a, tr') => k a tr'
    | (Throws e, tr') => (Throws e, tr')
    end.

(** [try { m } catch (e) { h e }] *)
Definition try_catch {A} (m : M A) (h : JsVal -> M A) : M A :=
  fun tr =>
    match m tr with
    | (Returns a, tr') => (Returns a, tr')
    | (Throws e, tr') => h e tr'
    end.

(** A pure operator that may throw. *)
Definition lift {A} (o : Outcome A) : M A := fun tr => (o, tr).

(** A call on a collaborator: logged, then answered. *)
Definition call {A} (ev : Event) (o : Outcome A) : M A :=
  fun tr => (o, (tr ++ [ev])%list).

Notation "x <- m ;; k" := (bind m (fun x => k))
  (at level 61, m at next level, right associativity).
Notation "m ;;; k" := (bind m (fun _ => k))
  (at level 61, right associativity).

(** ** The locals of the DELETE handler *)

Record DelVars : Type := {
  argoDeleteProjectResp : Response;
  argoDeleteAppResp : Response;
  countinueToDeleteProject : bool;
  isAppexist : bool;
  isAppPendingDelete : bool
}.

Definition set_argoDeleteProjectResp (r : Response) (v : DelVars) : DelVars :=
  {| argoDeleteProjectResp := r;
     argoDeleteAppResp := argoDeleteAppResp v;
     countinueToDeleteProject := countinueToDeleteProject v;
     isAppexist := isAppexist v;
     isAppPendingDelete := isAppPendingDelete v |}.

Definition set_argoDeleteAppResp (r : Response) (v : DelVars) : DelVars :=
  {| argoDeleteProjectResp := argoDeleteProjectResp v;
     argoDeleteAppResp := r;
     countinueToDeleteProject := countinueToDeleteProject v;
     isAppexist := isAppexist v;
     isAppPendingDelete := isAppPendingDelete v |}.

Definition set_countinueToDeleteProject (b : bool) (v : DelVars) : DelVars :=
  {| argoDeleteProjectResp := argoDeleteProjectResp v;
     argoDeleteAppResp := argoDeleteAppResp v;
     countinueToDeleteProject := b;
     isAppexist := isAppexist v;
     isAppPendingDelete := isAppPendingDelete v |}.

Definition set_isAppexist (b : bool) (v : DelVars) : DelVars :=
  {| argoDeleteProjectResp := argoDeleteProjectResp v;
     argoDeleteAppResp := argoDeleteAppResp v;
     countinueToDeleteProject := countinueToDeleteProject v;
     isAppexist := b;
     isAppPendingDelete := isAppPendingDelete v |}.

Definition set_isAppPendingDelete (b : bool) (v : DelVars) : DelVars :=
  {| argoDeleteProjectResp := argoDeleteProjectResp v;
     argoDeleteAppResp := argoDeleteAppResp v;
     countinueToDeleteProject := countinueToDeleteProject v;
     isAppexist := isAppexist v;
     isAppPendingDelete := b |}.

(** How one run of the loop body ends: [break], or on to [attempts++]
    (by falling off the end of the body or by [continue]). *)
Inductive LoopExit : Type :=
| Break (v : DelVars)
| Next (v : DelVars).

(** The message every route sends for an unknown instance. *)
Definition instance_not_found : HttpResponse :=
  {| http_status := JNum 500;
     body := BodyStatusMessage (JStr "failed")
               (JStr "cannot find an argo instance to match this cluster") |}.

Definition send (b : Body) : HttpResponse :=
  {| http_status := JNum 200; body := b |}.

(** ** The router *)

Section Router.

(** [const argoSvc = new ArgoService(..)] *)
Variable argoSvc : ArgoService.
(** [config.getOptionalNumber('argocd.waitCycles') ?? 5], an integer here. *)
Variable argoWaitCycles : Z.
(** The instances of every [config] locator, in configuration order. *)
Variable argoInstanceArray : list Instance.

(** [argoInstanceArray.find(argoInstance => argoInstance.name === n)] *)
Definition find_instance (n : JsVal) : option Instance :=
  find (fun argoInstance => strict_eq_str (name argoInstance) n) argoInstanceArray.

(** The token block every instance-scoped handler repeats:
    [if (!matchedArgoInstance.token) token = await argoSvc.getArgoToken(..)
     else token = matchedArgoInstance.token]. *)
Definition acquire_token (matchedArgoInstance : Instance) : M string :=
  match token matchedArgoInstance with
  | Some t =>
      if truthy (JStr t) then ret t
      else call (EvGetArgoToken matchedArgoInstance)
                (getArgoToken argoSvc matchedArgoInstance)
  | None => call (EvGetArgoToken matchedArgoInstance)
                 (getArgoToken argoSvc matchedArgoInstance)
  end.

Definition call_getArgoAppData (baseUrl instanceName : string) (r : AppRef)
    (tok : string) : M JsVal :=
  fun tr =>
    (getArgoAppData argoSvc (count_calls is_getArgoAppData tr)
       baseUrl instanceName r tok,
     (tr ++ [EvGetArgoAppData baseUrl instanceName r tok])%list).

(** [GET /argoInstance/:argoInstanceName/applications/name/:argoAppName] *)
Definition get_by_name (argoInstanceName argoAppName : string) : M HttpResponse :=
  call (EvLogInfo ("Getting info on " ++ argoAppName)) (Returns tt) ;;;
  call (EvLogInfo ("Getting app " ++ argoAppName ++ " on " ++ argoInstanceName))
       (Returns tt) ;;;
  match find_instance (JStr argoInstanceName) with
  | None => ret instance_not_found
  | Some matchedArgoInstance =>
      tok <- acquire_token matchedArgoInstance ;;
      resp <- call_getArgoAppData (url matchedArgoInstance)
                (name matchedArgoInstance) (ByName argoAppName) tok ;;
      ret (send (BodyData resp))
  end.

(** [GET /argoInstance/:argoInstanceName/applications/selector/:argoAppSelector] *)
Definition get_by_selector (argoInstanceName argoAppSelector : string)
    : M HttpResponse :=
  call (EvLogInfo ("Getting apps for selector " ++ argoAppSelector ++ " on "
                     ++ argoInstanceName)) (Returns tt) ;;;
  match find_instance (JStr argoInstanceName) with
  | None => ret instance_not_found
  | Some matchedArgoInstance =>
      tok <- acquire_token matchedArgoInstance ;;
      resp <- call_getArgoAppData (url matchedArgoInstance)
                (name matchedArgoInstance) (BySelector argoAppSelector) tok ;;
      ret (send (BodyData resp))
  end.

(** The error response of the token and project steps of [createArgo]:
    [response.status(e.status || 500).send({status: e.status, message: msg})]. *)
Definition send_error (e_status msg : JsVal) : HttpResponse :=
  {| http_status := js_or e_status (JNum 500);
     body := BodyStatusMessage e_status msg |}.

(** [POST /createArgo].  A step that answers the request early yields
    [inl response]; [inr] carries on. *)
Definition create_argo (b : CreateBody) : M HttpResponse :=
  match find_instance (clusterName b) with
  | None => ret instance_not_found
  | Some matchedArgoInstance =>
      t <- try_catch
             (tok <- acquire_token matchedArgoInstance ;; ret (inr tok))
             (fun e =>
                st <- lift (get_prop e "status") ;;
                msg <- lift (get_prop e "message") ;;
                ret (inl (send_error st msg))) ;;
      match t with
      | inl early => ret early
      | inr tok =>
          p <- try_catch
                 (call (EvCreateArgoProject
                          {| pa_baseUrl := url matchedArgoInstance;
                             pa_argoToken := tok;
                             pa_projectName := projectName b;
                             pa_namespace := namespace b;
                             pa_sourceRepo := sourceRepo b |})
                       (createArgoProject argoSvc
                          {| pa_baseUrl := url matchedArgoInstance;
                             pa_argoToken := tok;
                             pa_projectName := projectName b;
                             pa_namespace := namespace b;
                             pa_sourceRepo := sourceRepo b |}) ;;;
                  ret (inr tt))
                 (fun e =>
                    call (EvLogError e) (Returns tt) ;;;
                    st <- lift (get_prop e "status") ;;
                    msg <- lift (get_prop e "message") ;;
                    ret (inl (send_error st
                                (js_or msg (JStr "Failed to create argo project"))))) ;;
          match p with
          | inl early => ret early
          | inr _ =>
              try_catch
                (call (EvCreateArgoApplication
                         {| aa_baseUrl := url matchedArgoInstance;
                            aa_argoToken := tok;
                            aa_projectName := projectName b;
                            aa_appName := appName b;
                            aa_namespace := namespace b;
                            aa_sourceRepo := sourceRepo b;
                            aa_sourcePath := sourcePath b;
                            aa_labelValue := labelValue b |})
                      (createArgoApplication argoSvc
                         {| aa_baseUrl := url matchedArgoInstance;
                            aa_argoToken := tok;
                            aa_projectName := projectName b;
                            aa_appName := appName b;
                            aa_namespace := namespace b;
                            aa_sourceRepo := sourceRepo b;
                            aa_sourcePath := sourcePath b;
                            aa_labelValue := labelValue b |}) ;;;
                 ret (send (BodyCreated (projectName b) (appName b) (namespace b))))
                (fun e =>
                   call (EvLogError e) (Returns tt) ;;;
                   msg <- lift (get_prop e "message") ;;
                   ret {| http_status := JNum 500;
                          body := BodyStatusMessage (JNum 500)
                                    (js_or msg (JStr "Failed to create argo app")) |})
          end
      end
  end.

(** *** The DELETE handler *)

Definition call_deleteApp (baseUrl argoApplicationName argoToken : string)
    : M bool :=
  call (EvDeleteApp baseUrl argoApplicationName argoToken)
       (deleteApp argoSvc baseUrl argoApplicationName argoToken).

Definition call_deleteProject (baseUrl argoProjectName argoToken : string)
    : M unit :=
  call (EvDeleteProject baseUrl argoProjectName argoToken)
       (deleteProject argoSvc baseUrl argoProjectName argoToken).

(** [await timer(5000)]: the delay primitive returns. *)
Definition call_timer (ms : Z) : M unit := call (EvTimer ms) (Returns tt).

(** The locals as declared: both responses empty, both flags [true]; the
    source declares [isAppPendingDelete = false] after the first [try]. *)
Definition initial_vars : DelVars :=
  {| argoDeleteProjectResp := {| status := ""; message := "" |};
     argoDeleteAppResp := {| status := ""; message := "" |};
     countinueToDeleteProject := true;
     isAppexist := true;
     isAppPendingDelete := false |}.

(** The first [try]/[catch]: the delete call.  The [try] block assigns only
    after the call has returned, so the handler starts from [v]. *)
Definition delete_app_step (matchedArgoInstance : Instance)
    (argoAppName tok : string) (v : DelVars) : M DelVars :=
  try_catch
    (deleteAppResp <- call_deleteApp (url matchedArgoInstance) argoAppName tok ;;
     if negb deleteAppResp
     then ret (set_argoDeleteAppResp
                 {| status := "failed"; message := "error with deleteing argo app" |}
                 (set_countinueToDeleteProject false v))
     else ret v)
    (fun e =>
       m <- lift (get_prop e "message") ;;
       match m with
       | JStr msg =>
           ret (set_argoDeleteAppResp {| status := "failed"; message := msg |}
                  (set_countinueToDeleteProject true (set_isAppexist false v)))
       | _ => ret v
       end).

(** One run of the body of the [for] loop.  Whatever the [try] block
    throws (the fetch, or [in] applied to a non-object) reaches the [catch]
    before any local was assigned. *)
Definition poll_body (matchedArgoInstance : Instance)
    (argoAppName tok : string) (attempts : Z) (v : DelVars) : M LoopExit :=
  try_catch
    (argoApp <- call_getArgoAppData (url matchedArgoInstance)
                  (name matchedArgoInstance) (ByName argoAppName) tok ;;
     pending <- lift (js_in "metadata" argoApp) ;;
     if negb pending
     then ret (Break (set_argoDeleteAppResp
                        {| status := "success";
                           message := "application is deleted successfully" |}
                        (set_isAppPendingDelete pending v)))
     else call_timer 5000 ;;; ret (Next (set_isAppPendingDelete pending v)))
    (fun _ =>
       if attempts =? argoWaitCycles
       then ret (Next (set_argoDeleteAppResp
                         {| status := "failed";
                            message := "error getting argo app data" |} v))
       else ret (Next v)).

(** [for (let attempts = 0; attempts < argoWaitCycles; attempts++) { .. }],
    entered at the loop test with the current value of [attempts]. *)
Equations? poll_loop (matchedArgoInstance : Instance)
    (argoAppName tok : string) (attempts : Z) (v : DelVars) : M DelVars
    by wf (Z.to_nat (argoWaitCycles - attempts)) lt :=
  poll_loop matchedArgoInstance argoAppName tok attempts v
    with Z_lt_dec attempts argoWaitCycles := {
    | left _ =>
        x <- poll_body matchedArgoInstance argoAppName tok attempts v ;;
        match x with
        | Break v' => ret v'
        | Next v' => poll_loop matchedArgoInstance argoAppName tok (attempts + 1) v'
        end
    | right _ => ret v }.
Proof. lia. Defined.

(** The last [try]/[catch]: the project decision. *)
Definition delete_project_step (matchedArgoInstance : Instance)
    (argoAppName tok : string) (v : DelVars) : M DelVars :=
  try_catch
    (if isAppPendingDelete v && isAppexist v
     then ret (set_argoDeleteProjectResp
                 {| status := "failed";
                    message := "skipping project deletion due to app deletion pending" |}
                 (set_argoDeleteAppResp
                    {| status := "failed"; message := "application pending delete" |} v))
     else if countinueToDeleteProject v
     then call_deleteProject (url matchedArgoInstance) argoAppName tok ;;;
          ret (set_argoDeleteProjectResp
                 {| status := "success"; message := "project is deleted successfully" |} v)
     else ret (set_argoDeleteProjectResp
                 {| status := "failed";
                    message := "skipping project deletion due to erro deleting argo app" |}
                 v))
    (fun e =>
       m <- lift (get_prop e "message") ;;
       match m with
       | JStr msg =>
           ret (set_argoDeleteProjectResp {| status := "failed"; message := msg |} v)
       | _ =>
           ret (set_argoDeleteProjectResp
                  {| status := "failed"; message := "error with deleteing argo project" |}
                  v)
       end).

(** [DELETE /argoInstance/:argoInstanceName/applications/:argoAppName] *)
Definition delete_handler (argoInstanceName argoAppName : string)
    : M HttpResponse :=
  call (EvLogInfo ("Getting info on " ++ argoInstanceName ++ " and " ++ argoAppName))
       (Returns tt) ;;;
  match find_instance (JStr argoInstanceName) with
  | None => ret instance_not_found
  | Some matchedArgoInstance =>
      tok <- acquire_token matchedArgoInstance ;;
      v1 <- delete_app_step matchedArgoInstance argoAppName tok initial_vars ;;
      v2 <- (if isAppexist v1
             then poll_loop matchedArgoInstance argoAppName tok 0 v1
             else ret v1) ;;
      v3 <- delete_project_step matchedArgoInstance argoAppName tok v2 ;;
      ret (send (BodyDelete (argoDeleteAppResp v3) (argoDeleteProjectResp v3)))
  end.

End Router.

(** A handler runs on the empty trace of its request. *)
Definition run {A} (m : M A) : Outcome A * Trace := m [].

(** ** Reading the environment

    What the claims say about the client's answers, as plain functions of
    the [ArgoService] record. *)

(** What one poll attempt learns from the answer of [getArgoAppData]: the
    application is gone (an object without [metadata]), still there (an
    object with [metadata]), or nothing (the call threw, or answered a
    non-object, on which [in] throws). *)
Inductive Observation : Type :=
| Gone
| StillThere
| Errored.

Definition observe (o : Outcome JsVal) : Observation :=
  match o with
  | Returns (JObj fs) =>
      match lookup_field "metadata" fs with
      | Some _ => StillThere
      | None => Gone
      end
  | _ => Errored
  end.

Definition Observation_eqb (x y : Observation) : bool :=
  match x, y with
  | Gone, Gone | StillThere, StillThere | Errored, Errored => true
  | _, _ => false
  end.

(** The token a request ends up with, and the client calls made for it. *)
Definition resolved_token (argoSvc : ArgoService) (i : Instance) : Outcome string :=
  fst (acquire_token argoSvc i []).

Definition token_events (argoSvc : ArgoService) (i : Instance) : Trace :=
  snd (acquire_token argoSvc i []).

(** The client signalled that the application does not exist: [deleteApp]
    threw an error whose [message] is a string. *)
Definition signals_absent {A : Type} (o : Outcome A) : bool :=
  match o with
  | Throws e =>
      match get_prop e "message" with
      | Returns (JStr _) => true
      | _ => false
      end
  | Returns _ => false
  end.

(** A client call threw [null] or [undefined]: reading [e.message] in the
    [catch] throws in turn, and the request is rejected with no response. *)
Definition throws_nullish {A : Type} (o : Outcome A) : bool :=
  match o with
  | Throws e =>
      match get_prop e "message" with
      | Throws _ => true
      | Returns _ => false
      end
  | Returns _ => false
  end.

(** What the DELETE handler has done when it reaches [deleteApp]. *)
Definition request_prefix (argoSvc : ArgoService) (i : Instance)
    (argoInstanceName argoAppName : string) : Trace :=
  (EvLogInfo ("Getting info on " ++ argoInstanceName ++ " and " ++ argoAppName)
     :: token_events argoSvc i)%list.

Section PollScript.

Variable argoSvc : ArgoService.
Variable matchedArgoInstance : Instance.
Variables argoAppName tok : string.

(** The answer to the poll fetch number [n] (from 0) of a request. *)
Definition fetch (n : nat) : Outcome JsVal :=
  getArgoAppData argoSvc n (url matchedArgoInstance) (name matchedArgoInstance)
    (ByName argoAppName) tok.

Definition fetch_event : Event :=
  EvGetArgoAppData (url matchedArgoInstance) (name matchedArgoInstance)
    (ByName argoAppName) tok.

(** The loop told by observations: [n] attempts left, the next fetch is
    number [c].  [poll_loop_run] below shows that [poll_loop] computes
    exactly this. *)
Fixpoint poll_run (n c : nat) (v : DelVars) : DelVars * Trace :=
  match n with
  | O => (v, [])
  | S n' =>
      match observe (fetch c) with
      | Gone =>
          (set_argoDeleteAppResp
             {| status := "success"; message := "application is deleted successfully" |}
             (set_isAppPendingDelete false v),
           [fetch_event])
      | StillThere =>
          let (v', t) := poll_run n' (S c) (set_isAppPendingDelete true v) in
          (v', fetch_event :: EvTimer 5000 :: t)
      | Errored =>
          let (v', t) := poll_run n' (S c) v in
          (v', fetch_event :: t)
      end
  end.

End PollScript.

(** The answer every instance-scoped route gives for an unknown instance,
    reached without a call on the ArgoCD client. *)
Definition rejected_unknown (r : Outcome HttpResponse * Trace) : Prop :=
  fst r
  = Returns {| http_status := JNum 500;
               body := BodyStatusMessage (JStr "failed")
                         (JStr "cannot find an argo instance to match this cluster") |}
  /\ filter is_client_call (snd r) = [].

(** ** Concrete environments

    The scenarios the properties are tried on. *)

(** An instance that logs in on demand, and one with a static token. *)
Definition prod_login : Instance :=
  {| name := "prod"; url := "https://argocd.prod"; token := None;
     username := None; password := None |}.

Definition prod_static : Instance :=
  {| name := "prod"; url := "https://argocd.prod"; token := Some "tok2";
     username := None; password := None |}.

(** A client whose answers are given up front; login issues [tok1]. *)
Definition scripted (deleted : Outcome bool) (polled : nat -> Outcome JsVal)
    (project_deleted project_created : Outcome unit) : ArgoService :=
  {| getArgoToken := fun _ => Returns "tok1";
     getArgoAppData := fun n _ _ _ _ => polled n;
     createArgoProject := fun _ => project_created;
     createArgoApplication := fun _ => Returns tt;
     deleteApp := fun _ _ _ => deleted;
     deleteProject := fun _ _ _ => project_deleted |}.

Definition app_present : JsVal :=
  JObj [("metadata", JObj [("name", JStr "app")]); ("instance", JStr "prod")].

Definition app_gone : JsVal :=
  JObj [("error", JStr "application not found"); ("instance", JStr "prod")].

Definition fetch_error : JsVal :=
  JObj [("message", JStr "Request failed with 500 Error")].

(** The delete call is accepted and every poll fetch throws. *)
Definition svc_fetch_fails : ArgoService :=
  scripted (Returns true) (fun _ => Throws fetch_error) (Returns tt) (Returns tt).

(** The delete call is rejected and the application never goes away. *)
Definition svc_rejected_pending : ArgoService :=
  scripted (Returns false) (fun _ => Returns app_present) (Returns tt) (Returns tt).

(** The delete call is rejected, yet the third poll finds the application
    gone. *)
Definition svc_rejected_gone : ArgoService :=
  scripted (Returns false)
    (fun n => if Nat.ltb n 2 then Returns app_present else Returns app_gone)
    (Returns tt) (Returns tt).

(** The delete call is accepted and the application never goes away. *)
Definition svc_pending : ArgoService :=
  scripted (Returns true) (fun _ => Returns app_present) (Returns tt) (Returns tt).

(** The delete call is accepted; the second fetch throws and the third
    finds the application gone. *)
Definition svc_gone_third : ArgoService :=
  scripted (Returns true)
    (fun n => match n with
              | 0%nat => Returns app_present
              | 1%nat => Throws fetch_error
              | _ => Returns app_gone
              end)
    (Returns tt) (Returns tt).

(** The application does not exist. *)
Definition svc_absent : ArgoService :=
  scripted (Throws (JObj [("message", JStr "app not found")]))
    (fun _ => Returns app_gone) (Returns tt) (Returns tt).

(** Project creation is refused. *)
Definition svc_project_refused : ArgoService :=
  scripted (Returns true) (fun _ => Returns app_gone) (Returns tt)
    (Throws (JObj [("status", JNum 403); ("message", JStr "permission denied")])).

Definition create_request : CreateBody :=
  {| clusterName := JStr "prod";
     namespace := JStr "team-a";
     projectName := JStr "proj";
     appName := JStr "app";
     labelValue := JStr "app";
     sourceRepo := JStr "https://git.example/repo";
     sourcePath := JStr "deploy" |}.

(** ** Further readings of the environment and of the trace *)

Definition is_getArgoToken (ev : Event) : bool :=
  match ev with EvGetArgoToken _ => true | _ => false end.

Definition is_deleteApp (ev : Event) : bool :=
  match ev with EvDeleteApp _ _ _ => true | _ => false end.

Definition is_createArgoProject (ev : Event) : bool :=
  match ev with EvCreateArgoProject _ => true | _ => false end.

Definition is_timer (ev : Event) : bool :=
  match ev with EvTimer _ => true | _ => false end.

(** [deleteApp] answered the boolean [false]. *)
Definition is_rejected (o : Outcome bool) : bool :=
  match o with Returns false => true | _ => false end.

(** The string message of the error [deleteApp] threw, if it has one. *)
Definition absent_message {A : Type} (o : Outcome A) : string :=
  match o with
  | Throws e =>
      match get_prop e "message" with
      | Returns (JStr m) => m
      | _ => ""
      end
  | Returns _ => ""
  end.

(** Some attempt among the first [n] made the observation [o]. *)
Definition saw (o : Observation) (f : nat -> Observation) (n : nat) : bool :=
  existsb (fun i => Observation_eqb (f i) o) (seq 0 n).

(** A poll of [n] attempts ends with the application still present: it was
    seen there and never seen gone. *)
Definition ends_pending (f : nat -> Observation) (n : nat) : bool :=
  saw StillThere f n && negb (saw Gone f n).

(** The same client with another answer to [deleteApp]. *)
Definition with_deleteApp (o : Outcome bool) (argoSvc : ArgoService) : ArgoService :=
  {| getArgoToken := getArgoToken argoSvc;
     getArgoAppData := getArgoAppData argoSvc;
     createArgoProject := createArgoProject argoSvc;
     createArgoApplication := createArgoApplication argoSvc;
     deleteApp := fun _ _ _ => o;
     deleteProject := deleteProject argoSvc |}.

(** The events of a poll of [n] attempts. *)
Definition poll_trace (argoSvc : ArgoService) (i : Instance)
    (argoAppName tok : string) (n : nat) : Trace :=
  snd (poll_run argoSvc i argoAppName tok n 0 initial_vars).

(** The arguments [createArgo] hands to the two creation calls. *)
Definition project_args (i : Instance) (tok : string) (b : CreateBody) : ProjectArgs :=
  {| pa_baseUrl := url i;
     pa_argoToken := tok;
     pa_projectName := projectName b;
     pa_namespace := namespace b;
     pa_sourceRepo := sourceRepo b |}.

Definition application_args (i : Instance) (tok : string) (b : CreateBody)
    : ApplicationArgs :=
  {| aa_baseUrl := url i;
     aa_argoToken := tok;
     aa_projectName := projectName b;
     aa_appName := appName b;
     aa_namespace := namespace b;
     aa_sourceRepo := sourceRepo b;
     aa_sourcePath := sourcePath b;
     aa_labelValue := labelValue b |}.

(** A handler that read [e.status] and [e.message] and then answered. *)
Definition answer_from_error (e : JsVal) (k : JsVal -> JsVal -> HttpResponse)
    : Outcome HttpResponse :=
  match get_prop e "status" with
  | Returns st =>
      match get_prop e "message" with
      | Returns msg => Returns (k st msg)
      | Throws e' => Throws e'
      end
  | Throws e' => Throws e'
  end.

(** The instance carries a static token the routes will use: one that is
    set and not the empty string ([!token] is false). *)
Definition has_static_token (i : Instance) : bool :=
  match token i with
  | Some t => negb (t =? "")%string
  | None => false
  end.

Definition client_calls (tr : Trace) : Trace := filter is_client_call tr.

(** ** Reading the configuration

    [createRouter] reads its settings through the [Config] interface of the
    framework, which is not part of the router: a reader may answer or throw
    (a missing mandatory key, a value of the wrong type).  The interface is
    taken as it is used: [getString], [getOptionalString],
    [getOptionalNumber] and [getConfigArray]. *)

Record ConfigReader (Config : Type) : Type := {
  getString : Config -> string -> Outcome string;
  getOptionalString : Config -> string -> Outcome (option string);
  getOptionalNumber : Config -> string -> Outcome (option Z);
  getConfigArray : Config -> string -> Outcome (list Config)
}.
Arguments getString {Config} _ _ _.
Arguments getOptionalString {Config} _ _ _.
Arguments getOptionalNumber {Config} _ _ _.
Arguments getConfigArray {Config} _ _ _.

(** Sequencing of computations that may throw. *)
Definition and_then {A B : Type} (o : Outcome A) (k : A -> Outcome B) : Outcome B :=
  match o with
  | Returns a => k a
  | Throws e => Throws e
  end.

(** [l.filter(p)], [l.reduce(f, acc)] and [l.map(f)] with a callback that
    may throw: elements are visited in order and the first throw ends the
    call. *)
Fixpoint array_filter {A : Type} (p : A -> Outcome bool) (l : list A)
    : Outcome (list A) :=
  match l with
  | [] => Returns []
  | x :: l' =>
      and_then (p x) (fun keep =>
      and_then (array_filter p l') (fun kept =>
      Returns (if keep then x :: kept else kept)))
  end.

Fixpoint array_reduce {A B : Type} (f : B -> A -> Outcome B) (l : list A) (acc : B)
    : Outcome B :=
  match l with
  | [] => Returns acc
  | x :: l' => and_then (f acc x) (fun acc' => array_reduce f l' acc')
  end.

Fixpoint array_map {A B : Type} (f : A -> Outcome B) (l : list A)
    : Outcome (list B) :=
  match l with
  | [] => Returns []
  | x :: l' =>
      and_then (f x) (fun y =>
      and_then (array_map f l') (fun ys => Returns (y :: ys)))
  end.

(** [o ?? d] *)
Definition nullish_or {A : Type} (o : option A) (d : A) : A :=
  match o with
  | Some a => a
  | None => d
  end.

(** What [createRouter] keeps of the configuration. *)
Record RouterSettings : Type := {
  argoUserName : string;
  argoPassword : string;
  settings_waitCycles : Z;
  settings_instances : list Instance
}.

Section Configuration.

Variable Config : Type.
Variable reader : ConfigReader Config.

(** The callback of [appArray.map]. *)
Definition read_instance (instance : Config) : Outcome Instance :=
  and_then (getString reader instance "name") (fun n =>
  and_then (getString reader instance "url") (fun u =>
  and_then (getOptionalString reader instance "token") (fun t =>
  and_then (getOptionalString reader instance "username") (fun un =>
  and_then (getOptionalString reader instance "password") (fun pw =>
  Returns {| name := n; url := u; token := t; username := un; password := pw |}))))).

(** [argoApps], [appArray] and [argoInstanceArray]. *)
Definition read_instances (config : Config) : Outcome (list Instance) :=
  and_then (getConfigArray reader config "argocd.appLocatorMethods") (fun methods =>
  and_then (array_filter
              (fun element =>
                 and_then (getString reader element "type") (fun t =>
                 Returns (t =? "config")%string))
              methods) (fun argoApps =>
  and_then (array_reduce
              (fun acc argoApp =>
                 and_then (getConfigArray reader argoApp "instances") (fun instances =>
                 Returns (acc ++ instances)%list))
              argoApps []) (fun appArray =>
  array_map read_instance appArray))).

(** The reads of [createRouter], in program order. *)
Definition read_settings (config : Config) : Outcome RouterSettings :=
  and_then (getOptionalString reader config "argocd.username") (fun un =>
  and_then (getOptionalString reader config "argocd.password") (fun pw =>
  and_then (getOptionalNumber reader config "argocd.waitCycles") (fun wc =>
  and_then (read_instances config) (fun instances =>
  Returns {| argoUserName := nullish_or un "argocdUsername";
             argoPassword := nullish_or pw "argocdPassword";
             settings_waitCycles := nullish_or wc 5;
             settings_instances := instances |})))).

(** The locator is of type [config]. *)
Definition is_config_locator (element : Config) : bool :=
  match getString reader element "type" with
  | Returns t => (t =? "config")%string
  | Throws _ => false
  end.

(** The instance entries a locator lists. *)
Definition listed_instances (argoApp : Config) : list Config :=
  match getConfigArray reader argoApp "instances" with
  | Returns instances => instances
  | Throws _ => []
  end.

End Configuration.

Arguments read_instance {Config} reader instance.
Arguments read_instances {Config} reader config.
Arguments read_settings {Config} reader config.
Arguments is_config_locator {Config} reader element.
Arguments listed_instances {Config} reader argoApp.

(** The time a request spends in [timer], in milliseconds. *)
Definition total_wait (tr : Trace) : Z :=
  fold_right (fun ev acc => match ev with EvTimer ms => ms + acc | _ => acc end) 0 tr.

(** ** Routes over every instance

    [/find/name], [/find/selector] and [/sync] make one client call each
    ([findArgoApp], [resyncAppOnAllArgos]) and resolve no instance; they are
    functions of what that call answers. *)

(** [GET /find/name/:argoAppName] *)
Definition find_by_name (findArgoApp : AppRef -> Outcome JsVal) (argoAppName : string)
    : Outcome HttpResponse :=
  and_then (findArgoApp (ByName argoAppName)) (fun r => Returns (send (BodyData r))).

(** [GET /find/selector/:argoAppSelector] *)
Definition find_by_selector (findArgoApp : AppRef -> Outcome JsVal)
    (argoAppSelector : string) : Outcome HttpResponse :=
  and_then (findArgoApp (BySelector argoAppSelector))
    (fun r => Returns (send (BodyData r))).

(** [POST /sync].  The route hands [request.body.appSelector] to the client
    and, when the error has no message, to a template literal.  It is
    parametric in what the selector is; [selector_to_string] is the string
    the template literal makes of it, or the [TypeError] of a value that has
    no string form. *)
Definition sync_handler {Selector : Type}
    (selector_to_string : Selector -> Outcome string)
    (resyncAppOnAllArgos : Selector -> Outcome JsVal) (appSelector : Selector)
    : Outcome HttpResponse :=
  match resyncAppOnAllArgos appSelector with
  | Returns argoSyncResp => Returns (send (BodyData argoSyncResp))
  | Throws e =>
      and_then (get_prop e "status") (fun st =>
      and_then (get_prop e "message") (fun msg =>
      and_then (if truthy msg then Returns msg
                else and_then (selector_to_string appSelector) (fun s =>
                     Returns (JStr ("Failed to sync your app, " ++ s ++ "."))))
        (fun m =>
      Returns {| http_status := js_or st (JNum 500);
                 body := BodyStatusMessage (js_or st (JNum 500)) m |})))
  end.

(** ** A concrete configuration

    A configuration tree with string and number leaves and arrays of
    sub-trees, read the way the framework does: a mandatory key that is
    missing throws, an optional one answers nothing. *)

#[warnings="-register-all"]
Inductive Cfg : Type :=
| CfgNode (strings : list (string * string)) (numbers : list (string * Z))
    (arrays : list (string * list Cfg)).

Fixpoint assoc {A : Type} (k : string) (l : list (string * A)) : option A :=
  match l with
  | [] => None
  | (k', a) :: l' => if (k =? k')%string then Some a else assoc k l'
  end.

Definition missing_key (k : string) : JsVal :=
  JObj [("message", JStr ("Missing required config value at '" ++ k ++ "'"))].

Definition cfg_reader : ConfigReader Cfg :=
  {| getString := fun c k =>
       match c with
       | CfgNode strings _ _ =>
           match assoc k strings with
           | Some s => Returns s
           | None => Throws (missing_key k)
           end
       end;
     getOptionalString := fun c k =>
       match c with CfgNode strings _ _ => Returns (assoc k strings) end;
     getOptionalNumber := fun c k =>
       match c with CfgNode _ numbers _ => Returns (assoc k numbers) end;
     getConfigArray := fun c k =>
       match c with
       | CfgNode _ _ arrays =>
           match assoc k arrays with
           | Some l => Returns l
           | None => Throws (missing_key k)
           end
       end |}.

(** Two instances under a [config] locator, and a locator of another type
    whose entry has no name. *)
Definition example_config : Cfg :=
  CfgNode [] []
    [("argocd.appLocatorMethods",
      [CfgNode [("type", "config")] []
         [("instances",
           [CfgNode [("name", "prod"); ("url", "https://argocd.prod");
                     ("token", "tok2")] [] [];
            CfgNode [("name", "staging"); ("url", "https://argocd.staging")] [] []])];
       CfgNode [("type", "kubernetes")] []
         [("instances", [CfgNode [("url", "https://argocd.other")] [] []])]])].

Definition staging_login : Instance :=
  {| name := "staging"; url := "https://argocd.staging"; token := None;
     username := None; password := None |}.

(** The delete call is accepted, the application goes away on the second
    poll, but the project deletion is refused. *)
Definition svc_project_delete_refused : ArgoService :=
  scripted (Returns true)
    (fun n => match n with 0%nat => Returns app_present | _ => Returns app_gone end)
    (Throws (JObj [("message", JStr "project has applications")])) (Returns tt).

(** The delete call throws an error without a message. *)
Definition svc_unreadable_delete_error : ArgoService :=
  scripted (Throws (JObj [("code", JNum 7)])) (fun _ => Returns app_gone)
    (Returns tt) (Returns tt).

(** The login is refused. *)
Definition svc_login_refused : ArgoService :=
  {| getArgoToken := fun _ =>
       Throws (JObj [("status", JNum 401); ("message", JStr "Unauthorized")]);
     getArgoAppData := fun _ _ _ _ _ => Returns app_present;
     createArgoProject := fun _ => Returns tt;
     createArgoApplication := fun _ => Returns tt;
     deleteApp := fun _ _ _ => Returns true;
     deleteProject := fun _ _ _ => Returns tt |}.

(** The project is created and the application is refused. *)
Definition svc_application_refused : ArgoService :=
  {| getArgoToken := fun _ => Returns "tok1";
     getArgoAppData := fun _ _ _ _ _ => Returns app_gone;
     createArgoProject := fun _ => Returns tt;
     createArgoApplication := fun _ =>
       Throws (JObj [("status", JNum 409); ("message", JStr "")]);
     deleteApp := fun _ _ _ => Returns true;
     deleteProject := fun _ _ _ => Returns tt |}.

(** ** A wait budget that is any finite number

    [config.getOptionalNumber] answers a JavaScript number, which need not
    be an integer.  The loop counter is an integer; it is compared with the
    budget as numbers, by [attempts < argoWaitCycles] in the loop test and by
    [attempts === argoWaitCycles] in the [catch].  Here the budget is an
    exact rational; [delete_handler] above is the case of an integer budget
    ([delete_handler_number_integer] below). *)

Section NumberBudget.

Variable argoSvc : ArgoService.
Variable waitCycles : Q.
Variable argoInstanceArray : list Instance.

(** The body of the [for] loop, as [poll_body], with the number budget in
    the guard of the [catch]. *)
Definition poll_body_number (matchedArgoInstance : Instance)
    (argoAppName tok : string) (attempts : Z) (v : DelVars) : M LoopExit :=
  try_catch
    (argoApp <- call_getArgoAppData argoSvc (url matchedArgoInstance)
                  (name matchedArgoInstance) (ByName argoAppName) tok ;;
     pending <- lift (js_in "metadata" argoApp) ;;
     if negb pending
     then ret (Break (set_argoDeleteAppResp
                        {| status := "success";
                           message := "application is deleted successfully" |}
                        (set_isAppPendingDelete pending v)))
     else call_timer 5000 ;;; ret (Next (set_isAppPendingDelete pending v)))
    (fun _ =>
       if Qeq_bool (inject_Z attempts) waitCycles
       then ret (Next (set_argoDeleteAppResp
                         {| status := "failed";
                            message := "error getting argo app data" |} v))
       else ret (Next v)).

(** [for (let attempts = 0; attempts < argoWaitCycles; attempts++) { .. }] *)
Equations? poll_loop_number (matchedArgoInstance : Instance)
    (argoAppName tok : string) (attempts : Z) (v : DelVars) : M DelVars
    by wf (Z.to_nat (Qceiling waitCycles - attempts)) lt :=
  poll_loop_number matchedArgoInstance argoAppName tok attempts v
    with Qlt_le_dec (inject_Z attempts) waitCycles := {
    | left _ =>
        x <- poll_body_number matchedArgoInstance argoAppName tok attempts v ;;
        match x with
        | Break v' => ret v'
        | Next v' =>
            poll_loop_number matchedArgoInstance argoAppName tok (attempts + 1) v'
        end
    | right _ => ret v }.
Proof.
  assert (attempts < Qceiling waitCycles).
  { rewrite Zlt_Qlt. eapply Qlt_le_trans; [eassumption | apply Qle_ceiling]. }
  lia.
Defined.

(** [DELETE /argoInstance/:argoInstanceName/applications/:argoAppName] *)
Definition delete_handler_number (argoInstanceName argoAppName : string)
    : M HttpResponse :=
  call (EvLogInfo ("Getting info on " ++ argoInstanceName ++ " and " ++ argoAppName))
       (Returns tt) ;;;
  match find_instance argoInstanceArray (JStr argoInstanceName) with
  | None => ret instance_not_found
  | Some matchedArgoInstance =>
      tok <- acquire_token argoSvc matchedArgoInstance ;;
      v1 <- delete_app_step argoSvc matchedArgoInstance argoAppName tok initial_vars ;;
      v2 <- (if isAppexist v1
             then poll_loop_number matchedArgoInstance argoAppName tok 0 v1
             else ret v1) ;;
      v3 <- delete_project_step argoSvc matchedArgoInstance argoAppName tok v2 ;;
      ret (send (BodyDelete (argoDeleteAppResp v3) (argoDeleteProjectResp v3)))
  end.

End NumberBudget.

(** Project creation fails with an error that has no status and an empty
    message. *)
Definition svc_project_fails_bare : ArgoService :=
  scripted (Returns true) (fun _ => Returns app_gone) (Returns tt)
    (Throws (JObj [("message", JStr "")])).

(** The login fails with an error that has no status. *)
Definition svc_login_unreachable : ArgoService :=
  {| getArgoToken := fun _ => Throws (JObj [("message", JStr "connect ECONNREFUSED")]);
     getArgoAppData := fun _ _ _ _ _ => Returns app_present;
     createArgoProject := fun _ => Returns tt;
     createArgoApplication := fun _ => Returns tt;
     deleteApp := fun _ _ _ => Returns true;
     deleteProject := fun _ _ _ => Returns tt |}.

(** * Properties *)

Open Scope list_scope.

(** ** Traces *)

Lemma count_calls_app (p : Event -> bool) (t u : Trace) :
  count_calls p (t ++ u) = (count_calls p t + count_calls p u)%nat.
Proof.
  unfold count_calls. now rewrite filter_app, length_app.
Qed.

Lemma count_calls_nil (p : Event -> bool) : count_calls p [] = 0%nat.
Proof. reflexivity. Qed.

Lemma count_calls_cons (p : Event -> bool) (ev : Event) (t : Trace) :
  count_calls p (ev :: t) = ((if p ev then 1 else 0) + count_calls p t)%nat.
Proof.
  unfold count_calls. simpl. now destruct (p ev).
Qed.

(** Counts the events of an explicit trace. *)
Ltac count_events :=
  cbn [fst snd]; unfold fetch_event;
  repeat (rewrite count_calls_app || rewrite count_calls_cons
          || rewrite count_calls_nil);
  cbn [is_getArgoAppData is_deleteProject is_createArgoApplication Nat.add].

(** Reads the locals of the DELETE handler through their setters. *)
Ltac read_vars :=
  cbn [argoDeleteProjectResp argoDeleteAppResp countinueToDeleteProject
       isAppexist isAppPendingDelete
       set_argoDeleteProjectResp set_argoDeleteAppResp
       set_countinueToDeleteProject set_isAppexist set_isAppPendingDelete
       initial_vars andb negb fst snd].

(** ** The token block *)

Lemma acquire_token_frame (argoSvc : ArgoService) (i : Instance) (tr : Trace) :
  acquire_token argoSvc i tr
  = (resolved_token argoSvc i, (tr ++ token_events argoSvc i)%list).
Proof.
  unfold resolved_token, token_events, acquire_token.
  destruct (token i) as [t|]; [destruct (truthy (JStr t))|];
    unfold ret, call; simpl; now rewrite ?app_nil_r.
Qed.

Lemma token_events_quiet (argoSvc : ArgoService) (i : Instance) :
  count_calls is_getArgoAppData (token_events argoSvc i) = 0%nat
  /\ count_calls is_deleteProject (token_events argoSvc i) = 0%nat
  /\ count_calls is_createArgoApplication (token_events argoSvc i) = 0%nat.
Proof.
  unfold token_events, acquire_token.
  destruct (token i) as [t|]; [destruct (truthy (JStr t))|]; now cbn.
Qed.

(** ** The poll loop *)

Section PollLoop.

Variable argoSvc : ArgoService.
Variable argoWaitCycles : Z.
Variable matchedArgoInstance : Instance.
Variables argoAppName tok : string.

Local Abbreviation script := (fetch argoSvc matchedArgoInstance argoAppName tok).
Local Abbreviation ev := (fetch_event matchedArgoInstance argoAppName tok).
Local Abbreviation told := (poll_run argoSvc matchedArgoInstance argoAppName tok).
Local Abbreviation body :=
  (poll_body argoSvc argoWaitCycles matchedArgoInstance argoAppName tok).
Local Abbreviation loop :=
  (poll_loop argoSvc argoWaitCycles matchedArgoInstance argoAppName tok).

(** Inside the loop [attempts < argoWaitCycles], so the guard
    [attempts === argoWaitCycles] of the [catch] is false: one run of the
    body does what the observation of its fetch says. *)
Lemma poll_body_step (attempts : Z) (v : DelVars) (tr : Trace) :
  attempts < argoWaitCycles ->
  body attempts v tr
  = match observe (script (count_calls is_getArgoAppData tr)) with
    | Gone =>
        (Returns (Break (set_argoDeleteAppResp
                           {| status := "success";
                              message := "application is deleted successfully" |}
                           (set_isAppPendingDelete false v))),
         (tr ++ [ev])%list)
    | StillThere =>
        (Returns (Next (set_isAppPendingDelete true v)),
         (tr ++ [ev; EvTimer 5000])%list)
    | Errored => (Returns (Next v), (tr ++ [ev])%list)
    end.
Proof.
  intros Hlt.
  assert (Hne : (attempts =? argoWaitCycles) = false) by (apply Z.eqb_neq; lia).
  unfold poll_body, try_catch, bind, call_getArgoAppData, lift,
    call_timer, call, ret, fetch, fetch_event, observe.
  rewrite Hne.
  destruct (getArgoAppData argoSvc _ _ _ _ _) as [[| | | | |fs]|e]; simpl; try reflexivity.
  destruct (lookup_field "metadata" fs); simpl; try reflexivity.
  now rewrite <- app_assoc.
Qed.

Lemma poll_loop_step (attempts : Z) (v : DelVars) :
  loop attempts v
  = if Z_lt_dec attempts argoWaitCycles
    then x <- body attempts v ;;
         match x with
         | Break v' => ret v'
         | Next v' => loop (attempts + 1) v'
         end
    else ret v.
Proof.
  simp poll_loop. destruct (Z_lt_dec attempts argoWaitCycles); reflexivity.
Qed.

(** The loop terminates without throwing, and computes [poll_run]. *)
Lemma poll_loop_run (n : nat) :
  forall (attempts : Z) (v : DelVars) (tr : Trace),
    n = Z.to_nat (argoWaitCycles - attempts) ->
    loop attempts v tr
    = (Returns (fst (told n (count_calls is_getArgoAppData tr) v)),
       (tr ++ snd (told n (count_calls is_getArgoAppData tr) v))%list).
Proof.
  induction n as [|n IH]; intros attempts v tr Hn.
  - rewrite poll_loop_step.
    destruct (Z_lt_dec attempts argoWaitCycles); [lia|].
    simpl. unfold ret. now rewrite app_nil_r.
  - rewrite poll_loop_step.
    destruct (Z_lt_dec attempts argoWaitCycles) as [Hlt|]; [|lia].
    unfold bind. rewrite (poll_body_step attempts v tr Hlt).
    cbn [poll_run].
    destruct (observe (script (count_calls is_getArgoAppData tr))).
    + reflexivity.
    + rewrite (IH (attempts + 1)) by lia.
      rewrite count_calls_app, Nat.add_1_r.
      destruct (told n _ _) as [v' t]. simpl. now rewrite <- app_assoc.
    + rewrite (IH (attempts + 1)) by lia.
      rewrite count_calls_app, Nat.add_1_r.
      destruct (told n _ _) as [v' t]. simpl. now rewrite <- app_assoc.
Qed.

End PollLoop.

(** ** The loop told by observations *)

Lemma first_gone (f : nat -> Observation) (k : nat) :
  f k = Gone ->
  exists k', (k' <= k)%nat /\ f k' = Gone /\ forall i, (i < k')%nat -> f i <> Gone.
Proof.
  induction k as [k IH] using (well_founded_induction lt_wf). intros Hk.
  destruct (existsb (fun i => Observation_eqb (f i) Gone) (seq 0 k)) eqn:E.
  - apply existsb_exists in E. destruct E as [i [Hi Hg]].
    apply in_seq in Hi.
    assert (Hfi : f i = Gone) by (destruct (f i); simpl in Hg; congruence).
    destruct (IH i ltac:(lia) Hfi) as [k' [Hle [Hg' Hmin]]].
    exists k'. repeat split; [lia | assumption | assumption].
  - exists k. repeat split; [lia | assumption |].
    intros i Hi Hfi.
    assert (Hex : existsb (fun i => Observation_eqb (f i) Gone) (seq 0 k) = true).
    { apply existsb_exists. exists i. split; [apply in_seq; lia | now rewrite Hfi]. }
    congruence.
Qed.

Section PollRun.

Variable argoSvc : ArgoService.
Variable matchedArgoInstance : Instance.
Variables argoAppName tok : string.

Local Abbreviation script := (fetch argoSvc matchedArgoInstance argoAppName tok).
Local Abbreviation told := (poll_run argoSvc matchedArgoInstance argoAppName tok).

(** The loop touches [argoDeleteAppResp] and [isAppPendingDelete] only. *)
Lemma poll_run_frame (n : nat) :
  forall (c : nat) (v : DelVars),
    argoDeleteProjectResp (fst (told n c v)) = argoDeleteProjectResp v
    /\ countinueToDeleteProject (fst (told n c v)) = countinueToDeleteProject v
    /\ isAppexist (fst (told n c v)) = isAppexist v.
Proof.
  induction n as [|n IH]; intros c v; [now simpl|].
  cbn [poll_run]. destruct (observe (script c)).
  - now simpl.
  - specialize (IH (S c) (set_isAppPendingDelete true v)).
    destruct (told n _ _). exact IH.
  - specialize (IH (S c) v). destruct (told n _ _). exact IH.
Qed.

(** The loop calls [getArgoAppData] and the timer, nothing else. *)
Lemma poll_run_quiet (n : nat) :
  forall (c : nat) (v : DelVars),
    count_calls is_deleteProject (snd (told n c v)) = 0%nat.
Proof.
  induction n as [|n IH]; intros c v; [reflexivity|].
  cbn [poll_run]. destruct (observe (script c)).
  - reflexivity.
  - specialize (IH (S c) (set_isAppPendingDelete true v)).
    destruct (told n _ _). exact IH.
  - specialize (IH (S c) v). destruct (told n _ _). exact IH.
Qed.

Lemma poll_run_fetches_le (n : nat) :
  forall (c : nat) (v : DelVars),
    (count_calls is_getArgoAppData (snd (told n c v)) <= n)%nat.
Proof.
  induction n as [|n IH]; intros c v; [unfold count_calls; simpl; lia|].
  cbn [poll_run]. destruct (observe (script c)).
  - count_events. lia.
  - specialize (IH (S c) (set_isAppPendingDelete true v)).
    destruct (told n _ _). simpl in *. count_events. lia.
  - specialize (IH (S c) v). destruct (told n _ _). simpl in *. count_events. lia.
Qed.

(** With at least one attempt the loop fetches at least once. *)
Lemma poll_run_fetches_pos (n c : nat) (v : DelVars) :
  (0 < n)%nat -> (0 < count_calls is_getArgoAppData (snd (told n c v)))%nat.
Proof.
  destruct n as [|n]; [lia|]. intros _.
  cbn [poll_run]. destruct (observe (script c)).
  - count_events. lia.
  - destruct (told n _ _). simpl. count_events. lia.
  - destruct (told n _ _). simpl. count_events. lia.
Qed.

(** The first attempt that observes [Gone] ends the loop. *)
Lemma poll_run_gone (k : nat) :
  forall (n c : nat) (v : DelVars),
    (k < n)%nat ->
    (forall i, (i < k)%nat -> observe (script (c + i)) <> Gone) ->
    observe (script (c + k)) = Gone ->
    fst (told n c v)
    = set_argoDeleteAppResp
        {| status := "success"; message := "application is deleted successfully" |}
        (set_isAppPendingDelete false v)
    /\ count_calls is_getArgoAppData (snd (told n c v)) = S k.
Proof.
  induction k as [|k IH]; intros n c v Hk Hbefore Hgone.
  - destruct n as [|n]; [lia|]. cbn [poll_run].
    rewrite Nat.add_0_r in Hgone. rewrite Hgone. split; [reflexivity | now count_events].
  - destruct n as [|n]; [lia|]. cbn [poll_run].
    assert (H0 : observe (script c) <> Gone).
    { specialize (Hbefore 0%nat ltac:(lia)). now rewrite Nat.add_0_r in Hbefore. }
    assert (Hbefore' : forall i, (i < k)%nat -> observe (script (S c + i)) <> Gone).
    { intros i Hi. specialize (Hbefore (S i) ltac:(lia)).
      now replace (c + S i)%nat with (S c + i)%nat in Hbefore by lia. }
    assert (Hgone' : observe (script (S c + k)) = Gone).
    { now replace (S c + k)%nat with (c + S k)%nat by lia. }
    destruct (observe (script c)); [congruence| |].
    + destruct (IH n (S c) (set_isAppPendingDelete true v) ltac:(lia) Hbefore' Hgone')
        as [Hv Hc].
      destruct (told n _ _) as [v' t]. simpl in *. split; [exact Hv|].
      count_events. now rewrite Hc.
    + destruct (IH n (S c) v ltac:(lia) Hbefore' Hgone') as [Hv Hc].
      destruct (told n _ _) as [v' t]. simpl in *. split; [exact Hv|].
      count_events. now rewrite Hc.
Qed.

(** When no attempt observes [Gone] the loop uses its whole budget, leaves
    [argoDeleteAppResp] alone, and ends pending as soon as one attempt saw
    the application still there. *)
Lemma poll_run_exhausted (n : nat) :
  forall (c : nat) (v : DelVars),
    (forall i, (i < n)%nat -> observe (script (c + i)) <> Gone) ->
    argoDeleteAppResp (fst (told n c v)) = argoDeleteAppResp v
    /\ count_calls is_getArgoAppData (snd (told n c v)) = n
    /\ (isAppPendingDelete v = true -> isAppPendingDelete (fst (told n c v)) = true)
    /\ ((exists i, (i < n)%nat /\ observe (script (c + i)) = StillThere) ->
        isAppPendingDelete (fst (told n c v)) = true)
    /\ ((forall i, (i < n)%nat -> observe (script (c + i)) = Errored) ->
        isAppPendingDelete (fst (told n c v)) = isAppPendingDelete v).
Proof.
  induction n as [|n IH]; intros c v Hno.
  - simpl. repeat split; try tauto. intros [i [Hi _]]. lia.
  - cbn [poll_run].
    assert (H0 : observe (script c) <> Gone).
    { specialize (Hno 0%nat ltac:(lia)). now rewrite Nat.add_0_r in Hno. }
    assert (Hno' : forall i, (i < n)%nat -> observe (script (S c + i)) <> Gone).
    { intros i Hi. specialize (Hno (S i) ltac:(lia)).
      now replace (c + S i)%nat with (S c + i)%nat in Hno by lia. }
    destruct (observe (script c)) eqn:E0; [congruence| |].
    + destruct (IH (S c) (set_isAppPendingDelete true v) Hno')
        as [Ha [Hc [Hp _]]].
      destruct (told n _ _) as [v' t]. simpl in *.
      repeat split; try (intros; now apply Hp); [exact Ha | |].
      * count_events. now rewrite Hc.
      * intros Hall. specialize (Hall 0%nat ltac:(lia)).
        rewrite Nat.add_0_r in Hall. congruence.
    + destruct (IH (S c) v Hno') as [Ha [Hc [Hp [Hs He]]]].
      destruct (told n _ _) as [v' t]. simpl in *.
      repeat split; [exact Ha | | exact Hp | |].
      * count_events. now rewrite Hc.
      * intros [i [Hi Hst]]. apply Hs.
        destruct i as [|i]; [rewrite Nat.add_0_r in Hst; congruence|].
        exists i. split; [lia|].
        now replace (S (c + i))%nat with (c + S i)%nat by lia.
      * intros Hall. apply He. intros i Hi. specialize (Hall (S i) ltac:(lia)).
        now replace (c + S i)%nat with (S (c + i))%nat in Hall by lia.
Qed.

End PollRun.

(** ** The DELETE handler, step by step *)

Section DeleteSteps.

Variable argoSvc : ArgoService.
Variable matchedArgoInstance : Instance.
Variables argoAppName tok : string.

Lemma delete_app_step_cases (v : DelVars) (tr : Trace) :
  delete_app_step argoSvc matchedArgoInstance argoAppName tok v tr
  = (match deleteApp argoSvc (url matchedArgoInstance) argoAppName tok with
     | Returns true => Returns v
     | Returns false =>
         Returns (set_argoDeleteAppResp
                    {| status := "failed"; message := "error with deleteing argo app" |}
                    (set_countinueToDeleteProject false v))
     | Throws e =>
         match get_prop e "message" with
         | Returns (JStr msg) =>
             Returns (set_argoDeleteAppResp {| status := "failed"; message := msg |}
                        (set_countinueToDeleteProject true (set_isAppexist false v)))
         | Returns _ => Returns v
         | Throws e' => Throws e'
         end
     end,
     tr ++ [EvDeleteApp (url matchedArgoInstance) argoAppName tok]).
Proof.
  unfold delete_app_step, try_catch, bind, call_deleteApp, call, lift, ret.
  destruct (deleteApp argoSvc _ _ _) as [[|]|e]; simpl; try reflexivity.
  destruct (get_prop e "message") as [[| | | | |]|]; reflexivity.
Qed.

Lemma delete_project_step_cases (v : DelVars) (tr : Trace) :
  delete_project_step argoSvc matchedArgoInstance argoAppName tok v tr
  = if isAppPendingDelete v && isAppexist v
    then (Returns (set_argoDeleteProjectResp
                     {| status := "failed";
                        message := "skipping project deletion due to app deletion pending" |}
                     (set_argoDeleteAppResp
                        {| status := "failed"; message := "application pending delete" |}
                        v)),
          tr)
    else if countinueToDeleteProject v
    then (match deleteProject argoSvc (url matchedArgoInstance) argoAppName tok with
          | Returns _ =>
              Returns (set_argoDeleteProjectResp
                         {| status := "success";
                            message := "project is deleted successfully" |} v)
          | Throws e =>
              match get_prop e "message" with
              | Returns (JStr msg) =>
                  Returns (set_argoDeleteProjectResp
                             {| status := "failed"; message := msg |} v)
              | Returns _ =>
                  Returns (set_argoDeleteProjectResp
                             {| status := "failed";
                                message := "error with deleteing argo project" |} v)
              | Throws e' => Throws e'
              end
          end,
          tr ++ [EvDeleteProject (url matchedArgoInstance) argoAppName tok])
    else (Returns (set_argoDeleteProjectResp
                     {| status := "failed";
                        message := "skipping project deletion due to erro deleting argo app" |}
                     v),
          tr).
Proof.
  unfold delete_project_step, try_catch, bind, call_deleteProject, call, lift, ret.
  destruct (isAppPendingDelete v && isAppexist v); [reflexivity|].
  destruct (countinueToDeleteProject v); [|reflexivity].
  destruct (deleteProject argoSvc _ _ _) as [[]|e]; simpl; try reflexivity.
  destruct (get_prop e "message") as [[| | | | |]|]; reflexivity.
Qed.

End DeleteSteps.

Lemma request_prefix_quiet (argoSvc : ArgoService) (i : Instance)
    (argoInstanceName argoAppName : string) :
  count_calls is_getArgoAppData
    (request_prefix argoSvc i argoInstanceName argoAppName) = 0%nat
  /\ count_calls is_deleteProject
       (request_prefix argoSvc i argoInstanceName argoAppName) = 0%nat.
Proof.
  destruct (token_events_quiet argoSvc i) as [Hf [Hd _]].
  unfold request_prefix. rewrite !count_calls_cons, Hf, Hd. now split.
Qed.

Section DeleteRequest.

Variable argoSvc : ArgoService.
Variable argoWaitCycles : Z.
Variable argoInstanceArray : list Instance.
Variables argoInstanceName argoAppName : string.
Variable matchedArgoInstance : Instance.
Variable tok : string.

Hypothesis Hfound :
  find_instance argoInstanceArray (JStr argoInstanceName) = Some matchedArgoInstance.
Hypothesis Htoken : resolved_token argoSvc matchedArgoInstance = Returns tok.

Local Abbreviation prefix :=
  (request_prefix argoSvc matchedArgoInstance argoInstanceName argoAppName).

(** A request whose instance and token resolve runs the three steps in
    order; the loop is replaced by what it computes. *)
Lemma delete_handler_run :
  run (delete_handler argoSvc argoWaitCycles argoInstanceArray
         argoInstanceName argoAppName)
  = match delete_app_step argoSvc matchedArgoInstance argoAppName tok
            initial_vars prefix with
    | (Throws e, tr1) => (Throws e, tr1)
    | (Returns v1, tr1) =>
        let vt :=
          if isAppexist v1
          then poll_run argoSvc matchedArgoInstance argoAppName tok
                 (Z.to_nat argoWaitCycles) (count_calls is_getArgoAppData tr1) v1
          else (v1, []) in
        match delete_project_step argoSvc matchedArgoInstance argoAppName tok
                (fst vt) (tr1 ++ snd vt) with
        | (Returns v3, tr3) =>
            (Returns (send (BodyDelete (argoDeleteAppResp v3)
                              (argoDeleteProjectResp v3))), tr3)
        | (Throws e, tr3) => (Throws e, tr3)
        end
    end.
Proof.
  unfold run, delete_handler.
  unfold bind at 1. unfold call at 1. rewrite Hfound.
  unfold bind at 1. rewrite acquire_token_frame, Htoken.
  change ([] ++ [EvLogInfo ("Getting info on " ++ argoInstanceName ++ " and "
                               ++ argoAppName)%string]
          ++ token_events argoSvc matchedArgoInstance) with prefix.
  unfold bind at 1.
  destruct (delete_app_step _ _ _ _ _ _) as [[v1|e] tr1]; [|reflexivity].
  unfold bind at 1.
  destruct (isAppexist v1).
  - rewrite (poll_loop_run _ _ _ _ _ (Z.to_nat argoWaitCycles))
      by (f_equal; lia).
    unfold bind, ret. cbn [fst snd].
    now destruct (delete_project_step _ _ _ _ _ _) as [[v3|e] tr3].
  - unfold ret at 1. unfold bind, ret. cbn [fst snd]. rewrite app_nil_r.
    now destruct (delete_project_step _ _ _ _ _ _) as [[v3|e] tr3].
Qed.

Local Abbreviation deleted :=
  (deleteApp argoSvc (url matchedArgoInstance) argoAppName tok).
Local Abbreviation project_deleted :=
  (deleteProject argoSvc (url matchedArgoInstance) argoAppName tok).
Local Abbreviation script := (fetch argoSvc matchedArgoInstance argoAppName tok).
Local Abbreviation handler :=
  (delete_handler argoSvc argoWaitCycles argoInstanceArray
     argoInstanceName argoAppName).

(** C6.  When [deleteApp] throws an error whose [message] is a string, the
    application outcome is [failed] with that message, [deleteProject] is
    called exactly once, and when it returns the project outcome is
    [success].  The request sends this response unless [deleteProject] itself
    throws [null] or [undefined]. *)
Theorem absent_app_still_deletes_project (e : JsVal) (msg : string) :
  deleted = Throws e ->
  get_prop e "message" = Returns (JStr msg) ->
  exists o tr,
    run handler = (o, tr)
    /\ count_calls is_deleteProject tr = 1%nat
    /\ count_calls is_getArgoAppData tr = 0%nat
    /\ match o with
       | Returns resp =>
           exists p,
             resp = send (BodyDelete {| status := "failed"; message := msg |} p)
             /\ (project_deleted = Returns tt ->
                 p = {| status := "success";
                        message := "project is deleted successfully" |})
       | Throws _ => throws_nullish project_deleted = true
       end.
Proof.
  intros Hd Hmsg.
  destruct (request_prefix_quiet argoSvc matchedArgoInstance
              argoInstanceName argoAppName) as [Hf Hp].
  rewrite delete_handler_run, delete_app_step_cases, Hd, Hmsg.
  read_vars.
  rewrite app_nil_r, delete_project_step_cases. read_vars.
  unfold throws_nullish.
  destruct project_deleted as [[]|e']; read_vars.
  - eexists; eexists; split; [reflexivity|].
    count_events. rewrite Hf, Hp. repeat split.
    eexists; split; [reflexivity|]. reflexivity.
  - destruct (get_prop e' "message") as [[| | | | |]|];
      (eexists; eexists; split; [reflexivity|];
       count_events; rewrite Hf, Hp; repeat split;
       try (eexists; split; [reflexivity|]; discriminate)).
Qed.

(** Unless [deleteApp] threw an error with a string message (or threw
    [null]), the handler reaches the loop with [isAppexist] still set, and
    the rest of the request is the loop followed by the project decision. *)
Lemma polling_run :
  signals_absent deleted = false ->
  throws_nullish deleted = false ->
  exists v1,
    isAppexist v1 = true
    /\ isAppPendingDelete v1 = false
    /\ argoDeleteProjectResp v1 = {| status := ""; message := "" |}
    /\ countinueToDeleteProject v1
       = match deleted with Returns false => false | _ => true end
    /\ argoDeleteAppResp v1
       = match deleted with
         | Returns false =>
             {| status := "failed"; message := "error with deleteing argo app" |}
         | _ => {| status := ""; message := "" |}
         end
    /\ run handler
       = let vt := poll_run argoSvc matchedArgoInstance argoAppName tok
                     (Z.to_nat argoWaitCycles) 0 v1 in
         match delete_project_step argoSvc matchedArgoInstance argoAppName tok
                 (fst vt)
                 ((prefix ++ [EvDeleteApp (url matchedArgoInstance) argoAppName tok])
                    ++ snd vt) with
         | (Returns v3, tr3) =>
             (Returns (send (BodyDelete (argoDeleteAppResp v3)
                               (argoDeleteProjectResp v3))), tr3)
         | (Throws e, tr3) => (Throws e, tr3)
         end.
Proof.
  intros Habs Hnull.
  destruct (request_prefix_quiet argoSvc matchedArgoInstance
              argoInstanceName argoAppName) as [Hf _].
  assert (Hc : count_calls is_getArgoAppData
                 (prefix ++ [EvDeleteApp (url matchedArgoInstance) argoAppName tok])
               = 0%nat) by (count_events; now rewrite Hf).
  rewrite delete_handler_run, delete_app_step_cases.
  unfold signals_absent, throws_nullish in Habs, Hnull.
  destruct deleted as [[|]|e].
  - exists initial_vars. read_vars. rewrite Hc. now repeat split.
  - eexists. read_vars. rewrite Hc. now repeat split.
  - destruct (get_prop e "message") as [[| | | | |]|]; try discriminate;
      (exists initial_vars; read_vars; rewrite Hc; now repeat split).
Qed.

(** C7.  While polling, if attempt [k] (counted from 1, within the budget)
    is the one on which [getArgoAppData] answers an object without
    [metadata], the loop stops there: the request made exactly [k]
    [getArgoAppData] calls and the application outcome is [success] with
    message [application is deleted successfully].  The response is sent
    unless [deleteProject] throws [null] or [undefined]. *)
Theorem poll_stops_when_gone (k : nat) :
  signals_absent deleted = false ->
  throws_nullish deleted = false ->
  (1 <= k <= Z.to_nat argoWaitCycles)%nat ->
  (forall i, (S i < k)%nat -> observe (script i) <> Gone) ->
  observe (script (k - 1)) = Gone ->
  exists o tr,
    run handler = (o, tr)
    /\ count_calls is_getArgoAppData tr = k
    /\ match o with
       | Returns resp =>
           exists p,
             resp = send (BodyDelete
                            {| status := "success";
                               message := "application is deleted successfully" |} p)
       | Throws _ => throws_nullish project_deleted = true
       end.
Proof.
  intros Habs Hnull Hk Hbefore Hgone.
  destruct (polling_run Habs Hnull) as [v1 [Hex [Hpen [Hpr [Hco [Hap Hrun]]]]]].
  destruct (request_prefix_quiet argoSvc matchedArgoInstance
              argoInstanceName argoAppName) as [Hf _].
  destruct (poll_run_gone argoSvc matchedArgoInstance argoAppName tok (k - 1)
              (Z.to_nat argoWaitCycles) 0 v1 ltac:(lia)) as [Hv Hcount].
  { intros i Hi. apply Hbefore. lia. }
  { exact Hgone. }
  rewrite Hrun. cbv zeta. rewrite Hv, delete_project_step_cases. read_vars.
  unfold throws_nullish.
  destruct (countinueToDeleteProject v1).
  - destruct project_deleted as [[]|e'];
      [|destruct (get_prop e' "message") as [[| | | | |]|]];
      (eexists; eexists; split; [reflexivity|]; split;
       [count_events; rewrite Hf, Hcount; lia | try (eexists; reflexivity)]).
  - eexists; eexists; split; [reflexivity|]; split;
      [count_events; rewrite Hf, Hcount; lia | eexists; reflexivity].
Qed.

(** C4.  When polling runs for its whole budget of [argoWaitCycles] (at
    least one) attempts and every answer of [getArgoAppData] still holds
    [metadata], the application outcome is [failed] / [application pending
    delete], the project outcome is [failed] / [skipping project deletion due
    to app deletion pending], and [deleteProject] is not called. *)
Theorem pending_app_blocks_project :
  signals_absent deleted = false ->
  throws_nullish deleted = false ->
  0 < argoWaitCycles ->
  (forall i, (i < Z.to_nat argoWaitCycles)%nat -> observe (script i) = StillThere) ->
  exists tr,
    run handler
    = (Returns (send (BodyDelete
                        {| status := "failed";
                           message := "application pending delete" |}
                        {| status := "failed";
                           message := "skipping project deletion due to app deletion pending" |})),
       tr)
    /\ count_calls is_deleteProject tr = 0%nat
    /\ count_calls is_getArgoAppData tr = Z.to_nat argoWaitCycles.
Proof.
  intros Habs Hnull Hpos Hall.
  destruct (polling_run Habs Hnull) as [v1 [Hex [Hpen [Hpr [Hco [Hap Hrun]]]]]].
  destruct (request_prefix_quiet argoSvc matchedArgoInstance
              argoInstanceName argoAppName) as [Hf Hp].
  destruct (poll_run_frame argoSvc matchedArgoInstance argoAppName tok
              (Z.to_nat argoWaitCycles) 0 v1) as [_ [_ Hexist]].
  pose proof (poll_run_quiet argoSvc matchedArgoInstance argoAppName tok
                (Z.to_nat argoWaitCycles) 0 v1) as Hquiet.
  destruct (poll_run_exhausted argoSvc matchedArgoInstance argoAppName tok
              (Z.to_nat argoWaitCycles) 0 v1) as [_ [Hcount [_ [Hstill _]]]].
  { intros i Hi. cbn [Nat.add]. rewrite (Hall i Hi). discriminate. }
  assert (Hpending : isAppPendingDelete
                       (fst (poll_run argoSvc matchedArgoInstance argoAppName tok
                               (Z.to_nat argoWaitCycles) 0 v1)) = true).
  { apply Hstill. exists 0%nat. split; [lia|]. apply Hall. lia. }
  rewrite Hrun. cbv zeta. rewrite delete_project_step_cases.
  rewrite Hpending, Hexist, Hex. read_vars.
  eexists. split; [reflexivity|].
  split; count_events; rewrite ?Hf, ?Hp, ?Hquiet, ?Hcount; lia.
Qed.

(** A request whose [deleteApp] threw [null] or [undefined] sends nothing. *)
Lemma nullish_delete_rejects :
  throws_nullish deleted = true -> exists e tr, run handler = (Throws e, tr).
Proof.
  intros Hnull. rewrite delete_handler_run, delete_app_step_cases.
  unfold throws_nullish in Hnull.
  destruct deleted as [b|e]; [discriminate|].
  destruct (get_prop e "message") as [m|e']; [discriminate|].
  eexists; eexists; reflexivity.
Qed.

(** When [deleteApp] answers [false], [deleteProject] is never called and the
    project outcome is [failed], whatever the poll observes. *)
Lemma rejected_delete_blocks_project :
  deleted = Returns false ->
  exists a p tr,
    run handler = (Returns (send (BodyDelete a p)), tr)
    /\ status p = "failed"
    /\ count_calls is_deleteProject tr = 0%nat.
Proof.
  intros Hd.
  assert (Habs : signals_absent deleted = false) by now rewrite Hd.
  assert (Hnull : throws_nullish deleted = false) by now rewrite Hd.
  destruct (polling_run Habs Hnull) as [v1 [Hex [Hpen [Hpr [Hco [Hap Hrun]]]]]].
  rewrite Hd in Hco.
  destruct (request_prefix_quiet argoSvc matchedArgoInstance
              argoInstanceName argoAppName) as [_ Hp].
  destruct (poll_run_frame argoSvc matchedArgoInstance argoAppName tok
              (Z.to_nat argoWaitCycles) 0 v1) as [_ [Hcont _]].
  pose proof (poll_run_quiet argoSvc matchedArgoInstance argoAppName tok
                (Z.to_nat argoWaitCycles) 0 v1) as Hquiet.
  rewrite Hrun. cbv zeta. rewrite delete_project_step_cases, Hcont, Hco.
  destruct (isAppPendingDelete _ && isAppexist _);
    (eexists; eexists; eexists; split; [reflexivity|]; split; [reflexivity|];
     count_events; rewrite Hp, Hquiet; reflexivity).
Qed.

(** C2.  The project outcome of a composite response is never [success]
    when [deleteApp] answered [false], nor when the poll loop was entered and
    ended with the application still present (no attempt saw it gone and at
    least one saw it there). *)
Theorem project_not_success_when_app_pending
    (resp : HttpResponse) (tr : Trace) (a p : Response) :
  run handler = (Returns resp, tr) ->
  body resp = BodyDelete a p ->
  deleted = Returns false
  \/ (signals_absent deleted = false
      /\ (forall i, (i < Z.to_nat argoWaitCycles)%nat -> observe (script i) <> Gone)
      /\ exists i, (i < Z.to_nat argoWaitCycles)%nat
                   /\ observe (script i) = StillThere) ->
  status p <> "success".
Proof.
  intros Hrun Hbody [Hd | [Habs [Hno Hsome]]].
  - destruct (rejected_delete_blocks_project Hd) as [a' [p' [tr' [Hrun' [Hst _]]]]].
    rewrite Hrun in Hrun'. injection Hrun' as Hresp _. subst resp.
    simpl in Hbody. injection Hbody as _ Hp. subst p'. rewrite Hst. discriminate.
  - destruct (throws_nullish deleted) eqn:Hnull.
    { destruct (nullish_delete_rejects Hnull) as [e [tr' Hthrow]]. congruence. }
    destruct (polling_run Habs Hnull) as [v1 [Hex [Hpen [Hpr [Hco [Hap Hrun']]]]]].
    destruct (poll_run_frame argoSvc matchedArgoInstance argoAppName tok
                (Z.to_nat argoWaitCycles) 0 v1) as [_ [_ Hexist]].
    destruct (poll_run_exhausted argoSvc matchedArgoInstance argoAppName tok
                (Z.to_nat argoWaitCycles) 0 v1 Hno) as [_ [_ [_ [Hstill _]]]].
    rewrite Hrun' in Hrun. cbv zeta in Hrun.
    rewrite delete_project_step_cases, (Hstill Hsome), Hexist, Hex in Hrun.
    read_vars. cbn [andb] in Hrun. injection Hrun as Hresp _. subst resp.
    simpl in Hbody. injection Hbody as _ Hp. subst p. discriminate.
Qed.

(** C3, as the code has it.  The poll loop is guarded by [isAppexist] alone:
    a request fetches application data exactly when the budget is positive
    and [deleteApp] did not throw an error with a string message (nor
    [null]).  So no poll fetch is made when the client signalled that the
    application does not exist, while a [deleteApp] that answers [false]
    is still followed by the poll. *)
Theorem poll_entered_unless_absent :
  (0 < count_calls is_getArgoAppData (snd (run handler)))%nat
  <-> (signals_absent deleted = false
       /\ throws_nullish deleted = false
       /\ 0 < argoWaitCycles).
Proof.
  destruct (request_prefix_quiet argoSvc matchedArgoInstance
              argoInstanceName argoAppName) as [Hf _].
  destruct (signals_absent deleted) eqn:Habs.
  - split; [|intros [? _]; discriminate].
    intros Hpos. exfalso. revert Hpos.
    rewrite delete_handler_run, delete_app_step_cases.
    unfold signals_absent in Habs.
    destruct deleted as [b|e]; [discriminate|].
    destruct (get_prop e "message") as [[| | | | |msg]|]; try discriminate.
    read_vars. rewrite app_nil_r, delete_project_step_cases. read_vars.
    destruct project_deleted as [[]|e'];
      [|destruct (get_prop e' "message") as [[| | | | |]|]];
      count_events; rewrite Hf; simpl; lia.
  - destruct (throws_nullish deleted) eqn:Hnull.
    + split; [|intros [_ [? _]]; discriminate].
      intros Hpos. exfalso. revert Hpos.
      rewrite delete_handler_run, delete_app_step_cases.
      unfold throws_nullish in Hnull.
      destruct deleted as [b|e]; [discriminate|].
      destruct (get_prop e "message") as [m|e']; [discriminate|].
      count_events. rewrite Hf. simpl. lia.
    + destruct (polling_run Habs Hnull) as [v1 [Hex [Hpen [Hpr [Hco [Hap Hrun]]]]]].
      pose proof (poll_run_fetches_le argoSvc matchedArgoInstance argoAppName tok
                    (Z.to_nat argoWaitCycles) 0 v1) as Hle.
      pose proof (poll_run_fetches_pos argoSvc matchedArgoInstance argoAppName tok
                    (Z.to_nat argoWaitCycles) 0 v1) as Hge.
      destruct (poll_run_frame argoSvc matchedArgoInstance argoAppName tok
                  (Z.to_nat argoWaitCycles) 0 v1) as [_ [Hcont _]].
      rewrite Hrun. cbv zeta. rewrite delete_project_step_cases, Hcont.
      destruct (isAppPendingDelete _ && isAppexist _);
        [|destruct (countinueToDeleteProject v1);
          [destruct project_deleted as [[]|e'];
           [|destruct (get_prop e' "message") as [[| | | | |]|]]|]];
        count_events; rewrite Hf; simpl;
        (split; [intros Hpos; repeat split; lia
                | intros [_ [_ Hw]]; specialize (Hge ltac:(lia)); lia]).
Qed.

(** After a rejected [deleteApp], a poll attempt that sees the application
    gone turns the application outcome into [success]; the project stays
    blocked. *)
Lemma rejected_delete_gone :
  deleted = Returns false ->
  (exists k, (k < Z.to_nat argoWaitCycles)%nat /\ observe (script k) = Gone) ->
  exists tr,
    run handler
    = (Returns (send (BodyDelete
                        {| status := "success";
                           message := "application is deleted successfully" |}
                        {| status := "failed";
                           message := "skipping project deletion due to erro deleting argo app" |})),
       tr).
Proof.
  intros Hd [k [Hk Hgone]].
  assert (Habs : signals_absent deleted = false) by now rewrite Hd.
  assert (Hnull : throws_nullish deleted = false) by now rewrite Hd.
  destruct (polling_run Habs Hnull) as [v1 [Hex [Hpen [Hpr [Hco [Hap Hrun]]]]]].
  rewrite Hd in Hco.
  destruct (first_gone (fun i => observe (script i)) k Hgone)
    as [k' [Hle [Hgone' Hmin]]].
  destruct (poll_run_gone argoSvc matchedArgoInstance argoAppName tok k'
              (Z.to_nat argoWaitCycles) 0 v1 ltac:(lia) Hmin Hgone') as [Hv _].
  rewrite Hrun. cbv zeta. rewrite Hv, delete_project_step_cases. read_vars.
  rewrite Hco. read_vars. eexists. reflexivity.
Qed.

(** After a rejected [deleteApp], a poll that ends with the application
    still present reports the pending deletion in both outcomes. *)
Lemma rejected_delete_pending :
  deleted = Returns false ->
  (forall i, (i < Z.to_nat argoWaitCycles)%nat -> observe (script i) <> Gone) ->
  (exists i, (i < Z.to_nat argoWaitCycles)%nat /\ observe (script i) = StillThere) ->
  exists tr,
    run handler
    = (Returns (send (BodyDelete
                        {| status := "failed";
                           message := "application pending delete" |}
                        {| status := "failed";
                           message := "skipping project deletion due to app deletion pending" |})),
       tr).
Proof.
  intros Hd Hno Hsome.
  assert (Habs : signals_absent deleted = false) by now rewrite Hd.
  assert (Hnull : throws_nullish deleted = false) by now rewrite Hd.
  destruct (polling_run Habs Hnull) as [v1 [Hex [Hpen [Hpr [Hco [Hap Hrun]]]]]].
  destruct (poll_run_frame argoSvc matchedArgoInstance argoAppName tok
              (Z.to_nat argoWaitCycles) 0 v1) as [_ [_ Hexist]].
  destruct (poll_run_exhausted argoSvc matchedArgoInstance argoAppName tok
              (Z.to_nat argoWaitCycles) 0 v1 Hno) as [_ [_ [_ [Hstill _]]]].
  rewrite Hrun. cbv zeta.
  rewrite delete_project_step_cases, (Hstill Hsome), Hexist, Hex. read_vars.
  eexists. reflexivity.
Qed.

(** After a rejected [deleteApp], a poll that learns nothing (every attempt
    errors, or the budget is empty) leaves the outcome of the delete call. *)
Lemma rejected_delete_blind :
  deleted = Returns false ->
  (forall i, (i < Z.to_nat argoWaitCycles)%nat -> observe (script i) = Errored) ->
  exists tr,
    run handler
    = (Returns (send (BodyDelete
                        {| status := "failed";
                           message := "error with deleteing argo app" |}
                        {| status := "failed";
                           message := "skipping project deletion due to erro deleting argo app" |})),
       tr).
Proof.
  intros Hd Hall.
  assert (Habs : signals_absent deleted = false) by now rewrite Hd.
  assert (Hnull : throws_nullish deleted = false) by now rewrite Hd.
  destruct (polling_run Habs Hnull) as [v1 [Hex [Hpen [Hpr [Hco [Hap Hrun]]]]]].
  rewrite Hd in Hco, Hap.
  destruct (poll_run_frame argoSvc matchedArgoInstance argoAppName tok
              (Z.to_nat argoWaitCycles) 0 v1) as [_ [Hcont _]].
  destruct (poll_run_exhausted argoSvc matchedArgoInstance argoAppName tok
              (Z.to_nat argoWaitCycles) 0 v1) as [Happ [_ [_ [_ Hblind]]]].
  { intros i Hi. cbn [Nat.add]. rewrite (Hall i Hi). discriminate. }
  rewrite Hrun. cbv zeta.
  rewrite delete_project_step_cases, (Hblind Hall), Hpen, Hcont, Hco. read_vars.
  rewrite Happ, Hap. eexists. reflexivity.
Qed.

(** C8.  When [deleteApp] answers [false] and a later poll attempt gets an
    object without [metadata], the composite response has the application
    outcome [success] / [application is deleted successfully] and the project
    outcome [failed] / [skipping project deletion due to erro deleting argo
    app]. *)
Theorem poll_overwrites_rejected_delete :
  deleted = Returns false ->
  (exists k, (k < Z.to_nat argoWaitCycles)%nat /\ observe (script k) = Gone) ->
  exists tr,
    run handler
    = (Returns (send (BodyDelete
                        {| status := "success";
                           message := "application is deleted successfully" |}
                        {| status := "failed";
                           message := "skipping project deletion due to erro deleting argo app" |})),
       tr).
Proof.
  exact rejected_delete_gone.
Qed.

(** C5, as the code has it.  When [deleteApp] answers [false],
    [deleteProject] is never called and the project outcome is [failed].
    The outcome of the delete call ([failed] / [error with deleteing argo
    app], project message [.. due to erro deleting argo app]) is final when
    no poll attempt obtains an object; an attempt that sees the application
    gone replaces the application outcome by [success]; a poll that ends
    with the application still present replaces both messages by the
    pending-delete ones. *)
Theorem rejected_delete_outcomes :
  deleted = Returns false ->
  exists a p tr,
    run handler = (Returns (send (BodyDelete a p)), tr)
    /\ status p = "failed"
    /\ count_calls is_deleteProject tr = 0%nat
    /\ ((forall i, (i < Z.to_nat argoWaitCycles)%nat -> observe (script i) = Errored) ->
        a = {| status := "failed"; message := "error with deleteing argo app" |}
        /\ message p = "skipping project deletion due to erro deleting argo app")
    /\ ((exists k, (k < Z.to_nat argoWaitCycles)%nat /\ observe (script k) = Gone) ->
        a = {| status := "success"; message := "application is deleted successfully" |}
        /\ message p = "skipping project deletion due to erro deleting argo app")
    /\ ((forall i, (i < Z.to_nat argoWaitCycles)%nat -> observe (script i) <> Gone) ->
        (exists i, (i < Z.to_nat argoWaitCycles)%nat
                   /\ observe (script i) = StillThere) ->
        a = {| status := "failed"; message := "application pending delete" |}
        /\ message p = "skipping project deletion due to app deletion pending").
Proof.
  intros Hd.
  destruct (rejected_delete_blocks_project Hd) as [a [p [tr [Hrun [Hst Hcalls]]]]].
  exists a, p, tr.
  split; [exact Hrun|]. split; [exact Hst|]. split; [exact Hcalls|].
  split; [|split].
  - intros Hblind. destruct (rejected_delete_blind Hd Hblind) as [tr' Hrun'].
    rewrite Hrun in Hrun'. injection Hrun' as Ha Hp _. now rewrite Ha, Hp.
  - intros Hgone. destruct (rejected_delete_gone Hd Hgone) as [tr' Hrun'].
    rewrite Hrun in Hrun'. injection Hrun' as Ha Hp _. now rewrite Ha, Hp.
  - intros Hno Hsome.
    destruct (rejected_delete_pending Hd Hno Hsome) as [tr' Hrun'].
    rewrite Hrun in Hrun'. injection Hrun' as Ha Hp _. now rewrite Ha, Hp.
Qed.

(** When the delete call is accepted and no poll attempt obtains an object,
    nothing is ever recorded for the application: the branch that would
    write [error getting argo app data] is dead, the application outcome
    stays empty, and the project is deleted. *)
Lemma blind_poll_records_nothing :
  deleted = Returns true ->
  project_deleted = Returns tt ->
  (forall i, (i < Z.to_nat argoWaitCycles)%nat -> observe (script i) = Errored) ->
  exists tr,
    run handler
    = (Returns (send (BodyDelete
                        {| status := ""; message := "" |}
                        {| status := "success";
                           message := "project is deleted successfully" |})),
       tr)
    /\ count_calls is_getArgoAppData tr = Z.to_nat argoWaitCycles.
Proof.
  intros Hd Hproj Hall.
  assert (Habs : signals_absent deleted = false) by now rewrite Hd.
  assert (Hnull : throws_nullish deleted = false) by now rewrite Hd.
  destruct (polling_run Habs Hnull) as [v1 [Hex [Hpen [Hpr [Hco [Hap Hrun]]]]]].
  rewrite Hd in Hco, Hap.
  destruct (request_prefix_quiet argoSvc matchedArgoInstance
              argoInstanceName argoAppName) as [Hf _].
  destruct (poll_run_frame argoSvc matchedArgoInstance argoAppName tok
              (Z.to_nat argoWaitCycles) 0 v1) as [_ [Hcont _]].
  destruct (poll_run_exhausted argoSvc matchedArgoInstance argoAppName tok
              (Z.to_nat argoWaitCycles) 0 v1) as [Happ [Hcount [_ [_ Hblind]]]].
  { intros i Hi. cbn [Nat.add]. rewrite (Hall i Hi). discriminate. }
  rewrite Hrun. cbv zeta.
  rewrite delete_project_step_cases, (Hblind Hall), Hpen, Hcont, Hco, Hproj.
  read_vars. rewrite Happ, Hap. eexists. split; [reflexivity|].
  count_events. rewrite Hf, Hcount. lia.
Qed.

End DeleteRequest.

(** ** Unknown instances *)

Lemma find_instance_unknown (argoInstanceArray : list Instance) (n : string) :
  ~ In n (map name argoInstanceArray) ->
  find_instance argoInstanceArray (JStr n) = None.
Proof.
  unfold find_instance.
  induction argoInstanceArray as [|i l IH]; intros Hn; [reflexivity|].
  simpl in *. destruct (String.eqb_spec (name i) n) as [Heq|Hne].
  - exfalso. apply Hn. now left.
  - apply IH. intros Hin. apply Hn. now right.
Qed.

(** C9.  For an instance name that is not in the directory, each of the
    four instance-scoped routes (get by name, get by selector, create,
    delete) answers status 500 with [{status: 'failed', message: 'cannot find
    an argo instance to match this cluster'}] and makes no call on the ArgoCD
    client: no token is resolved and no API call is made. *)
Theorem unknown_instance_rejected
    (argoSvc : ArgoService) (argoWaitCycles : Z)
    (argoInstanceArray : list Instance) (n : string) :
  ~ In n (map name argoInstanceArray) ->
  (forall argoAppName,
      rejected_unknown (run (get_by_name argoSvc argoInstanceArray n argoAppName)))
  /\ (forall argoAppSelector,
         rejected_unknown
           (run (get_by_selector argoSvc argoInstanceArray n argoAppSelector)))
  /\ (forall b, clusterName b = JStr n ->
                rejected_unknown (run (create_argo argoSvc argoInstanceArray b)))
  /\ (forall argoAppName,
         rejected_unknown
           (run (delete_handler argoSvc argoWaitCycles argoInstanceArray n
                   argoAppName))).
Proof.
  intros Hn. pose proof (find_instance_unknown _ _ Hn) as Hnone.
  unfold rejected_unknown.
  split; [|split; [|split]].
  - intros argoAppName. unfold run, get_by_name, bind, call.
    rewrite Hnone. now split.
  - intros argoAppSelector. unfold run, get_by_selector, bind, call.
    rewrite Hnone. now split.
  - intros b Hb. unfold run, create_argo. rewrite Hb, Hnone. now split.
  - intros argoAppName. unfold run, delete_handler, bind, call.
    rewrite Hnone. now split.
Qed.

(** ** Creation *)

(** C10.  When [createArgoProject] throws an error [e], the create request
    answers with a single error response: its HTTP status is [e.status], or
    500 when that is missing or falsy; its body carries [e.status] as it is
    and [e.message], or [Failed to create argo project] when that is missing
    or empty.  [createArgoApplication] is never called. *)
Theorem project_failure_aborts_create
    (argoSvc : ArgoService) (argoInstanceArray : list Instance) (b : CreateBody)
    (matchedArgoInstance : Instance) (tok : string) (e st msg : JsVal) :
  find_instance argoInstanceArray (clusterName b) = Some matchedArgoInstance ->
  resolved_token argoSvc matchedArgoInstance = Returns tok ->
  createArgoProject argoSvc
    {| pa_baseUrl := url matchedArgoInstance;
       pa_argoToken := tok;
       pa_projectName := projectName b;
       pa_namespace := namespace b;
       pa_sourceRepo := sourceRepo b |} = Throws e ->
  get_prop e "status" = Returns st ->
  get_prop e "message" = Returns msg ->
  exists tr,
    run (create_argo argoSvc argoInstanceArray b)
    = (Returns {| http_status := if truthy st then st else JNum 500;
                  body := BodyStatusMessage st
                            (if truthy msg then msg
                             else JStr "Failed to create argo project") |},
       tr)
    /\ count_calls is_createArgoApplication tr = 0%nat.
Proof.
  intros Hfound Htoken Hproject Hst Hmsg.
  destruct (token_events_quiet argoSvc matchedArgoInstance) as [_ [_ Hq]].
  unfold run, create_argo. rewrite Hfound.
  unfold bind at 1. unfold try_catch at 1. unfold bind at 1.
  rewrite acquire_token_frame, Htoken. unfold ret at 1.
  unfold bind at 1. unfold try_catch at 1. unfold bind at 1. unfold call at 1.
  rewrite Hproject.
  unfold bind, call, lift, ret, send_error, js_or. rewrite Hst, Hmsg.
  eexists. split; [reflexivity|].
  count_events. now rewrite Hq.
Qed.

(** ** The scenarios *)

(** Login on demand, delete accepted, first poll finds the application gone:
    one login, one delete, one poll, one project deletion. *)
Example scenario_clean_delete :
  run (delete_handler
         (scripted (Returns true) (fun _ => Returns app_gone) (Returns tt) (Returns tt))
         5 [prod_login] "prod" "app")
  = (Returns (send (BodyDelete
                      {| status := "success";
                         message := "application is deleted successfully" |}
                      {| status := "success";
                         message := "project is deleted successfully" |})),
     [EvLogInfo "Getting info on prod and app";
      EvGetArgoToken prod_login;
      EvDeleteApp "https://argocd.prod" "app" "tok1";
      EvGetArgoAppData "https://argocd.prod" "prod" (ByName "app") "tok1";
      EvDeleteProject "https://argocd.prod" "app" "tok1"]).
Proof. vm_compute. reflexivity. Qed.

(** Static token, the application does not exist: the application outcome
    carries the client's message, the project is deleted, nobody logs in. *)
Example scenario_absent_app :
  run (delete_handler svc_absent 5 [prod_static] "prod" "app")
  = (Returns (send (BodyDelete
                      {| status := "failed"; message := "app not found" |}
                      {| status := "success";
                         message := "project is deleted successfully" |})),
     [EvLogInfo "Getting info on prod and app";
      EvDeleteApp "https://argocd.prod" "app" "tok2";
      EvDeleteProject "https://argocd.prod" "app" "tok2"]).
Proof. vm_compute. reflexivity. Qed.

(** C1.  The delete call is accepted and each of the five poll fetches
    throws, the last one included.  The guard [attempts === argoWaitCycles]
    is false on every attempt ([poll_body_step]), so nothing is recorded for
    the application: its outcome keeps the empty status and message it was
    declared with, and the project is deleted. *)
Theorem final_fetch_error_not_recorded :
  run (delete_handler svc_fetch_fails 5 [prod_static] "prod" "app")
  = (Returns (send (BodyDelete
                      {| status := ""; message := "" |}
                      {| status := "success";
                         message := "project is deleted successfully" |})),
     [EvLogInfo "Getting info on prod and app";
      EvDeleteApp "https://argocd.prod" "app" "tok2";
      EvGetArgoAppData "https://argocd.prod" "prod" (ByName "app") "tok2";
      EvGetArgoAppData "https://argocd.prod" "prod" (ByName "app") "tok2";
      EvGetArgoAppData "https://argocd.prod" "prod" (ByName "app") "tok2";
      EvGetArgoAppData "https://argocd.prod" "prod" (ByName "app") "tok2";
      EvGetArgoAppData "https://argocd.prod" "prod" (ByName "app") "tok2";
      EvDeleteProject "https://argocd.prod" "app" "tok2"]).
Proof. vm_compute. reflexivity. Qed.

(** Against C3 as stated: [deleteApp] answers [false], and the request still
    polls [getArgoAppData] five times. *)
Lemma rejected_delete_still_polls :
  deleteApp svc_rejected_pending "https://argocd.prod" "app" "tok2" = Returns false
  /\ count_calls is_getArgoAppData
       (snd (run (delete_handler svc_rejected_pending 5 [prod_static] "prod" "app")))
     = 5%nat
  /\ ~ (deleteApp svc_rejected_pending "https://argocd.prod" "app" "tok2"
        = Returns false ->
        count_calls is_getArgoAppData
          (snd (run (delete_handler svc_rejected_pending 5 [prod_static]
                       "prod" "app")))
        = 0%nat).
Proof.
  split; [reflexivity|]. split; [vm_compute; reflexivity|].
  intros H. specialize (H eq_refl). vm_compute in H. discriminate.
Qed.

(** Against C5 as stated: [deleteApp] answers [false] and the application
    stays; the application message is [application pending delete] and the
    project message does not mention [due to erro deleting argo app]. *)
Lemma rejected_delete_reports_pending :
  deleteApp svc_rejected_pending "https://argocd.prod" "app" "tok2" = Returns false
  /\ exists a p tr,
       run (delete_handler svc_rejected_pending 5 [prod_static] "prod" "app")
       = (Returns (send (BodyDelete a p)), tr)
       /\ message a = "application pending delete"
       /\ message a <> "error with deleteing argo app"
       /\ message p = "skipping project deletion due to app deletion pending"
       /\ index 0 "due to erro deleting argo app" (message p) = None.
Proof.
  split; [reflexivity|].
  eexists; eexists; eexists. split; [vm_compute; reflexivity|].
  repeat split; try reflexivity. discriminate.
Qed.

(** ** The properties at work *)

(** The project message of a blocked deletion does mention the phrase. *)
Example erro_message_mentions_phrase :
  index 0 "due to erro deleting argo app"
    "skipping project deletion due to erro deleting argo app" = Some 26%nat.
Proof. reflexivity. Qed.

Lemma absent_app_still_deletes_project_witness :
  exists o tr,
    run (delete_handler svc_absent 5 [prod_static] "prod" "app") = (o, tr)
    /\ count_calls is_deleteProject tr = 1%nat
    /\ count_calls is_getArgoAppData tr = 0%nat
    /\ match o with
       | Returns resp =>
           exists p,
             resp = send (BodyDelete
                            {| status := "failed"; message := "app not found" |} p)
             /\ (deleteProject svc_absent "https://argocd.prod" "app" "tok2"
                 = Returns tt ->
                 p = {| status := "success";
                        message := "project is deleted successfully" |})
       | Throws _ =>
           throws_nullish (deleteProject svc_absent "https://argocd.prod" "app" "tok2")
           = true
       end.
Proof.
  apply (absent_app_still_deletes_project svc_absent 5 [prod_static] "prod" "app"
           prod_static "tok2" eq_refl eq_refl
           (JObj [("message", JStr "app not found")]) "app not found");
    reflexivity.
Defined.

Lemma poll_stops_when_gone_witness :
  exists o tr,
    run (delete_handler svc_gone_third 5 [prod_login] "prod" "app") = (o, tr)
    /\ count_calls is_getArgoAppData tr = 3%nat
    /\ match o with
       | Returns resp =>
           exists p,
             resp = send (BodyDelete
                            {| status := "success";
                               message := "application is deleted successfully" |} p)
       | Throws _ =>
           throws_nullish (deleteProject svc_gone_third "https://argocd.prod" "app" "tok1")
           = true
       end.
Proof.
  apply (poll_stops_when_gone svc_gone_third 5 [prod_login] "prod" "app"
           prod_login "tok1" eq_refl eq_refl 3%nat).
  - reflexivity.
  - reflexivity.
  - vm_compute. lia.
  - intros [|[|i]] Hi; [discriminate | discriminate | lia].
  - reflexivity.
Defined.

Lemma pending_app_blocks_project_witness :
  exists tr,
    run (delete_handler svc_pending 5 [prod_login] "prod" "app")
    = (Returns (send (BodyDelete
                        {| status := "failed";
                           message := "application pending delete" |}
                        {| status := "failed";
                           message := "skipping project deletion due to app deletion pending" |})),
       tr)
    /\ count_calls is_deleteProject tr = 0%nat
    /\ count_calls is_getArgoAppData tr = Z.to_nat 5.
Proof.
  apply (pending_app_blocks_project svc_pending 5 [prod_login] "prod" "app"
           prod_login "tok1" eq_refl eq_refl).
  - reflexivity.
  - reflexivity.
  - lia.
  - intros i _. reflexivity.
Defined.

Lemma project_not_success_when_app_pending_witness :
  exists resp tr a p,
    run (delete_handler svc_pending 5 [prod_login] "prod" "app") = (Returns resp, tr)
    /\ body resp = BodyDelete a p
    /\ status p <> "success".
Proof.
  eexists; eexists; eexists; eexists.
  split; [vm_compute; reflexivity|]. split; [reflexivity|].
  apply (project_not_success_when_app_pending svc_pending 5 [prod_login] "prod" "app"
           prod_login "tok1" eq_refl eq_refl _ _ _ _ eq_refl eq_refl).
  right. split; [reflexivity|]. split.
  - intros i _. discriminate.
  - exists 0%nat. split; [vm_compute; lia | reflexivity].
Defined.

Lemma poll_entered_unless_absent_witness :
  (0 < count_calls is_getArgoAppData
         (snd (run (delete_handler svc_rejected_pending 5 [prod_static]
                      "prod" "app"))))%nat
  <-> (signals_absent
         (deleteApp svc_rejected_pending "https://argocd.prod" "app" "tok2") = false
       /\ throws_nullish
            (deleteApp svc_rejected_pending "https://argocd.prod" "app" "tok2") = false
       /\ 0 < 5).
Proof.
  apply (poll_entered_unless_absent svc_rejected_pending 5 [prod_static] "prod" "app"
           prod_static "tok2"); reflexivity.
Defined.

Lemma poll_overwrites_rejected_delete_witness :
  exists tr,
    run (delete_handler svc_rejected_gone 5 [prod_static] "prod" "app")
    = (Returns (send (BodyDelete
                        {| status := "success";
                           message := "application is deleted successfully" |}
                        {| status := "failed";
                           message := "skipping project deletion due to erro deleting argo app" |})),
       tr).
Proof.
  apply (poll_overwrites_rejected_delete svc_rejected_gone 5 [prod_static]
           "prod" "app" prod_static "tok2" eq_refl eq_refl).
  - reflexivity.
  - exists 2%nat. split; [vm_compute; lia | reflexivity].
Defined.

Lemma rejected_delete_outcomes_witness :
  exists a p tr,
    run (delete_handler svc_rejected_pending 5 [prod_static] "prod" "app")
    = (Returns (send (BodyDelete a p)), tr)
    /\ status p = "failed"
    /\ count_calls is_deleteProject tr = 0%nat
    /\ a = {| status := "failed"; message := "application pending delete" |}
    /\ message p = "skipping project deletion due to app deletion pending".
Proof.
  destruct (rejected_delete_outcomes svc_rejected_pending 5 [prod_static]
              "prod" "app" prod_static "tok2" eq_refl eq_refl eq_refl)
    as [a [p [tr [Hrun [Hst [Hcalls [_ [_ Hpending]]]]]]]].
  exists a, p, tr. repeat split; try assumption.
  - apply Hpending.
    + intros i _. discriminate.
    + exists 0%nat. split; [vm_compute; lia | reflexivity].
  - apply Hpending.
    + intros i _. discriminate.
    + exists 0%nat. split; [vm_compute; lia | reflexivity].
Defined.

Lemma unknown_instance_rejected_witness :
  rejected_unknown
    (run (delete_handler svc_pending 5 [prod_login] "staging" "app"))
  /\ rejected_unknown (run (get_by_name svc_pending [prod_login] "staging" "app")).
Proof.
  destruct (unknown_instance_rejected svc_pending 5 [prod_login] "staging")
    as [Hname [_ [_ Hdelete]]].
  - simpl. intros [H|[]]. discriminate.
  - split; [apply Hdelete | apply Hname].
Defined.

Lemma project_failure_aborts_create_witness :
  (exists tr,
      run (create_argo svc_project_fails_bare [prod_login] create_request)
      = (Returns {| http_status := JNum 500;
                    body := BodyStatusMessage JUndefined
                              (JStr "Failed to create argo project") |},
         tr)
      /\ count_calls is_createArgoApplication tr = 0%nat)
  /\ (exists tr,
         run (create_argo svc_project_refused [prod_login] create_request)
         = (Returns {| http_status := JNum 403;
                       body := BodyStatusMessage (JNum 403)
                                 (JStr "permission denied") |},
            tr)
         /\ count_calls is_createArgoApplication tr = 0%nat).
Proof.
  split.
  - apply (project_failure_aborts_create svc_project_fails_bare [prod_login]
             create_request prod_login "tok1"
             (JObj [("message", JStr "")]) JUndefined (JStr ""));
      reflexivity.
  - apply (project_failure_aborts_create svc_project_refused [prod_login]
             create_request prod_login "tok1"
             (JObj [("status", JNum 403); ("message", JStr "permission denied")])
             (JNum 403) (JStr "permission denied"));
      reflexivity.
Defined.

(** * Further properties of the router *)

(** Counts the events of an explicit trace, for every kind of event. *)
Ltac tally :=
  cbn [fst snd]; unfold fetch_event;
  repeat (rewrite count_calls_app || rewrite count_calls_cons
          || rewrite count_calls_nil);
  cbn [is_getArgoAppData is_deleteProject is_createArgoApplication
       is_getArgoToken is_deleteApp is_createArgoProject is_timer
       is_client_call Nat.add].

Lemma saw_true (o : Observation) (f : nat -> Observation) (n : nat) :
  saw o f n = true <-> exists i, (i < n)%nat /\ f i = o.
Proof.
  unfold saw. rewrite existsb_exists. split.
  - intros [i [Hi Ho]]. apply in_seq in Hi. exists i. split; [lia|].
    destruct (f i), o; simpl in Ho; congruence.
  - intros [i [Hi Ho]]. exists i. split; [apply in_seq; lia|].
    rewrite Ho. now destruct o.
Qed.

Lemma saw_false (o : Observation) (f : nat -> Observation) (n : nat) :
  saw o f n = false <-> forall i, (i < n)%nat -> f i <> o.
Proof.
  split.
  - intros Hs i Hi Ho.
    assert (saw o f n = true) by (apply saw_true; eauto). congruence.
  - intros Hall. destruct (saw o f n) eqn:E; [|reflexivity].
    apply saw_true in E. destruct E as [i [Hi Ho]]. now elim (Hall i Hi).
Qed.

Section PollRunMore.

Variable argoSvc : ArgoService.
Variable matchedArgoInstance : Instance.
Variables argoAppName tok : string.

Local Abbreviation script := (fetch argoSvc matchedArgoInstance argoAppName tok).
Local Abbreviation told := (poll_run argoSvc matchedArgoInstance argoAppName tok).
Local Abbreviation seen := (fun i => observe (script i)).

(** The events of the loop do not depend on the locals it starts from. *)
Lemma poll_run_trace_indep (n : nat) :
  forall (c : nat) (v v' : DelVars), snd (told n c v) = snd (told n c v').
Proof.
  induction n as [|n IH]; intros c v v'; [reflexivity|].
  cbn [poll_run]. destruct (observe (script c)).
  - reflexivity.
  - specialize (IH (S c) (set_isAppPendingDelete true v)
                  (set_isAppPendingDelete true v')).
    destruct (told n (S c) (set_isAppPendingDelete true v)),
      (told n (S c) (set_isAppPendingDelete true v')).
    simpl in *. now rewrite IH.
  - specialize (IH (S c) v v').
    destruct (told n (S c) v), (told n (S c) v'). simpl in *. now rewrite IH.
Qed.

(** The loop fetches and waits five seconds, nothing else; it never waits
    more often than it fetches. *)
Lemma poll_run_events (n : nat) :
  forall (c : nat) (v : DelVars),
    Forall (fun ev => ev = fetch_event matchedArgoInstance argoAppName tok
                      \/ ev = EvTimer 5000)
      (snd (told n c v))
    /\ (count_calls is_timer (snd (told n c v))
        <= count_calls is_getArgoAppData (snd (told n c v)))%nat.
Proof.
  induction n as [|n IH]; intros c v.
  - split; [constructor | unfold count_calls; simpl; lia].
  - cbn [poll_run]. destruct (observe (script c)).
    + split; [repeat constructor; now left | tally; lia].
    + specialize (IH (S c) (set_isAppPendingDelete true v)).
      destruct (told n _ _) as [v' t]. simpl in *. destruct IH as [Hall Hle].
      split; [constructor; [now left | constructor; [now right | exact Hall]]
             | tally; lia].
    + specialize (IH (S c) v).
      destruct (told n _ _) as [v' t]. simpl in *. destruct IH as [Hall Hle].
      split; [constructor; [now left | exact Hall] | tally; lia].
Qed.

(** A classifier that is false on fetches and on the timer counts nothing
    in the loop. *)
Lemma poll_run_counts_none (p : Event -> bool) (n c : nat) (v : DelVars) :
  p (fetch_event matchedArgoInstance argoAppName tok) = false ->
  p (EvTimer 5000) = false ->
  count_calls p (snd (told n c v)) = 0%nat.
Proof.
  intros Hf Ht. destruct (poll_run_events n c v) as [Hall _].
  induction Hall as [|ev l Hev _ IH]; [reflexivity|].
  rewrite count_calls_cons, IH.
  destruct Hev as [-> | ->]; [now rewrite Hf | now rewrite Ht].
Qed.

(** What the loop leaves in the locals, read off the observations. *)
Lemma poll_run_result (n : nat) (v : DelVars) :
  isAppPendingDelete v = false ->
  isAppPendingDelete (fst (told n 0 v)) = ends_pending seen n
  /\ argoDeleteAppResp (fst (told n 0 v))
     = (if saw Gone seen n
        then {| status := "success"; message := "application is deleted successfully" |}
        else argoDeleteAppResp v).
Proof.
  intros Hv. unfold ends_pending.
  destruct (saw Gone seen n) eqn:Hg.
  - apply saw_true in Hg. destruct Hg as [k [Hk Hgone]].
    destruct (first_gone seen k Hgone) as [k' [Hle [Hgone' Hmin]]].
    destruct (poll_run_gone argoSvc matchedArgoInstance argoAppName tok k' n 0 v
                ltac:(lia) Hmin Hgone') as [Hfst _].
    rewrite Hfst. rewrite andb_false_r. now split.
  - pose proof (proj1 (saw_false _ _ _) Hg) as Hno.
    destruct (poll_run_exhausted argoSvc matchedArgoInstance argoAppName tok n 0 v Hno)
      as [Happ [_ [_ [Hstill Hblind]]]].
    split; [|exact Happ]. rewrite andb_true_r.
    destruct (saw StillThere seen n) eqn:Hs.
    + apply Hstill. apply saw_true in Hs. exact Hs.
    + rewrite Hblind; [exact Hv|].
      intros i Hi. pose proof (proj1 (saw_false _ _ _) Hs i Hi) as H1.
      specialize (Hno i Hi). simpl in *. destruct (observe (script i)); congruence.
Qed.

End PollRunMore.

(** The token block makes at most one client call, the login. *)
Lemma token_events_shape (argoSvc : ArgoService) (i : Instance) :
  token_events argoSvc i = [] \/ token_events argoSvc i = [EvGetArgoToken i].
Proof.
  unfold token_events, acquire_token.
  destruct (token i) as [t|]; [destruct (truthy (JStr t))|]; cbn; auto.
Qed.

Lemma request_prefix_counts (argoSvc : ArgoService) (i : Instance)
    (argoInstanceName argoAppName : string) (p : Event -> bool) :
  p (EvLogInfo ("Getting info on " ++ argoInstanceName ++ " and " ++ argoAppName)%string)
  = false ->
  p (EvGetArgoToken i) = false ->
  count_calls p (request_prefix argoSvc i argoInstanceName argoAppName) = 0%nat.
Proof.
  intros Hlog Hlogin. unfold request_prefix.
  rewrite count_calls_cons, Hlog.
  destruct (token_events_shape argoSvc i) as [-> | ->]; [reflexivity|].
  now rewrite count_calls_cons, Hlogin.
Qed.

Section PollTimers.

Variable argoSvc : ArgoService.
Variable matchedArgoInstance : Instance.
Variables argoAppName tok : string.

(** A poll that sees the application still there on every attempt waits
    after each of them, the last one included. *)
Lemma poll_run_waits_each_time (n : nat) :
  forall (c : nat) (v : DelVars),
    (forall i, (i < n)%nat ->
               observe (fetch argoSvc matchedArgoInstance argoAppName tok (c + i))
               = StillThere) ->
    count_calls is_timer
      (snd (poll_run argoSvc matchedArgoInstance argoAppName tok n c v)) = n.
Proof.
  induction n as [|n IH]; intros c v Hall; [reflexivity|].
  cbn [poll_run].
  pose proof (Hall 0%nat ltac:(lia)) as H0. rewrite Nat.add_0_r in H0. rewrite H0.
  specialize (IH (S c) (set_isAppPendingDelete true v)).
  destruct (poll_run _ _ _ _ n (S c) _) as [v' t]. simpl in *.
  tally. rewrite IH; [reflexivity|].
  intros i Hi. specialize (Hall (S i) ltac:(lia)).
  now replace (c + S i)%nat with (S (c + i))%nat in Hall by lia.
Qed.

End PollTimers.

(** ** The DELETE handler as a decision table *)

Section DeleteTable.

Variable argoSvc : ArgoService.
Variable argoWaitCycles : Z.
Variable argoInstanceArray : list Instance.
Variables argoInstanceName argoAppName : string.
Variable matchedArgoInstance : Instance.
Variable tok : string.

Hypothesis Hfound :
  find_instance argoInstanceArray (JStr argoInstanceName) = Some matchedArgoInstance.
Hypothesis Htoken : resolved_token argoSvc matchedArgoInstance = Returns tok.

Local Abbreviation prefix :=
  (request_prefix argoSvc matchedArgoInstance argoInstanceName argoAppName).
Local Abbreviation deleted :=
  (deleteApp argoSvc (url matchedArgoInstance) argoAppName tok).
Local Abbreviation project_deleted :=
  (deleteProject argoSvc (url matchedArgoInstance) argoAppName tok).
Local Abbreviation seen :=
  (fun i => observe (fetch argoSvc matchedArgoInstance argoAppName tok i)).
Local Abbreviation handler :=
  (delete_handler argoSvc argoWaitCycles argoInstanceArray
     argoInstanceName argoAppName).
Local Abbreviation budget := (Z.to_nat argoWaitCycles).
Local Abbreviation polls :=
  (if signals_absent deleted then []
   else poll_trace argoSvc matchedArgoInstance argoAppName tok budget).
Local Abbreviation delete_event :=
  (EvDeleteApp (url matchedArgoInstance) argoAppName tok).
Local Abbreviation project_event :=
  (EvDeleteProject (url matchedArgoInstance) argoAppName tok).
Local Abbreviation app_before_project :=
  (if signals_absent deleted
   then {| status := "failed"; message := absent_message deleted |}
   else if saw Gone seen budget
   then {| status := "success"; message := "application is deleted successfully" |}
   else if is_rejected deleted
   then {| status := "failed"; message := "error with deleteing argo app" |}
   else {| status := ""; message := "" |}).

(** Every request whose instance and token resolve, and whose [deleteApp]
    did not throw [null], in one table: the response and the trace as
    functions of what the client answers. *)
Lemma delete_response_table :
  throws_nullish deleted = false ->
  run handler
  = if negb (signals_absent deleted) && ends_pending seen budget
    then (Returns (send (BodyDelete
                           {| status := "failed";
                              message := "application pending delete" |}
                           {| status := "failed";
                              message := "skipping project deletion due to app deletion pending" |})),
          (prefix ++ [delete_event]) ++ polls)
    else if negb (is_rejected deleted)
    then (match project_deleted with
          | Returns _ =>
              Returns (send (BodyDelete app_before_project
                               {| status := "success";
                                  message := "project is deleted successfully" |}))
          | Throws e =>
              match get_prop e "message" with
              | Returns (JStr m) =>
                  Returns (send (BodyDelete app_before_project
                                   {| status := "failed"; message := m |}))
              | Returns _ =>
                  Returns (send (BodyDelete app_before_project
                                   {| status := "failed";
                                      message := "error with deleteing argo project" |}))
              | Throws e' => Throws e'
              end
          end,
          ((prefix ++ [delete_event]) ++ polls) ++ [project_event])
    else (Returns (send (BodyDelete app_before_project
                           {| status := "failed";
                              message := "skipping project deletion due to erro deleting argo app" |})),
          (prefix ++ [delete_event]) ++ polls).
Proof.
  intros Hnull.
  destruct (signals_absent deleted) eqn:Habs.
  - rewrite (delete_handler_run _ argoWaitCycles _ _ _ _ _ Hfound Htoken).
    rewrite delete_app_step_cases.
    unfold signals_absent, absent_message, is_rejected in *.
    destruct deleted as [b|e]; [discriminate|].
    destruct (get_prop e "message") as [[| | | | |msg]|]; try discriminate.
    read_vars. rewrite delete_project_step_cases. read_vars.
    destruct project_deleted as [[]|e'];
      [|destruct (get_prop e' "message") as [[| | | | |]|]]; reflexivity.
  - destruct (polling_run _ argoWaitCycles _ _ _ _ _ Hfound Htoken Habs Hnull)
      as [v1 [Hex [Hpen [Hpr [Hco [Hap Hrun]]]]]].
    destruct (poll_run_frame argoSvc matchedArgoInstance argoAppName tok
                budget 0 v1) as [Hproj [Hcont Hexist]].
    destruct (poll_run_result argoSvc matchedArgoInstance argoAppName tok
                budget v1 Hpen) as [Hflag Happ].
    rewrite Hrun. cbv zeta.
    rewrite (poll_run_trace_indep argoSvc matchedArgoInstance argoAppName tok
               budget 0 v1 initial_vars).
    fold (poll_trace argoSvc matchedArgoInstance argoAppName tok budget).
    assert (Hco' : countinueToDeleteProject v1 = negb (is_rejected deleted)).
    { rewrite Hco. unfold is_rejected. now destruct deleted as [[|]|]. }
    rewrite delete_project_step_cases, Hflag, Hexist, Hex, Hcont, Hco'.
    rewrite andb_true_r. cbn [negb andb].
    assert (Hfinal : argoDeleteAppResp
                       (fst (poll_run argoSvc matchedArgoInstance argoAppName tok
                               budget 0 v1))
                     = if saw Gone seen budget
                       then {| status := "success";
                               message := "application is deleted successfully" |}
                       else if is_rejected deleted
                       then {| status := "failed";
                               message := "error with deleteing argo app" |}
                       else {| status := ""; message := "" |}).
    { rewrite Happ, Hap. unfold is_rejected.
      destruct (saw Gone seen budget); [reflexivity|].
      now destruct deleted as [[|]|]. }
    destruct (ends_pending seen budget); [reflexivity|].
    destruct (is_rejected deleted); cbn [negb];
      [read_vars; now rewrite Hfinal|].
    destruct project_deleted as [[]|e'];
      [|destruct (get_prop e' "message") as [[| | | | |]|]];
      read_vars; rewrite ?Hfinal; reflexivity.
Qed.

(** X1.  A delete request whose instance and token resolve always gets the
    composite response with HTTP status 200, and its project outcome is
    decided ([success] or [failed], never empty), unless [deleteApp] or
    [deleteProject] throws [null] or [undefined]. *)
Theorem delete_always_answers :
  throws_nullish deleted = false ->
  throws_nullish project_deleted = false ->
  exists a p tr,
    run handler = (Returns {| http_status := JNum 200; body := BodyDelete a p |}, tr)
    /\ (status p = "success" \/ status p = "failed").
Proof.
  intros Hnull Hpnull. rewrite (delete_response_table Hnull).
  unfold throws_nullish in Hpnull.
  destruct (negb (signals_absent deleted) && ends_pending seen budget);
    [eexists; eexists; eexists; split; [reflexivity | now right]|].
  destruct (negb (is_rejected deleted));
    [|eexists; eexists; eexists; split; [reflexivity | now right]].
  destruct project_deleted as [[]|e'];
    [eexists; eexists; eexists; split; [reflexivity | now left]|].
  destruct (get_prop e' "message") as [[| | | | |]|]; try discriminate;
    (eexists; eexists; eexists; split; [reflexivity | now right]).
Qed.

(** The parts of the trace of a delete request. *)
Lemma delete_trace_parts :
  throws_nullish deleted = false ->
  exists tail,
    snd (run handler) = ((prefix ++ [delete_event]) ++ polls) ++ tail
    /\ (tail = [] \/ tail = [project_event])
    /\ Forall (fun ev => ev = fetch_event matchedArgoInstance argoAppName tok
                         \/ ev = EvTimer 5000) polls.
Proof.
  intros Hnull. rewrite (delete_response_table Hnull).
  assert (Hpolls : Forall (fun ev => ev = fetch_event matchedArgoInstance argoAppName tok
                                     \/ ev = EvTimer 5000) polls).
  { destruct (signals_absent deleted); [constructor|].
    apply (poll_run_events argoSvc matchedArgoInstance argoAppName tok
             budget 0 initial_vars). }
  destruct (negb (signals_absent deleted) && ends_pending seen budget);
    [exists []; rewrite app_nil_r; auto|].
  destruct (negb (is_rejected deleted));
    [exists [project_event] | exists []; rewrite app_nil_r]; auto.
Qed.

(** The counts of the calls of a delete request. *)
Lemma delete_call_counts :
  throws_nullish deleted = false ->
  (count_calls is_getArgoAppData (snd (run handler)) <= budget)%nat
  /\ (count_calls is_timer (snd (run handler))
      <= count_calls is_getArgoAppData (snd (run handler)))%nat
  /\ count_calls is_deleteApp (snd (run handler)) = 1%nat
  /\ (count_calls is_deleteProject (snd (run handler)) <= 1)%nat.
Proof.
  intros Hnull.
  destruct (delete_trace_parts Hnull) as [tail [-> [Htail _]]].
  pose proof (request_prefix_counts argoSvc matchedArgoInstance argoInstanceName
                argoAppName) as Hprefix.
  rewrite !(count_calls_app _ _ tail), !(count_calls_app _ _ polls),
    !(count_calls_app _ prefix).
  rewrite (Hprefix is_getArgoAppData), (Hprefix is_timer),
    (Hprefix is_deleteApp), (Hprefix is_deleteProject) by reflexivity.
  assert (Hp : (count_calls is_getArgoAppData polls <= budget)%nat
               /\ (count_calls is_timer polls <= count_calls is_getArgoAppData polls)%nat
               /\ count_calls is_deleteApp polls = 0%nat
               /\ count_calls is_deleteProject polls = 0%nat).
  { destruct (signals_absent deleted).
    - unfold count_calls; simpl; lia.
    - unfold poll_trace. repeat split.
      + apply poll_run_fetches_le.
      + apply poll_run_events.
      + now apply poll_run_counts_none.
      + now apply poll_run_counts_none. }
  destruct Hp as [Hf [Ht [Ha Hd]]]. rewrite Ha, Hd.
  destruct Htail as [-> | ->]; tally; lia.
Qed.

(** X4.  The application outcome of a composite response is [success]
    exactly when the poll was entered and one of its attempts saw the
    application gone: success is never reported without that confirmation. *)
Theorem app_success_iff_confirmed (a p : Response) (tr : Trace) :
  run handler = (Returns (send (BodyDelete a p)), tr) ->
  status a = "success"
  <-> (signals_absent deleted = false
       /\ exists k, (k < budget)%nat /\ seen k = Gone).
Proof.
  intros Hrun.
  destruct (throws_nullish deleted) eqn:Hnull.
  { destruct (nullish_delete_rejects _ argoWaitCycles _ _ _ _ _ Hfound Htoken Hnull)
      as [e [tr' Hthrow]]. congruence. }
  rewrite (delete_response_table Hnull) in Hrun.
  rewrite <- (saw_true Gone seen budget).
  unfold ends_pending in Hrun.
  destruct (signals_absent deleted), (saw Gone seen budget),
    (saw StillThere seen budget), (is_rejected deleted);
    cbn [negb andb] in Hrun;
    try (destruct project_deleted as [[]|e'];
         [|destruct (get_prop e' "message") as [[| | | | |]|]]);
    try discriminate;
    injection Hrun as <- _ _; cbn [status];
    (split; [intros H; try discriminate H; now split
            | intros [H1 H2]; try discriminate H1; try discriminate H2; reflexivity]).
Qed.

(** X5.  The application outcome is left empty (status and message [""])
    exactly when [deleteApp] neither answered [false] nor signalled the
    application absent, and no poll attempt obtained an object: then nothing
    at all is reported about the application. *)
Theorem app_outcome_empty_iff (a p : Response) (tr : Trace) :
  run handler = (Returns (send (BodyDelete a p)), tr) ->
  status a = ""
  <-> (signals_absent deleted = false
       /\ is_rejected deleted = false
       /\ forall i, (i < budget)%nat -> seen i = Errored).
Proof.
  intros Hrun.
  destruct (throws_nullish deleted) eqn:Hnull.
  { destruct (nullish_delete_rejects _ argoWaitCycles _ _ _ _ _ Hfound Htoken Hnull)
      as [e [tr' Hthrow]]. congruence. }
  rewrite (delete_response_table Hnull) in Hrun.
  assert (Hblind : (forall i, (i < budget)%nat -> seen i = Errored)
                   <-> (saw Gone seen budget = false
                        /\ saw StillThere seen budget = false)).
  { rewrite !saw_false. split.
    - intros Hall. split; intros i Hi; rewrite (Hall i Hi); discriminate.
    - intros [Hg Hs] i Hi. specialize (Hg i Hi). specialize (Hs i Hi).
      simpl in *. destruct (observe _); congruence. }
  rewrite Hblind. unfold ends_pending in Hrun.
  destruct (signals_absent deleted), (saw Gone seen budget),
    (saw StillThere seen budget), (is_rejected deleted);
    cbn [negb andb] in Hrun;
    try (destruct project_deleted as [[]|e'];
         [|destruct (get_prop e' "message") as [[| | | | |]|]]);
    try discriminate;
    injection Hrun as <- _ _; cbn [status];
    (split; [intros H; try discriminate H; now repeat split
            | intros [H1 [H2 [H3 H4]]];
              try discriminate H1; try discriminate H2;
              try discriminate H3; try discriminate H4; reflexivity]).
Qed.

(** When [deleteProject] is called. *)
Lemma project_called_iff :
  throws_nullish deleted = false ->
  count_calls is_deleteProject (snd (run handler)) = 1%nat
  <-> (is_rejected deleted = false
       /\ (signals_absent deleted = true \/ ends_pending seen budget = false)).
Proof.
  intros Hnull. rewrite (delete_response_table Hnull).
  pose proof (request_prefix_counts argoSvc matchedArgoInstance argoInstanceName
                argoAppName is_deleteProject eq_refl eq_refl) as Hprefix.
  assert (Hpolls : count_calls is_deleteProject polls = 0%nat).
  { destruct (signals_absent deleted); [reflexivity|].
    now apply poll_run_counts_none. }
  destruct (signals_absent deleted), (ends_pending seen budget),
    (is_rejected deleted); cbn [negb andb fst snd] in *;
    rewrite ?count_calls_app, ?Hprefix, ?Hpolls; tally;
    (split; [intros H; try discriminate H; split; auto
            | intros [H1 [H2|H2]];
              try discriminate H1; try discriminate H2; reflexivity]).
Qed.

(** X7.  The project outcome of a composite response is [success] exactly
    when [deleteProject] was called and returned. *)
Theorem project_success_iff (a p : Response) (tr : Trace) :
  run handler = (Returns (send (BodyDelete a p)), tr) ->
  status p = "success"
  <-> (count_calls is_deleteProject tr = 1%nat
       /\ project_deleted = Returns tt).
Proof.
  intros Hrun.
  destruct (throws_nullish deleted) eqn:Hnull.
  { destruct (nullish_delete_rejects _ argoWaitCycles _ _ _ _ _ Hfound Htoken Hnull)
      as [e [tr' Hthrow]]. congruence. }
  pose proof (proj1 (project_called_iff Hnull)) as Hcalled.
  assert (Htr : tr = snd (run handler)) by now rewrite Hrun.
  rewrite (delete_response_table Hnull) in Hrun. subst tr.
  destruct (negb (signals_absent deleted) && ends_pending seen budget) eqn:Hp.
  - injection Hrun as _ <- _. cbn [status]. split; [discriminate|].
    intros [Hc _]. destruct (Hcalled Hc) as [_ [Habs | Hend]].
    + rewrite Habs in Hp. discriminate.
    + rewrite Hend, andb_false_r in Hp. discriminate.
  - destruct (is_rejected deleted) eqn:Hrej; cbn [negb] in Hrun.
    + injection Hrun as _ <- _. cbn [status]. split; [discriminate|].
      intros [Hc _]. destruct (Hcalled Hc) as [Hr _]. discriminate.
    + destruct project_deleted as [[]|e'] eqn:Hproj.
      * injection Hrun as _ <- _. cbn [status]. split; [|reflexivity].
        intros _. split; [|reflexivity].
        apply (proj2 (project_called_iff Hnull)).
        split; [exact Hrej|].
        destruct (signals_absent deleted); [now left|]. right.
        cbn [negb andb] in Hp. exact Hp.
      * destruct (get_prop e' "message") as [[| | | | |]|]; try discriminate;
          injection Hrun as _ <- _; cbn [status];
          (split; [discriminate | intros [_ H]; discriminate H]).
Qed.

(** X8.  When [deleteProject] is called and throws, the project outcome is
    [failed] with the error's message if that is a string and with [error
    with deleteing argo project] otherwise; the request still answers 200. *)
Theorem project_failure_reported (e m : JsVal) :
  throws_nullish deleted = false ->
  is_rejected deleted = false ->
  signals_absent deleted = true \/ ends_pending seen budget = false ->
  project_deleted = Throws e ->
  get_prop e "message" = Returns m ->
  exists a tr,
    run handler
    = (Returns {| http_status := JNum 200;
                  body := BodyDelete a
                            {| status := "failed";
                               message := match m with
                                          | JStr msg => msg
                                          | _ => "error with deleteing argo project"
                                          end |} |},
       tr).
Proof.
  intros Hnull Hrej Hpoll Hproj Hmsg.
  rewrite (delete_response_table Hnull), Hrej, Hproj, Hmsg.
  assert (Hp : negb (signals_absent deleted) && ends_pending seen budget = false).
  { destruct Hpoll as [-> | ->]; [reflexivity | apply andb_false_r]. }
  rewrite Hp. cbn [negb].
  destruct m; eexists; eexists; reflexivity.
Qed.

(** X9.  With a wait budget of zero or less a delete request never fetches
    the application and never waits; [deleteProject] is then called whenever
    [deleteApp] did not answer [false]. *)
Theorem no_budget_no_poll :
  throws_nullish deleted = false ->
  argoWaitCycles <= 0 ->
  count_calls is_getArgoAppData (snd (run handler)) = 0%nat
  /\ count_calls is_timer (snd (run handler)) = 0%nat
  /\ (is_rejected deleted = false ->
      count_calls is_deleteProject (snd (run handler)) = 1%nat).
Proof.
  intros Hnull Hw.
  destruct (delete_call_counts Hnull) as [Hf [Ht _]].
  replace budget with 0%nat in Hf by lia.
  repeat split; try lia.
  intros Hrej. apply (proj2 (project_called_iff Hnull)).
  split; [exact Hrej|]. right.
  now replace budget with 0%nat by lia.
Qed.

(** X10.  When the poll is entered and every attempt finds the application
    still there, the request waits five seconds after each attempt, the
    last one included, before it reports the pending deletion. *)
Theorem pending_poll_waits_after_every_attempt :
  throws_nullish deleted = false ->
  signals_absent deleted = false ->
  (forall i, (i < budget)%nat -> seen i = StillThere) ->
  count_calls is_timer (snd (run handler)) = budget
  /\ Forall (fun ev => is_timer ev = true -> ev = EvTimer 5000) (snd (run handler)).
Proof.
  intros Hnull Habs Hall.
  destruct (delete_trace_parts Hnull) as [tail [Htr [Htail Hpolls]]].
  rewrite Htr, Habs in *. split.
  - rewrite !count_calls_app.
    rewrite (request_prefix_counts argoSvc matchedArgoInstance argoInstanceName
               argoAppName is_timer eq_refl eq_refl).
    unfold poll_trace.
    rewrite (poll_run_waits_each_time argoSvc matchedArgoInstance argoAppName tok
               budget 0 initial_vars Hall).
    destruct Htail as [-> | ->]; tally; lia.
  - rewrite !Forall_app. repeat split.
    + unfold request_prefix. constructor; [discriminate|].
      destruct (token_events_shape argoSvc matchedArgoInstance) as [-> | ->];
        repeat constructor; discriminate.
    + repeat constructor. discriminate.
    + eapply Forall_impl; [|exact Hpolls].
      intros ev [-> | ->]; [discriminate | reflexivity].
    + destruct Htail as [-> | ->]; repeat constructor; discriminate.
Qed.

(** X11.  The clean path: [deleteApp] answers [true], some poll attempt
    within the budget sees the application gone, and [deleteProject]
    returns; then both outcomes are [success]. *)
Theorem clean_delete_succeeds :
  deleted = Returns true ->
  (exists k, (k < budget)%nat /\ seen k = Gone) ->
  project_deleted = Returns tt ->
  exists tr,
    run handler
    = (Returns (send (BodyDelete
                        {| status := "success";
                           message := "application is deleted successfully" |}
                        {| status := "success";
                           message := "project is deleted successfully" |})),
       tr)
    /\ count_calls is_deleteProject tr = 1%nat.
Proof.
  intros Hd Hgone Hproj.
  assert (Hnull : throws_nullish deleted = false) by now rewrite Hd.
  assert (Hcalled : count_calls is_deleteProject (snd (run handler)) = 1%nat).
  { apply (proj2 (project_called_iff Hnull)).
    split; [now rewrite Hd|]. right. unfold ends_pending.
    rewrite (proj2 (saw_true Gone seen budget) Hgone). apply andb_false_r. }
  revert Hcalled.
  rewrite (delete_response_table Hnull), Hproj. unfold ends_pending.
  rewrite (proj2 (saw_true Gone seen budget) Hgone), Hd.
  cbn [signals_absent is_rejected negb andb]. rewrite andb_false_r.
  intros Hcalled. eexists. split; [reflexivity | exact Hcalled].
Qed.

(** X2.  The client calls of a delete request come in a fixed order: the
    token block, one [deleteApp], the poll (fetches and five-second waits
    only), and last at most one [deleteProject]. *)
Theorem delete_trace_shape :
  throws_nullish deleted = false ->
  exists tail,
    snd (run handler) = ((prefix ++ [delete_event]) ++ polls) ++ tail
    /\ (tail = [] \/ tail = [project_event])
    /\ Forall (fun ev => ev = fetch_event matchedArgoInstance argoAppName tok
                         \/ ev = EvTimer 5000) polls.
Proof. exact delete_trace_parts. Qed.

(** X6.  [deleteProject] is called exactly when [deleteApp] did not answer
    [false] and the poll did not end with the application still present. *)
Theorem project_deletion_attempted_iff :
  throws_nullish deleted = false ->
  count_calls is_deleteProject (snd (run handler)) = 1%nat
  <-> (is_rejected deleted = false
       /\ (signals_absent deleted = true \/ ends_pending seen budget = false)).
Proof. exact project_called_iff. Qed.

End DeleteTable.

(** X12.  An error thrown by [deleteApp] whose [message] is not a string is
    dropped without a trace: the request runs exactly as if [deleteApp] had
    answered [true]. *)
Theorem unreadable_delete_error_is_ignored
    (argoSvc : ArgoService) (argoWaitCycles : Z) (argoInstanceArray : list Instance)
    (argoInstanceName argoAppName : string) (matchedArgoInstance : Instance)
    (tok : string) (e m : JsVal) :
  find_instance argoInstanceArray (JStr argoInstanceName) = Some matchedArgoInstance ->
  resolved_token argoSvc matchedArgoInstance = Returns tok ->
  deleteApp argoSvc (url matchedArgoInstance) argoAppName tok = Throws e ->
  get_prop e "message" = Returns m ->
  typeof_string m = false ->
  run (delete_handler argoSvc argoWaitCycles argoInstanceArray
         argoInstanceName argoAppName)
  = run (delete_handler (with_deleteApp (Returns true) argoSvc) argoWaitCycles
           argoInstanceArray argoInstanceName argoAppName).
Proof.
  intros Hfound Htoken Hd Hmsg Hm.
  assert (Htoken' : resolved_token (with_deleteApp (Returns true) argoSvc)
                      matchedArgoInstance = Returns tok) by exact Htoken.
  rewrite (delete_response_table argoSvc argoWaitCycles argoInstanceArray
             argoInstanceName argoAppName matchedArgoInstance tok Hfound Htoken)
    by (unfold throws_nullish; now rewrite Hd, Hmsg).
  rewrite (delete_response_table (with_deleteApp (Returns true) argoSvc)
             argoWaitCycles argoInstanceArray argoInstanceName argoAppName
             matchedArgoInstance tok Hfound Htoken') by reflexivity.
  rewrite Hd. unfold signals_absent, is_rejected, absent_message. rewrite Hmsg.
  destruct m; try discriminate; reflexivity.
Qed.

(** ** The token block in the routes *)

Section InstanceRoutes.

Variable argoSvc : ArgoService.
Variable argoInstanceArray : list Instance.
Variable matchedArgoInstance : Instance.

Local Abbreviation login := (resolved_token argoSvc matchedArgoInstance).
Local Abbreviation login_events := (token_events argoSvc matchedArgoInstance).

(** An instance-scoped get whose instance resolves: the token block, one
    fetch, and the client's data as the response. *)
Lemma get_by_name_run (argoInstanceName argoAppName : string) :
  find_instance argoInstanceArray (JStr argoInstanceName) = Some matchedArgoInstance ->
  run (get_by_name argoSvc argoInstanceArray argoInstanceName argoAppName)
  = match login with
    | Returns tok =>
        (match getArgoAppData argoSvc 0 (url matchedArgoInstance)
                 (name matchedArgoInstance) (ByName argoAppName) tok with
         | Returns d => Returns (send (BodyData d))
         | Throws e => Throws e
         end,
         [EvLogInfo ("Getting info on " ++ argoAppName)%string;
          EvLogInfo ("Getting app " ++ argoAppName ++ " on " ++ argoInstanceName)%string]
           ++ login_events
           ++ [EvGetArgoAppData (url matchedArgoInstance) (name matchedArgoInstance)
                 (ByName argoAppName) tok])
    | Throws e =>
        (Throws e,
         [EvLogInfo ("Getting info on " ++ argoAppName)%string;
          EvLogInfo ("Getting app " ++ argoAppName ++ " on " ++ argoInstanceName)%string]
           ++ login_events)
    end.
Proof.
  intros Hfound.
  destruct (token_events_quiet argoSvc matchedArgoInstance) as [Hq _].
  unfold run, get_by_name.
  unfold bind at 1. unfold call at 1. unfold bind at 1. unfold call at 1.
  rewrite Hfound. unfold bind at 1. rewrite acquire_token_frame.
  destruct login as [tok|e]; [|reflexivity].
  unfold bind, call_getArgoAppData, ret.
  replace (count_calls is_getArgoAppData _) with 0%nat
    by (tally; now rewrite Hq).
  rewrite <- app_assoc.
  now destruct (getArgoAppData argoSvc 0 _ _ _ _).
Qed.

Lemma get_by_selector_run (argoInstanceName argoAppSelector : string) :
  find_instance argoInstanceArray (JStr argoInstanceName) = Some matchedArgoInstance ->
  run (get_by_selector argoSvc argoInstanceArray argoInstanceName argoAppSelector)
  = match login with
    | Returns tok =>
        (match getArgoAppData argoSvc 0 (url matchedArgoInstance)
                 (name matchedArgoInstance) (BySelector argoAppSelector) tok with
         | Returns d => Returns (send (BodyData d))
         | Throws e => Throws e
         end,
         [EvLogInfo ("Getting apps for selector " ++ argoAppSelector ++ " on "
                       ++ argoInstanceName)%string]
           ++ login_events
           ++ [EvGetArgoAppData (url matchedArgoInstance) (name matchedArgoInstance)
                 (BySelector argoAppSelector) tok])
    | Throws e =>
        (Throws e,
         [EvLogInfo ("Getting apps for selector " ++ argoAppSelector ++ " on "
                       ++ argoInstanceName)%string]
           ++ login_events)
    end.
Proof.
  intros Hfound.
  destruct (token_events_quiet argoSvc matchedArgoInstance) as [Hq _].
  unfold run, get_by_selector.
  unfold bind at 1. unfold call at 1.
  rewrite Hfound. unfold bind at 1. rewrite acquire_token_frame.
  destruct login as [tok|e]; [|reflexivity].
  unfold bind, call_getArgoAppData, ret.
  replace (count_calls is_getArgoAppData _) with 0%nat
    by (tally; now rewrite Hq).
  rewrite <- app_assoc.
  now destruct (getArgoAppData argoSvc 0 _ _ _ _).
Qed.

End InstanceRoutes.

(** ** Creation, case by case *)

Section CreateRoute.

Variable argoSvc : ArgoService.
Variable argoInstanceArray : list Instance.
Variable matchedArgoInstance : Instance.
Variable b : CreateBody.

Hypothesis Hfound :
  find_instance argoInstanceArray (clusterName b) = Some matchedArgoInstance.

Local Abbreviation login := (resolved_token argoSvc matchedArgoInstance).
Local Abbreviation login_events := (token_events argoSvc matchedArgoInstance).

(** Every create request whose instance resolves, in one table. *)
Lemma create_argo_run :
  run (create_argo argoSvc argoInstanceArray b)
  = match login with
    | Throws e => (answer_from_error e send_error, login_events)
    | Returns tok =>
        match createArgoProject argoSvc (project_args matchedArgoInstance tok b) with
        | Throws e =>
            (answer_from_error e
               (fun st msg =>
                  send_error st (js_or msg (JStr "Failed to create argo project"))),
             login_events
               ++ [EvCreateArgoProject (project_args matchedArgoInstance tok b);
                   EvLogError e])
        | Returns _ =>
            match createArgoApplication argoSvc
                    (application_args matchedArgoInstance tok b) with
            | Returns _ =>
                (Returns (send (BodyCreated (projectName b) (appName b) (namespace b))),
                 login_events
                   ++ [EvCreateArgoProject (project_args matchedArgoInstance tok b);
                       EvCreateArgoApplication
                         (application_args matchedArgoInstance tok b)])
            | Throws e =>
                (match get_prop e "message" with
                 | Returns msg =>
                     Returns {| http_status := JNum 500;
                                body := BodyStatusMessage (JNum 500)
                                          (js_or msg (JStr "Failed to create argo app")) |}
                 | Throws e' => Throws e'
                 end,
                 login_events
                   ++ [EvCreateArgoProject (project_args matchedArgoInstance tok b);
                       EvCreateArgoApplication
                         (application_args matchedArgoInstance tok b);
                       EvLogError e])
            end
        end
    end.
Proof.
  unfold run, create_argo. rewrite Hfound.
  unfold bind at 1. unfold try_catch at 1. unfold bind at 1.
  rewrite acquire_token_frame. cbn [app].
  fold (project_args matchedArgoInstance).
  destruct login as [tok|e].
  - unfold ret at 1.
    fold (project_args matchedArgoInstance tok b).
    fold (application_args matchedArgoInstance tok b).
    unfold bind at 1. unfold try_catch at 1. unfold bind at 1. unfold call at 1.
    destruct (createArgoProject argoSvc _) as [[]|e].
    + unfold ret at 1. unfold try_catch, bind, call, ret.
      destruct (createArgoApplication argoSvc _) as [[]|e].
      * now rewrite <- !app_assoc.
      * unfold lift. rewrite <- !app_assoc.
        now destruct (get_prop e "message").
    + unfold bind, call, lift, ret, answer_from_error. rewrite <- !app_assoc.
      destruct (get_prop e "status"); [|reflexivity].
      now destruct (get_prop e "message").
  - unfold bind, lift, ret, answer_from_error.
    destruct (get_prop e "status"); [|reflexivity].
    now destruct (get_prop e "message").
Qed.

End CreateRoute.

(** ** Tokens *)

Lemma token_block_cases (argoSvc : ArgoService) (i : Instance) :
  if has_static_token i
  then exists t, token i = Some t
                 /\ resolved_token argoSvc i = Returns t
                 /\ token_events argoSvc i = []
  else resolved_token argoSvc i = getArgoToken argoSvc i
       /\ token_events argoSvc i = [EvGetArgoToken i].
Proof.
  unfold has_static_token, resolved_token, token_events, acquire_token.
  destruct (token i) as [t|]; [|now split].
  cbn [truthy]. destruct (negb (t =? "")%string); [|now split].
  exists t. now repeat split.
Qed.

Lemma client_calls_app (t u : Trace) :
  client_calls (t ++ u) = client_calls t ++ client_calls u.
Proof. apply filter_app. Qed.

Section DeleteLogin.

Variable argoSvc : ArgoService.
Variable argoWaitCycles : Z.
Variable argoInstanceArray : list Instance.
Variables argoInstanceName argoAppName : string.
Variable matchedArgoInstance : Instance.

Hypothesis Hfound :
  find_instance argoInstanceArray (JStr argoInstanceName) = Some matchedArgoInstance.

Local Abbreviation handler :=
  (delete_handler argoSvc argoWaitCycles argoInstanceArray
     argoInstanceName argoAppName).

(** A delete request whose login fails is rejected before [deleteApp]. *)
Lemma delete_login_fails (e : JsVal) :
  resolved_token argoSvc matchedArgoInstance = Throws e ->
  run handler
  = (Throws e,
     request_prefix argoSvc matchedArgoInstance argoInstanceName argoAppName).
Proof.
  intros Hlogin. unfold run, delete_handler.
  unfold bind at 1. unfold call at 1. rewrite Hfound.
  unfold bind at 1. now rewrite acquire_token_frame, Hlogin.
Qed.

(** A delete request logs in as often as its token block does. *)
Lemma delete_login_count :
  count_calls is_getArgoToken (snd (run handler))
  = count_calls is_getArgoToken (token_events argoSvc matchedArgoInstance).
Proof.
  destruct (resolved_token argoSvc matchedArgoInstance) as [tok|e] eqn:Htoken.
  - destruct (throws_nullish
                (deleteApp argoSvc (url matchedArgoInstance) argoAppName tok))
      eqn:Hnull.
    + rewrite (delete_handler_run _ argoWaitCycles _ _ _ _ _ Hfound Htoken).
      rewrite delete_app_step_cases. unfold throws_nullish in Hnull.
      destruct (deleteApp argoSvc _ _ _) as [d|e]; [discriminate|].
      destruct (get_prop e "message") as [m|e']; [discriminate|].
      unfold request_prefix. now tally.
    + destruct (delete_trace_parts _ argoWaitCycles _ _ _ _ _ Hfound Htoken Hnull)
        as [tail [-> [Htail Hpolls]]].
      rewrite !count_calls_app.
      destruct (signals_absent _);
        [|unfold poll_trace; rewrite poll_run_counts_none by reflexivity];
        unfold request_prefix; destruct Htail as [-> | ->]; tally; lia.
  - rewrite (delete_login_fails e Htoken). unfold request_prefix. now tally.
Qed.

End DeleteLogin.

(** X13.  Every instance-scoped route logs in exactly when the matched
    instance has no usable static token (none, or the empty string), and
    then exactly once; with a static token it never calls [getArgoToken]. *)
Theorem login_only_without_static_token
    (argoSvc : ArgoService) (argoWaitCycles : Z) (argoInstanceArray : list Instance)
    (matchedArgoInstance : Instance) :
  (forall n argoAppName,
      find_instance argoInstanceArray (JStr n) = Some matchedArgoInstance ->
      count_calls is_getArgoToken
        (snd (run (get_by_name argoSvc argoInstanceArray n argoAppName)))
      = if has_static_token matchedArgoInstance then 0%nat else 1%nat)
  /\ (forall n argoAppSelector,
         find_instance argoInstanceArray (JStr n) = Some matchedArgoInstance ->
         count_calls is_getArgoToken
           (snd (run (get_by_selector argoSvc argoInstanceArray n argoAppSelector)))
         = if has_static_token matchedArgoInstance then 0%nat else 1%nat)
  /\ (forall b,
         find_instance argoInstanceArray (clusterName b) = Some matchedArgoInstance ->
         count_calls is_getArgoToken
           (snd (run (create_argo argoSvc argoInstanceArray b)))
         = if has_static_token matchedArgoInstance then 0%nat else 1%nat)
  /\ (forall n argoAppName,
         find_instance argoInstanceArray (JStr n) = Some matchedArgoInstance ->
         count_calls is_getArgoToken
           (snd (run (delete_handler argoSvc argoWaitCycles argoInstanceArray n
                        argoAppName)))
         = if has_static_token matchedArgoInstance then 0%nat else 1%nat).
Proof.
  assert (Hblock : count_calls is_getArgoToken (token_events argoSvc matchedArgoInstance)
                   = if has_static_token matchedArgoInstance then 0%nat else 1%nat).
  { pose proof (token_block_cases argoSvc matchedArgoInstance) as Hc.
    destruct (has_static_token matchedArgoInstance).
    - destruct Hc as [t [_ [_ ->]]]. reflexivity.
    - destruct Hc as [_ ->]. reflexivity. }
  split; [|split; [|split]].
  - intros n argoAppName Hfound. rewrite (get_by_name_run _ _ _ _ _ Hfound).
    destruct (resolved_token argoSvc matchedArgoInstance); tally; rewrite Hblock; lia.
  - intros n argoAppSelector Hfound. rewrite (get_by_selector_run _ _ _ _ _ Hfound).
    destruct (resolved_token argoSvc matchedArgoInstance); tally; rewrite Hblock; lia.
  - intros b Hfound. rewrite (create_argo_run _ _ _ _ Hfound).
    destruct (resolved_token argoSvc matchedArgoInstance) as [tok|e];
      [destruct (createArgoProject argoSvc _);
       [destruct (createArgoApplication argoSvc _)|]|];
      tally; rewrite Hblock; lia.
  - intros n argoAppName Hfound.
    now rewrite (delete_login_count _ _ _ _ _ _ Hfound).
Qed.

(** X14.  When the login fails, the get and delete routes are rejected with
    the login error and send no response; the login is their only client
    call, so nothing is fetched or deleted. *)
Theorem login_failure_rejects
    (argoSvc : ArgoService) (argoWaitCycles : Z) (argoInstanceArray : list Instance)
    (matchedArgoInstance : Instance) (n : string) (e : JsVal) :
  find_instance argoInstanceArray (JStr n) = Some matchedArgoInstance ->
  has_static_token matchedArgoInstance = false ->
  getArgoToken argoSvc matchedArgoInstance = Throws e ->
  forall x : string,
    let rejected (r : Outcome HttpResponse * Trace) :=
      fst r = Throws e
      /\ client_calls (snd r) = [EvGetArgoToken matchedArgoInstance] in
    rejected (run (get_by_name argoSvc argoInstanceArray n x))
    /\ rejected (run (get_by_selector argoSvc argoInstanceArray n x))
    /\ rejected (run (delete_handler argoSvc argoWaitCycles argoInstanceArray n x)).
Proof.
  intros Hfound Hstatic Hlogin x.
  pose proof (token_block_cases argoSvc matchedArgoInstance) as Hc.
  rewrite Hstatic in Hc. destruct Hc as [Hres Hev]. rewrite Hlogin in Hres.
  cbv zeta. split; [|split].
  - rewrite (get_by_name_run _ _ _ _ _ Hfound), Hres, Hev. now split.
  - rewrite (get_by_selector_run _ _ _ _ _ Hfound), Hres, Hev. now split.
  - rewrite (delete_login_fails _ _ _ _ _ _ Hfound e Hres).
    unfold request_prefix. rewrite Hev. now split.
Qed.

(** X15.  The create route, unlike the others, answers a failed login: its
    HTTP status is [e.status], or 500 when that is missing or falsy; its
    body carries [e.status] and [e.message] as they are (no fallback
    message).  [createArgoProject] is never called. *)
Theorem create_login_failure_is_answered
    (argoSvc : ArgoService) (argoInstanceArray : list Instance)
    (matchedArgoInstance : Instance) (b : CreateBody) (e st msg : JsVal) :
  find_instance argoInstanceArray (clusterName b) = Some matchedArgoInstance ->
  has_static_token matchedArgoInstance = false ->
  getArgoToken argoSvc matchedArgoInstance = Throws e ->
  get_prop e "status" = Returns st ->
  get_prop e "message" = Returns msg ->
  run (create_argo argoSvc argoInstanceArray b)
  = (Returns {| http_status := if truthy st then st else JNum 500;
                body := BodyStatusMessage st msg |},
     [EvGetArgoToken matchedArgoInstance]).
Proof.
  intros Hfound Hstatic Hlogin Hst Hmsg.
  pose proof (token_block_cases argoSvc matchedArgoInstance) as Hc.
  rewrite Hstatic in Hc. destruct Hc as [Hres Hev]. rewrite Hlogin in Hres.
  rewrite (create_argo_run _ _ _ _ Hfound), Hres, Hev.
  unfold answer_from_error. now rewrite Hst, Hmsg.
Qed.

(** X16.  An instance-scoped get whose instance and token resolve makes one
    [getArgoAppData] call, by name or by selector as the route says, for
    the matched instance's url and name; it answers 200 with exactly what
    the client returned, and is rejected with the client's error when the
    call throws. *)
Theorem instance_get_passes_through
    (argoSvc : ArgoService) (argoInstanceArray : list Instance)
    (matchedArgoInstance : Instance) (n x tok : string) :
  find_instance argoInstanceArray (JStr n) = Some matchedArgoInstance ->
  resolved_token argoSvc matchedArgoInstance = Returns tok ->
  let answer (r : AppRef) (res : Outcome HttpResponse * Trace) :=
    fst res
    = match getArgoAppData argoSvc 0 (url matchedArgoInstance)
              (name matchedArgoInstance) r tok with
      | Returns d => Returns {| http_status := JNum 200; body := BodyData d |}
      | Throws e => Throws e
      end
    /\ count_calls is_getArgoAppData (snd res) = 1%nat
    /\ In (EvGetArgoAppData (url matchedArgoInstance) (name matchedArgoInstance) r tok)
          (snd res) in
  answer (ByName x) (run (get_by_name argoSvc argoInstanceArray n x))
  /\ answer (BySelector x) (run (get_by_selector argoSvc argoInstanceArray n x)).
Proof.
  intros Hfound Htoken. cbv zeta.
  destruct (token_events_quiet argoSvc matchedArgoInstance) as [Hq _].
  split.
  - rewrite (get_by_name_run _ _ _ _ _ Hfound), Htoken. cbn [fst snd].
    split; [reflexivity|]. split; [tally; rewrite Hq; reflexivity|].
    apply in_or_app. right. apply in_or_app. right. now left.
  - rewrite (get_by_selector_run _ _ _ _ _ Hfound), Htoken. cbn [fst snd].
    split; [reflexivity|]. split; [tally; rewrite Hq; reflexivity|].
    apply in_or_app. right. apply in_or_app. right. now left.
Qed.

(** X17.  When both creation calls return, the create route answers 200
    with the project name, application name and namespace of the request;
    the project is created before the application, both with the resolved
    token and the matched instance's url. *)
Theorem create_succeeds
    (argoSvc : ArgoService) (argoInstanceArray : list Instance)
    (matchedArgoInstance : Instance) (b : CreateBody) (tok : string) :
  find_instance argoInstanceArray (clusterName b) = Some matchedArgoInstance ->
  resolved_token argoSvc matchedArgoInstance = Returns tok ->
  createArgoProject argoSvc (project_args matchedArgoInstance tok b) = Returns tt ->
  createArgoApplication argoSvc (application_args matchedArgoInstance tok b)
  = Returns tt ->
  run (create_argo argoSvc argoInstanceArray b)
  = (Returns {| http_status := JNum 200;
                body := BodyCreated (projectName b) (appName b) (namespace b) |},
     token_events argoSvc matchedArgoInstance
       ++ [EvCreateArgoProject (project_args matchedArgoInstance tok b);
           EvCreateArgoApplication (application_args matchedArgoInstance tok b)]).
Proof.
  intros Hfound Htoken Hproject Happ.
  now rewrite (create_argo_run _ _ _ _ Hfound), Htoken, Hproject, Happ.
Qed.


(** ** Waiting *)

Lemma total_wait_app (t u : Trace) :
  total_wait (t ++ u) = total_wait t + total_wait u.
Proof.
  induction t as [|ev t IH]; [reflexivity|].
  simpl. rewrite IH. destruct ev; lia.
Qed.

Lemma total_wait_of_poll (ev0 : Event) (l : Trace) :
  is_timer ev0 = false ->
  Forall (fun ev => ev = ev0 \/ ev = EvTimer 5000) l ->
  total_wait l = 5000 * Z.of_nat (count_calls is_timer l).
Proof.
  intros H0 Hall. induction Hall as [|ev l Hev _ IH]; [reflexivity|].
  rewrite count_calls_cons.
  change (total_wait (ev :: l))
    with (match ev with EvTimer ms => ms + total_wait l | _ => total_wait l end).
  rewrite IH. destruct Hev as [-> | ->].
  - rewrite H0. destruct ev0; try discriminate H0; lia.
  - cbn [is_timer]. lia.
Qed.

Section DeleteWait.

Variable argoSvc : ArgoService.
Variable argoWaitCycles : Z.
Variable argoInstanceArray : list Instance.
Variables argoInstanceName argoAppName : string.
Variable matchedArgoInstance : Instance.
Variable tok : string.

Hypothesis Hfound :
  find_instance argoInstanceArray (JStr argoInstanceName) = Some matchedArgoInstance.
Hypothesis Htoken : resolved_token argoSvc matchedArgoInstance = Returns tok.

(** The time a delete request waits. *)
Lemma delete_wait_bound :
  throws_nullish (deleteApp argoSvc (url matchedArgoInstance) argoAppName tok) = false ->
  0 <= total_wait
         (snd (run (delete_handler argoSvc argoWaitCycles argoInstanceArray
                      argoInstanceName argoAppName)))
    <= 5000 * Z.max 0 argoWaitCycles.
Proof.
  intros Hnull.
  destruct (delete_trace_parts _ argoWaitCycles _ _ _ _ _ Hfound Htoken Hnull)
    as [tail [Htr [Htail Hpolls]]].
  rewrite Htr, !total_wait_app.
  assert (Hprefix : total_wait
                      (request_prefix argoSvc matchedArgoInstance
                         argoInstanceName argoAppName) = 0).
  { unfold request_prefix.
    destruct (token_events_shape argoSvc matchedArgoInstance) as [-> | ->];
      reflexivity. }
  assert (Htl : total_wait tail = 0) by (destruct Htail as [-> | ->]; reflexivity).
  rewrite Hprefix, Htl. cbn [total_wait fold_right].
  rewrite (total_wait_of_poll (fetch_event matchedArgoInstance argoAppName tok)
             _ eq_refl Hpolls).
  match goal with
  | |- context [count_calls is_timer ?l] =>
      assert (Hcount : (count_calls is_timer l <= Z.to_nat argoWaitCycles)%nat)
  end.
  { destruct (signals_absent _); [unfold count_calls; simpl; lia|].
    unfold poll_trace.
    pose proof (poll_run_fetches_le argoSvc matchedArgoInstance argoAppName tok
                  (Z.to_nat argoWaitCycles) 0 initial_vars).
    pose proof (proj2 (poll_run_events argoSvc matchedArgoInstance argoAppName tok
                         (Z.to_nat argoWaitCycles) 0 initial_vars)).
    lia. }
  lia.
Qed.

End DeleteWait.

(** ** The instance directory *)

Lemma find_instance_cons (i : Instance) (l : list Instance) (v : JsVal) :
  find_instance (i :: l) v
  = if strict_eq_str (name i) v then Some i else find_instance l v.
Proof. reflexivity. Qed.

(** X20.  The lookup returns the first instance of the directory whose name
    is the requested string, compared exactly; a request name that is not a
    string matches nothing. *)
Theorem find_instance_first_match
    (argoInstanceArray : list Instance) (v : JsVal) (i : Instance) :
  find_instance argoInstanceArray v = Some i
  <-> exists before after,
        argoInstanceArray = before ++ i :: after
        /\ v = JStr (name i)
        /\ forall j, In j before -> name j <> name i.
Proof.
  split.
  - induction argoInstanceArray as [|j l IH]; [discriminate|].
    rewrite find_instance_cons.
    destruct (strict_eq_str (name j) v) eqn:E.
    + intros H. injection H as ->. exists [], l.
      repeat split; [|intros j []].
      destruct v; try discriminate. simpl in E.
      apply String.eqb_eq in E. now rewrite E.
    + intros H. destruct (IH H) as [before [after [-> [Hv Hmin]]]].
      exists (j :: before), after. repeat split; [assumption|].
      intros k [<- | Hk]; [|now apply Hmin].
      intros Heq. rewrite Hv, <- Heq in E. simpl in E.
      now rewrite String.eqb_refl in E.
  - intros [before [after [-> [-> Hmin]]]].
    induction before as [|j before IH].
    + cbn [app]. rewrite find_instance_cons. cbn. now rewrite String.eqb_refl.
    + cbn [app]. rewrite find_instance_cons. cbn.
      destruct (String.eqb_spec (name j) (name i)) as [Heq|_].
      * elim (Hmin j); [now left | exact Heq].
      * apply IH. intros k Hk. apply Hmin. now right.
Qed.

(** Every route reads the directory through the lookup only. *)
Lemma routes_use_lookup_only
    (argoSvc : ArgoService) (argoWaitCycles : Z) (d1 d2 : list Instance) :
  (forall v, find_instance d1 v = find_instance d2 v) ->
  (forall n x, get_by_name argoSvc d1 n x = get_by_name argoSvc d2 n x)
  /\ (forall n x, get_by_selector argoSvc d1 n x = get_by_selector argoSvc d2 n x)
  /\ (forall b, create_argo argoSvc d1 b = create_argo argoSvc d2 b)
  /\ (forall n x, delete_handler argoSvc argoWaitCycles d1 n x
                  = delete_handler argoSvc argoWaitCycles d2 n x).
Proof.
  intros Hsame. repeat split; intros.
  - unfold get_by_name. now rewrite Hsame.
  - unfold get_by_selector. now rewrite Hsame.
  - unfold create_argo. now rewrite Hsame.
  - unfold delete_handler. now rewrite Hsame.
Qed.

Lemma find_instance_skips_other_names (i : Instance) (l1 l2 : list Instance) (v : JsVal) :
  strict_eq_str (name i) v = false ->
  find_instance (l1 ++ i :: l2) v = find_instance (l1 ++ l2) v.
Proof.
  intros Hne. induction l1 as [|k l1 IH].
  - cbn [app]. now rewrite find_instance_cons, Hne.
  - cbn [app]. rewrite !find_instance_cons. now rewrite IH.
Qed.

Lemma find_instance_shadowed (i j : Instance) (before mid after : list Instance)
    (v : JsVal) :
  name j = name i ->
  find_instance (before ++ i :: mid ++ j :: after) v
  = find_instance (before ++ i :: mid ++ after) v.
Proof.
  intros Hname. induction before as [|k before IH].
  - cbn [app]. rewrite !find_instance_cons.
    destruct (strict_eq_str (name i) v) eqn:E; [reflexivity|].
    apply find_instance_skips_other_names. now rewrite Hname.
  - cbn [app]. rewrite !find_instance_cons. now rewrite IH.
Qed.

(** X21.  Names in the directory are not checked for uniqueness: when two
    configured instances share a name, the later one is never used.  Every
    instance-scoped route behaves as if it had been left out. *)
Theorem shadowed_instance_is_never_used
    (argoSvc : ArgoService) (argoWaitCycles : Z) (i j : Instance)
    (before mid after : list Instance) :
  name j = name i ->
  (forall n x,
      run (get_by_name argoSvc (before ++ i :: mid ++ j :: after) n x)
      = run (get_by_name argoSvc (before ++ i :: mid ++ after) n x))
  /\ (forall n x,
         run (get_by_selector argoSvc (before ++ i :: mid ++ j :: after) n x)
         = run (get_by_selector argoSvc (before ++ i :: mid ++ after) n x))
  /\ (forall b,
         run (create_argo argoSvc (before ++ i :: mid ++ j :: after) b)
         = run (create_argo argoSvc (before ++ i :: mid ++ after) b))
  /\ (forall n x,
         run (delete_handler argoSvc argoWaitCycles
                (before ++ i :: mid ++ j :: after) n x)
         = run (delete_handler argoSvc argoWaitCycles
                  (before ++ i :: mid ++ after) n x)).
Proof.
  intros Hname.
  destruct (routes_use_lookup_only argoSvc argoWaitCycles
              (before ++ i :: mid ++ j :: after) (before ++ i :: mid ++ after))
    as [Hn [Hs [Hc Hd]]].
  { intros v. now apply find_instance_shadowed. }
  repeat split; intros; now rewrite ?Hn, ?Hs, ?Hc, ?Hd.
Qed.

(** ** Reading the configuration *)

Lemma array_filter_returns {A : Type} (p : A -> Outcome bool) (l kept : list A) :
  array_filter p l = Returns kept ->
  kept = filter (fun x => match p x with Returns b => b | Throws _ => false end) l
  /\ forall x, In x l -> exists b, p x = Returns b.
Proof.
  revert kept. induction l as [|x l IH]; intros kept H.
  - injection H as <-. split; [reflexivity | intros x []].
  - cbn [array_filter] in H. unfold and_then in H.
    destruct (p x) as [keep|e] eqn:Epx; [|discriminate].
    destruct (array_filter p l) as [kept'|e]; [|discriminate].
    injection H as <-. destruct (IH kept' eq_refl) as [-> Hall].
    split.
    + cbn [filter]. now rewrite Epx.
    + intros y [<- | Hy]; [eauto | now apply Hall].
Qed.

Lemma array_reduce_concat_returns {A C : Type} (f : C -> Outcome (list A))
    (l : list C) (acc r : list A) :
  array_reduce (fun acc x => and_then (f x) (fun ys => Returns (acc ++ ys))) l acc
  = Returns r ->
  r = acc ++ flat_map (fun x => match f x with Returns ys => ys | Throws _ => [] end) l
  /\ forall x, In x l -> exists ys, f x = Returns ys.
Proof.
  revert acc r. induction l as [|x l IH]; intros acc r H.
  - injection H as <-. split; [now rewrite app_nil_r | intros x []].
  - cbn [array_reduce] in H. unfold and_then at 1 in H.
    unfold and_then at 1 in H.
    destruct (f x) as [ys|e] eqn:Efx; [|discriminate].
    destruct (IH _ _ H) as [-> Hall]. split.
    + cbn [flat_map]. now rewrite Efx, app_assoc.
    + intros y [<- | Hy]; [eauto | now apply Hall].
Qed.

Lemma array_map_returns {A B : Type} (f : A -> Outcome B) (l : list A) (r : list B) :
  array_map f l = Returns r -> Forall2 (fun x y => f x = Returns y) l r.
Proof.
  revert r. induction l as [|x l IH]; intros r H.
  - injection H as <-. constructor.
  - cbn [array_map] in H. unfold and_then in H.
    destruct (f x) as [y|e] eqn:Efx; [|discriminate].
    destruct (array_map f l) as [ys|e]; [|discriminate].
    injection H as <-. constructor; [exact Efx | now apply IH].
Qed.

Lemma Forall2_in_right {A B : Type} (R : A -> B -> Prop) (l : list A) (r : list B) :
  Forall2 R l r -> forall y, In y r -> exists x, In x l /\ R x y.
Proof.
  induction 1 as [|x y l r Hxy _ IH]; intros z Hz; [destruct Hz|].
  destruct Hz as [<- | Hz].
  - exists x. split; [now left | exact Hxy].
  - destruct (IH z Hz) as [x' [Hin HR]]. exists x'. split; [now right | exact HR].
Qed.

Lemma Forall2_in_left {A B : Type} (R : A -> B -> Prop) (l : list A) (r : list B) :
  Forall2 R l r -> forall x, In x l -> exists y, In y r /\ R x y.
Proof.
  induction 1 as [|x y l r Hxy _ IH]; intros z Hz; [destruct Hz|].
  destruct Hz as [<- | Hz].
  - exists y. split; [now left | exact Hxy].
  - destruct (IH z Hz) as [y' [Hin HR]]. exists y'. split; [now right | exact HR].
Qed.

Lemma find_instance_known (argoInstanceArray : list Instance) (n : string) :
  find_instance argoInstanceArray (JStr n) <> None <-> In n (map name argoInstanceArray).
Proof.
  split.
  - intros Hsome. destruct (in_dec string_dec n (map name argoInstanceArray)) as [|Hn];
      [assumption|]. now elim Hsome; apply find_instance_unknown.
  - intros Hin Hnone. induction argoInstanceArray as [|i l IH]; [destruct Hin|].
    rewrite find_instance_cons in Hnone. cbn in Hnone.
    destruct (String.eqb_spec (name i) n) as [|Hne]; [discriminate|].
    destruct Hin as [Heq | Hin]; [now elim Hne | now apply IH].
Qed.

Section ConfigurationFacts.

Variable Config : Type.
Variable reader : ConfigReader Config.

Lemma read_instance_fields (c : Config) (i : Instance) :
  read_instance reader c = Returns i ->
  getString reader c "name" = Returns (name i)
  /\ getString reader c "url" = Returns (url i)
  /\ getOptionalString reader c "token" = Returns (token i).
Proof.
  unfold read_instance, and_then.
  destruct (getString reader c "name"); [|discriminate].
  destruct (getString reader c "url"); [|discriminate].
  destruct (getOptionalString reader c "token"); [|discriminate].
  destruct (getOptionalString reader c "username"); [|discriminate].
  destruct (getOptionalString reader c "password"); [|discriminate].
  intros H. injection H as <-. now repeat split.
Qed.

(** What a successful read went through. *)
Lemma read_instances_returns (config : Config) (arr : list Instance) :
  read_instances reader config = Returns arr ->
  exists methods,
    getConfigArray reader config "argocd.appLocatorMethods" = Returns methods
    /\ (forall el, In el methods -> exists t, getString reader el "type" = Returns t)
    /\ (forall el, In el methods -> is_config_locator reader el = true ->
                   exists l, getConfigArray reader el "instances" = Returns l)
    /\ Forall2 (fun c i => read_instance reader c = Returns i)
         (flat_map (listed_instances reader)
            (filter (is_config_locator reader) methods))
         arr.
Proof.
  unfold read_instances. unfold and_then at 1.
  destruct (getConfigArray reader config "argocd.appLocatorMethods")
    as [methods|e]; [|discriminate].
  unfold and_then at 1.
  destruct (array_filter _ methods) as [argoApps|e] eqn:Hfilter; [|discriminate].
  unfold and_then at 1.
  destruct (array_reduce _ argoApps []) as [appArray|e] eqn:Hreduce; [|discriminate].
  intros Hmap. exists methods. split; [reflexivity|].
  apply array_filter_returns in Hfilter. destruct Hfilter as [Hkept Htyped].
  apply (array_reduce_concat_returns
           (fun argoApp => getConfigArray reader argoApp "instances")) in Hreduce.
  destruct Hreduce as [Happ Hlisted]. cbn [app] in Happ.
  assert (Hsame : forall el,
             match and_then (getString reader el "type")
                     (fun t => Returns (t =? "config")%string) with
             | Returns b => b
             | Throws _ => false
             end = is_config_locator reader el).
  { intros el. unfold is_config_locator, and_then.
    now destruct (getString reader el "type"). }
  rewrite (filter_ext _ _ Hsame) in Hkept. subst argoApps appArray.
  split; [|split].
  - intros el Hel. destruct (Htyped el Hel) as [b Hb]. unfold and_then in Hb.
    destruct (getString reader el "type") as [t|]; [eauto | discriminate].
  - intros el Hel Hconfig. apply Hlisted. apply filter_In. now split.
  - now apply array_map_returns.
Qed.

(** X22.  When the configuration is read successfully, the instance array
    holds, in configuration order, one instance per entry listed under the
    locators of type [config], read from that entry; locators of any other
    type contribute nothing. *)
Theorem instances_follow_the_configuration (config : Config) (arr : list Instance) :
  read_instances reader config = Returns arr ->
  exists methods,
    getConfigArray reader config "argocd.appLocatorMethods" = Returns methods
    /\ Forall2 (fun c i => read_instance reader c = Returns i)
         (flat_map (listed_instances reader)
            (filter (is_config_locator reader) methods))
         arr.
Proof.
  intros H. destruct (read_instances_returns config arr H)
    as [methods [Hm [_ [_ Hall]]]].
  exists methods. now split.
Qed.


(** X24.  After a successful read, a name resolves to an instance exactly
    when some entry listed under a locator of type [config] carries it. *)
Theorem configured_names_resolve (config : Config) (arr : list Instance)
    (methods : list Config) (n : string) :
  read_instances reader config = Returns arr ->
  getConfigArray reader config "argocd.appLocatorMethods" = Returns methods ->
  find_instance arr (JStr n) <> None
  <-> exists el c,
        In el methods
        /\ is_config_locator reader el = true
        /\ In c (listed_instances reader el)
        /\ getString reader c "name" = Returns n.
Proof.
  intros H Hm.
  destruct (read_instances_returns config arr H)
    as [methods' [Hm' [_ [_ Hall]]]].
  rewrite Hm in Hm'. injection Hm' as <-.
  rewrite find_instance_known, in_map_iff. split.
  - intros [i [Hname Hi]].
    destruct (Forall2_in_right _ _ _ Hall i Hi) as [c [Hc Hread]].
    apply in_flat_map in Hc. destruct Hc as [el [Hel Hc]].
    apply filter_In in Hel. destruct Hel as [Hel Hconfig].
    exists el, c. repeat split; try assumption.
    destruct (read_instance_fields c i Hread) as [Hn _]. now rewrite Hn, Hname.
  - intros [el [c [Hel [Hconfig [Hc Hn]]]]].
    destruct (Forall2_in_left _ _ _ Hall c) as [i [Hi Hread]].
    { apply in_flat_map. exists el. split; [|exact Hc]. apply filter_In. now split. }
    exists i. split; [|exact Hi].
    destruct (read_instance_fields c i Hread) as [Hn' _].
    rewrite Hn in Hn'. now injection Hn'.
Qed.

End ConfigurationFacts.

Section ConfiguredRouter.

Variable Config : Type.
Variable reader : ConfigReader Config.


End ConfiguredRouter.

(** ** Sync *)

(** X26.  When [resyncAppOnAllArgos] throws an error, the sync route uses
    one status both as the HTTP status and in the body: [e.status], or 500
    when that is missing or falsy, so never a falsy one.  The message is
    [e.message], or [Failed to sync your app, <selector>.] when [e.message]
    is missing or empty; in that case a selector with no string form makes
    the request fail with the conversion error instead. *)
Theorem sync_error_response_is_complete
    (Selector : Type) (selector_to_string : Selector -> Outcome string)
    (resyncAppOnAllArgos : Selector -> Outcome JsVal)
    (appSelector : Selector) (e st msg : JsVal) :
  resyncAppOnAllArgos appSelector = Throws e ->
  get_prop e "status" = Returns st ->
  get_prop e "message" = Returns msg ->
  truthy (if truthy st then st else JNum 500) = true
  /\ (truthy msg = true ->
      sync_handler selector_to_string resyncAppOnAllArgos appSelector
      = Returns {| http_status := if truthy st then st else JNum 500;
                   body := BodyStatusMessage (if truthy st then st else JNum 500)
                             msg |})
  /\ (truthy msg = false ->
      forall s, selector_to_string appSelector = Returns s ->
        sync_handler selector_to_string resyncAppOnAllArgos appSelector
        = Returns {| http_status := if truthy st then st else JNum 500;
                     body := BodyStatusMessage (if truthy st then st else JNum 500)
                               (JStr ("Failed to sync your app, " ++ s ++ ".")%string) |})
  /\ (truthy msg = false ->
      forall e', selector_to_string appSelector = Throws e' ->
        sync_handler selector_to_string resyncAppOnAllArgos appSelector = Throws e').
Proof.
  intros Hsync Hst Hmsg. unfold sync_handler. rewrite Hsync, Hst, Hmsg.
  cbn [and_then]. split; [|split; [|split]].
  - now destruct (truthy st) eqn:E.
  - intros Ht. now rewrite Ht.
  - intros Ht s Hs. now rewrite Ht, Hs.
  - intros Ht e' He. now rewrite Ht, He.
Qed.

(** ** The further properties at work *)

Lemma delete_always_answers_witness :
  exists a p tr,
    run (delete_handler svc_project_delete_refused 5 [prod_login] "prod" "app")
    = (Returns {| http_status := JNum 200; body := BodyDelete a p |}, tr)
    /\ (status p = "success" \/ status p = "failed").
Proof.
  apply (delete_always_answers svc_project_delete_refused 5 [prod_login] "prod" "app"
           prod_login "tok1" eq_refl eq_refl); reflexivity.
Defined.

Lemma delete_trace_shape_witness :
  exists tail,
    snd (run (delete_handler svc_gone_third 5 [prod_login] "prod" "app"))
    = ((request_prefix svc_gone_third prod_login "prod" "app"
          ++ [EvDeleteApp "https://argocd.prod" "app" "tok1"])
         ++ poll_trace svc_gone_third prod_login "app" "tok1" 5) ++ tail
    /\ (tail = [] \/ tail = [EvDeleteProject "https://argocd.prod" "app" "tok1"]).
Proof.
  destruct (delete_trace_shape svc_gone_third 5 [prod_login] "prod" "app"
              prod_login "tok1" eq_refl eq_refl eq_refl) as [tail [Htr [Htail _]]].
  exists tail. split; [exact Htr | exact Htail].
Defined.

Lemma app_success_iff_confirmed_witness :
  exists a p tr,
    run (delete_handler svc_gone_third 5 [prod_login] "prod" "app")
    = (Returns (send (BodyDelete a p)), tr)
    /\ (status a = "success"
        <-> (signals_absent (deleteApp svc_gone_third "https://argocd.prod" "app" "tok1")
             = false
             /\ exists k, (k < Z.to_nat 5)%nat
                          /\ observe (fetch svc_gone_third prod_login "app" "tok1" k)
                             = Gone)).
Proof.
  eexists; eexists; eexists. split; [vm_compute; reflexivity|].
  eapply (app_success_iff_confirmed svc_gone_third 5 [prod_login] "prod" "app"
           prod_login "tok1" eq_refl eq_refl).
  vm_compute. reflexivity.
Defined.

Lemma app_outcome_empty_iff_witness :
  exists a p tr,
    run (delete_handler svc_fetch_fails 5 [prod_static] "prod" "app")
    = (Returns (send (BodyDelete a p)), tr)
    /\ (status a = ""
        <-> (signals_absent (deleteApp svc_fetch_fails "https://argocd.prod" "app" "tok2")
             = false
             /\ is_rejected (deleteApp svc_fetch_fails "https://argocd.prod" "app" "tok2")
                = false
             /\ forall i, (i < Z.to_nat 5)%nat ->
                          observe (fetch svc_fetch_fails prod_static "app" "tok2" i)
                          = Errored)).
Proof.
  eexists; eexists; eexists. split; [vm_compute; reflexivity|].
  eapply (app_outcome_empty_iff svc_fetch_fails 5 [prod_static] "prod" "app"
           prod_static "tok2" eq_refl eq_refl).
  vm_compute. reflexivity.
Defined.

Lemma project_deletion_attempted_iff_witness :
  count_calls is_deleteProject
    (snd (run (delete_handler svc_pending 5 [prod_login] "prod" "app"))) = 1%nat
  <-> (is_rejected (deleteApp svc_pending "https://argocd.prod" "app" "tok1") = false
       /\ (signals_absent (deleteApp svc_pending "https://argocd.prod" "app" "tok1")
           = true
           \/ ends_pending
                (fun i => observe (fetch svc_pending prod_login "app" "tok1" i))
                (Z.to_nat 5) = false)).
Proof.
  apply (project_deletion_attempted_iff svc_pending 5 [prod_login] "prod" "app"
           prod_login "tok1" eq_refl eq_refl eq_refl).
Defined.

Lemma project_success_iff_witness :
  exists a p tr,
    run (delete_handler svc_gone_third 5 [prod_login] "prod" "app")
    = (Returns (send (BodyDelete a p)), tr)
    /\ (status p = "success"
        <-> (count_calls is_deleteProject tr = 1%nat
             /\ deleteProject svc_gone_third "https://argocd.prod" "app" "tok1"
                = Returns tt)).
Proof.
  eexists; eexists; eexists. split; [vm_compute; reflexivity|].
  eapply (project_success_iff svc_gone_third 5 [prod_login] "prod" "app"
           prod_login "tok1" eq_refl eq_refl).
  vm_compute. reflexivity.
Defined.

Lemma project_failure_reported_witness :
  exists a tr,
    run (delete_handler svc_project_delete_refused 5 [prod_login] "prod" "app")
    = (Returns {| http_status := JNum 200;
                  body := BodyDelete a
                            {| status := "failed";
                               message := "project has applications" |} |},
       tr).
Proof.
  apply (project_failure_reported svc_project_delete_refused 5 [prod_login]
           "prod" "app" prod_login "tok1" eq_refl eq_refl
           (JObj [("message", JStr "project has applications")])
           (JStr "project has applications")).
  - reflexivity.
  - reflexivity.
  - right. vm_compute. reflexivity.
  - reflexivity.
  - reflexivity.
Defined.

Lemma no_budget_no_poll_witness :
  count_calls is_getArgoAppData
    (snd (run (delete_handler svc_pending 0 [prod_login] "prod" "app"))) = 0%nat
  /\ count_calls is_timer
       (snd (run (delete_handler svc_pending 0 [prod_login] "prod" "app"))) = 0%nat
  /\ (is_rejected (deleteApp svc_pending "https://argocd.prod" "app" "tok1") = false ->
      count_calls is_deleteProject
        (snd (run (delete_handler svc_pending 0 [prod_login] "prod" "app"))) = 1%nat).
Proof.
  apply (no_budget_no_poll svc_pending 0 [prod_login] "prod" "app"
           prod_login "tok1" eq_refl eq_refl eq_refl). lia.
Defined.

Lemma pending_poll_waits_after_every_attempt_witness :
  count_calls is_timer
    (snd (run (delete_handler svc_pending 5 [prod_login] "prod" "app"))) = Z.to_nat 5
  /\ Forall (fun ev => is_timer ev = true -> ev = EvTimer 5000)
       (snd (run (delete_handler svc_pending 5 [prod_login] "prod" "app"))).
Proof.
  apply (pending_poll_waits_after_every_attempt svc_pending 5 [prod_login]
           "prod" "app" prod_login "tok1" eq_refl eq_refl eq_refl eq_refl).
  intros i _. reflexivity.
Defined.

Lemma clean_delete_succeeds_witness :
  exists tr,
    run (delete_handler svc_gone_third 5 [prod_login] "prod" "app")
    = (Returns (send (BodyDelete
                        {| status := "success";
                           message := "application is deleted successfully" |}
                        {| status := "success";
                           message := "project is deleted successfully" |})),
       tr)
    /\ count_calls is_deleteProject tr = 1%nat.
Proof.
  apply (clean_delete_succeeds svc_gone_third 5 [prod_login] "prod" "app"
           prod_login "tok1" eq_refl eq_refl eq_refl).
  - exists 2%nat. split; [vm_compute; lia | reflexivity].
  - reflexivity.
Defined.

Lemma unreadable_delete_error_is_ignored_witness :
  run (delete_handler svc_unreadable_delete_error 5 [prod_static] "prod" "app")
  = run (delete_handler (with_deleteApp (Returns true) svc_unreadable_delete_error) 5
           [prod_static] "prod" "app").
Proof.
  apply (unreadable_delete_error_is_ignored svc_unreadable_delete_error 5
           [prod_static] "prod" "app" prod_static "tok2"
           (JObj [("code", JNum 7)]) JUndefined); reflexivity.
Defined.

Lemma login_only_without_static_token_witness :
  count_calls is_getArgoToken
    (snd (run (delete_handler svc_pending 5 [prod_login] "prod" "app"))) = 1%nat
  /\ count_calls is_getArgoToken
       (snd (run (get_by_name svc_pending [prod_static] "prod" "app"))) = 0%nat.
Proof.
  split.
  - apply (login_only_without_static_token svc_pending 5 [prod_login] prod_login).
    reflexivity.
  - apply (login_only_without_static_token svc_pending 5 [prod_static] prod_static).
    reflexivity.
Defined.

Lemma login_failure_rejects_witness :
  fst (run (delete_handler svc_login_refused 5 [prod_login] "prod" "app"))
  = Throws (JObj [("status", JNum 401); ("message", JStr "Unauthorized")])
  /\ client_calls
       (snd (run (delete_handler svc_login_refused 5 [prod_login] "prod" "app")))
     = [EvGetArgoToken prod_login].
Proof.
  apply (login_failure_rejects svc_login_refused 5 [prod_login] prod_login "prod"
           (JObj [("status", JNum 401); ("message", JStr "Unauthorized")])
           eq_refl eq_refl eq_refl "app").
Defined.

Lemma create_login_failure_is_answered_witness :
  run (create_argo svc_login_unreachable [prod_login] create_request)
  = (Returns {| http_status := JNum 500;
                body := BodyStatusMessage JUndefined (JStr "connect ECONNREFUSED") |},
     [EvGetArgoToken prod_login])
  /\ run (create_argo svc_login_refused [prod_login] create_request)
     = (Returns {| http_status := JNum 401;
                   body := BodyStatusMessage (JNum 401) (JStr "Unauthorized") |},
        [EvGetArgoToken prod_login]).
Proof.
  split.
  - apply (create_login_failure_is_answered svc_login_unreachable [prod_login]
             prod_login create_request
             (JObj [("message", JStr "connect ECONNREFUSED")])
             JUndefined (JStr "connect ECONNREFUSED")); reflexivity.
  - apply (create_login_failure_is_answered svc_login_refused [prod_login]
             prod_login create_request
             (JObj [("status", JNum 401); ("message", JStr "Unauthorized")])
             (JNum 401) (JStr "Unauthorized")); reflexivity.
Defined.

Lemma instance_get_passes_through_witness :
  fst (run (get_by_selector svc_pending [prod_static] "prod" "team=a"))
  = Returns {| http_status := JNum 200; body := BodyData app_present |}
  /\ count_calls is_getArgoAppData
       (snd (run (get_by_selector svc_pending [prod_static] "prod" "team=a"))) = 1%nat
  /\ In (EvGetArgoAppData "https://argocd.prod" "prod" (BySelector "team=a") "tok2")
        (snd (run (get_by_selector svc_pending [prod_static] "prod" "team=a"))).
Proof.
  apply (instance_get_passes_through svc_pending [prod_static] prod_static
           "prod" "team=a" "tok2" eq_refl eq_refl).
Defined.

Lemma create_succeeds_witness :
  run (create_argo svc_pending [prod_login] create_request)
  = (Returns {| http_status := JNum 200;
                body := BodyCreated (JStr "proj") (JStr "app") (JStr "team-a") |},
     token_events svc_pending prod_login
       ++ [EvCreateArgoProject (project_args prod_login "tok1" create_request);
           EvCreateArgoApplication (application_args prod_login "tok1" create_request)]).
Proof.
  apply (create_succeeds svc_pending [prod_login] prod_login create_request "tok1");
    reflexivity.
Defined.


Lemma shadowed_instance_is_never_used_witness :
  run (delete_handler svc_pending 5 [prod_static; staging_login; prod_login]
         "prod" "app")
  = run (delete_handler svc_pending 5 [prod_static; staging_login] "prod" "app").
Proof.
  apply (shadowed_instance_is_never_used svc_pending 5 prod_static prod_login
           [] [staging_login] []).
  reflexivity.
Defined.

Lemma instances_follow_the_configuration_witness :
  exists methods,
    getConfigArray cfg_reader example_config "argocd.appLocatorMethods" = Returns methods
    /\ Forall2 (fun c i => read_instance cfg_reader c = Returns i)
         (flat_map (listed_instances cfg_reader)
            (filter (is_config_locator cfg_reader) methods))
         [prod_static; staging_login].
Proof.
  apply (instances_follow_the_configuration Cfg cfg_reader example_config).
  vm_compute. reflexivity.
Defined.

Lemma configured_names_resolve_witness :
  find_instance [prod_static; staging_login] (JStr "staging") <> None
  <-> exists el c,
        In el
          [CfgNode [("type", "config")] []
             [("instances",
               [CfgNode [("name", "prod"); ("url", "https://argocd.prod");
                         ("token", "tok2")] [] [];
                CfgNode [("name", "staging"); ("url", "https://argocd.staging")]
                  [] []])];
           CfgNode [("type", "kubernetes")] []
             [("instances", [CfgNode [("url", "https://argocd.other")] [] []])]]
        /\ is_config_locator cfg_reader el = true
        /\ In c (listed_instances cfg_reader el)
        /\ getString cfg_reader c "name" = Returns "staging".
Proof.
  apply (configured_names_resolve Cfg cfg_reader example_config).
  - vm_compute. reflexivity.
  - reflexivity.
Defined.



Lemma sync_error_response_is_complete_witness :
  sync_handler (fun s : string => Returns s)
    (fun _ => Throws (JObj [("status", JNum 0)])) "app=web"
  = Returns {| http_status := JNum 500;
               body := BodyStatusMessage (JNum 500)
                         (JStr "Failed to sync your app, app=web.") |}.
Proof.
  destruct (sync_error_response_is_complete string (fun s => Returns s)
              (fun _ => Throws (JObj [("status", JNum 0)])) "app=web"
              (JObj [("status", JNum 0)]) (JNum 0) JUndefined
              eq_refl eq_refl eq_refl) as [_ [_ [Hfallback _]]].
  exact (Hfallback eq_refl "app=web" eq_refl).
Defined.

(** ** A wait budget that is not an integer *)

Lemma budget_test (q : Q) (a : Z) : (inject_Z a < q)%Q <-> a < Qceiling q.
Proof.
  split.
  - intros Hlt. rewrite Zlt_Qlt.
    eapply Qlt_le_trans; [exact Hlt | apply Qle_ceiling].
  - intros Hlt. eapply Qle_lt_trans; [|apply Qceiling_lt].
    rewrite <- Zle_Qle. lia.
Qed.

Section NumberBudgetFacts.

Variable argoSvc : ArgoService.
Variable waitCycles : Q.
Variable matchedArgoInstance : Instance.
Variables argoAppName tok : string.

(** Inside the loop neither guard of the [catch] holds, so the body does
    the same with the number budget as with its ceiling. *)
Lemma poll_body_number_in_loop (attempts : Z) (v : DelVars) (tr : Trace) :
  attempts < Qceiling waitCycles ->
  poll_body_number argoSvc waitCycles matchedArgoInstance argoAppName tok attempts v tr
  = poll_body argoSvc (Qceiling waitCycles) matchedArgoInstance argoAppName tok
      attempts v tr.
Proof.
  intros Hlt.
  assert (Hz : (attempts =? Qceiling waitCycles) = false) by (apply Z.eqb_neq; lia).
  assert (Hq : Qeq_bool (inject_Z attempts) waitCycles = false).
  { destruct (Qeq_bool (inject_Z attempts) waitCycles) eqn:E; [|reflexivity].
    apply Qeq_bool_eq in E. apply budget_test in Hlt.
    rewrite E in Hlt. now apply Qlt_irrefl in Hlt. }
  unfold poll_body_number, poll_body. now rewrite Hz, Hq.
Qed.

Lemma poll_loop_number_step (attempts : Z) (v : DelVars) :
  poll_loop_number argoSvc waitCycles matchedArgoInstance argoAppName tok attempts v
  = if Qlt_le_dec (inject_Z attempts) waitCycles
    then x <- poll_body_number argoSvc waitCycles matchedArgoInstance argoAppName tok
                attempts v ;;
         match x with
         | Break v' => ret v'
         | Next v' =>
             poll_loop_number argoSvc waitCycles matchedArgoInstance argoAppName tok
               (attempts + 1) v'
         end
    else ret v.
Proof.
  simp poll_loop_number.
  destruct (Qlt_le_dec (inject_Z attempts) waitCycles); reflexivity.
Qed.

(** The loop runs as the integer loop whose budget is the ceiling. *)
Lemma poll_loop_number_ceiling (n : nat) :
  forall (attempts : Z) (v : DelVars) (tr : Trace),
    n = Z.to_nat (Qceiling waitCycles - attempts) ->
    poll_loop_number argoSvc waitCycles matchedArgoInstance argoAppName tok
      attempts v tr
    = poll_loop argoSvc (Qceiling waitCycles) matchedArgoInstance argoAppName tok
        attempts v tr.
Proof.
  induction n as [|n IH]; intros attempts v tr Hn;
    rewrite poll_loop_number_step, poll_loop_step.
  - destruct (Qlt_le_dec (inject_Z attempts) waitCycles) as [Hlt|_].
    { apply budget_test in Hlt. lia. }
    destruct (Z_lt_dec attempts (Qceiling waitCycles)); [lia | reflexivity].
  - destruct (Z_lt_dec attempts (Qceiling waitCycles)) as [Hlt|]; [|lia].
    destruct (Qlt_le_dec (inject_Z attempts) waitCycles) as [_|Hge].
    2:{ apply budget_test in Hlt. now apply Qle_not_lt in Hge. }
    unfold bind. rewrite (poll_body_number_in_loop attempts v tr Hlt).
    destruct (poll_body _ _ _ _ _ _ _ _) as [[[v'|v']|e] tr']; try reflexivity.
    apply IH. lia.
Qed.

End NumberBudgetFacts.

(** Two computations that continue alike after the same first step. *)
Lemma bind_ext {A B : Type} (m : M A) (k k' : A -> M B) (tr : Trace) :
  (forall a tr', k a tr' = k' a tr') -> bind m k tr = bind m k' tr.
Proof.
  intros Hk. unfold bind. destruct (m tr) as [[a|e] tr']; [apply Hk | reflexivity].
Qed.

(** A delete request with a number budget runs as the request with the
    integer budget that is its ceiling. *)
Lemma delete_handler_number_ceiling
    (argoSvc : ArgoService) (waitCycles : Q) (argoInstanceArray : list Instance)
    (argoInstanceName argoAppName : string) :
  run (delete_handler_number argoSvc waitCycles argoInstanceArray
         argoInstanceName argoAppName)
  = run (delete_handler argoSvc (Qceiling waitCycles) argoInstanceArray
           argoInstanceName argoAppName).
Proof.
  unfold run, delete_handler_number, delete_handler.
  apply bind_ext. intros _ tr0.
  destruct (find_instance argoInstanceArray (JStr argoInstanceName))
    as [matchedArgoInstance|]; [|reflexivity].
  apply bind_ext. intros tok tr1. apply bind_ext. intros v1 tr2.
  unfold bind. destruct (isAppexist v1); [|reflexivity].
  now rewrite (poll_loop_number_ceiling argoSvc waitCycles matchedArgoInstance
                 argoAppName tok _ 0 v1 tr2 eq_refl).
Qed.

(** With an integer budget the two embeddings of the handler agree. *)
Lemma delete_handler_number_integer
    (argoSvc : ArgoService) (argoWaitCycles : Z) (argoInstanceArray : list Instance)
    (argoInstanceName argoAppName : string) :
  run (delete_handler_number argoSvc (inject_Z argoWaitCycles) argoInstanceArray
         argoInstanceName argoAppName)
  = run (delete_handler argoSvc argoWaitCycles argoInstanceArray
           argoInstanceName argoAppName).
Proof.
  now rewrite delete_handler_number_ceiling, Qceiling_Z.
Qed.

Section NumberBudgetBounds.

Variable argoSvc : ArgoService.
Variable waitCycles : Q.
Variable argoInstanceArray : list Instance.
Variables argoInstanceName argoAppName : string.
Variable matchedArgoInstance : Instance.
Variable tok : string.

Hypothesis Hfound :
  find_instance argoInstanceArray (JStr argoInstanceName) = Some matchedArgoInstance.
Hypothesis Htoken : resolved_token argoSvc matchedArgoInstance = Returns tok.

Local Abbreviation handler :=
  (delete_handler_number argoSvc waitCycles argoInstanceArray
     argoInstanceName argoAppName).

(** X3.  Polling is bounded for every finite wait budget, integer or not:
    a delete request fetches the application at most as often as the budget
    rounded up to an integer (the budget itself when it is an integer, never
    when it is not positive), waits at most once per fetch, and calls
    [deleteApp] exactly once and [deleteProject] at most once. *)
Theorem delete_calls_bounded :
  throws_nullish (deleteApp argoSvc (url matchedArgoInstance) argoAppName tok) = false ->
  (count_calls is_getArgoAppData (snd (run handler))
   <= Z.to_nat (Qceiling waitCycles))%nat
  /\ (count_calls is_timer (snd (run handler))
      <= count_calls is_getArgoAppData (snd (run handler)))%nat
  /\ count_calls is_deleteApp (snd (run handler)) = 1%nat
  /\ (count_calls is_deleteProject (snd (run handler)) <= 1)%nat.
Proof.
  intros Hnull. rewrite delete_handler_number_ceiling.
  exact (delete_call_counts argoSvc (Qceiling waitCycles) argoInstanceArray
           argoInstanceName argoAppName matchedArgoInstance tok Hfound Htoken Hnull).
Qed.

(** X19.  For every finite wait budget, integer or not, a delete request
    spends at most five seconds times the budget rounded up to an integer in
    the timer, and nothing when the budget is not positive. *)
Theorem delete_wait_bounded :
  throws_nullish (deleteApp argoSvc (url matchedArgoInstance) argoAppName tok) = false ->
  0 <= total_wait (snd (run handler)) <= 5000 * Z.max 0 (Qceiling waitCycles).
Proof.
  intros Hnull. rewrite delete_handler_number_ceiling.
  exact (delete_wait_bound argoSvc (Qceiling waitCycles) argoInstanceArray
           argoInstanceName argoAppName matchedArgoInstance tok Hfound Htoken Hnull).
Qed.

End NumberBudgetBounds.

(** A budget of two and a half cycles gives three attempts and three waits
    when the application stays. *)
Example fractional_budget_rounds_up :
  count_calls is_getArgoAppData
    (snd (run (delete_handler_number svc_pending (5 # 2) [prod_login] "prod" "app")))
  = 3%nat
  /\ total_wait
       (snd (run (delete_handler_number svc_pending (5 # 2) [prod_login] "prod" "app")))
     = 15000.
Proof. split; vm_compute; reflexivity. Qed.

Lemma delete_calls_bounded_witness :
  (count_calls is_getArgoAppData
     (snd (run (delete_handler_number svc_pending (5 # 2) [prod_login] "prod" "app")))
   <= 3)%nat
  /\ (count_calls is_timer
        (snd (run (delete_handler_number svc_pending (5 # 2) [prod_login] "prod" "app")))
      <= count_calls is_getArgoAppData
           (snd (run (delete_handler_number svc_pending (5 # 2) [prod_login]
                        "prod" "app"))))%nat
  /\ count_calls is_deleteApp
       (snd (run (delete_handler_number svc_pending (5 # 2) [prod_login] "prod" "app")))
     = 1%nat
  /\ (count_calls is_deleteProject
        (snd (run (delete_handler_number svc_pending (5 # 2) [prod_login] "prod" "app")))
      <= 1)%nat.
Proof.
  apply (delete_calls_bounded svc_pending (5 # 2) [prod_login] "prod" "app"
           prod_login "tok1" eq_refl eq_refl eq_refl).
Defined.

Lemma delete_wait_bounded_witness :
  0 <= total_wait
         (snd (run (delete_handler_number svc_pending (5 # 2) [prod_login]
                      "prod" "app")))
    <= 15000.
Proof.
  apply (delete_wait_bounded svc_pending (5 # 2) [prod_login] "prod" "app"
           prod_login "tok1" eq_refl eq_refl eq_refl).
Defined.
